(** * rag/app/manual.py: the "manual" chunker

    A shallow embedding of [rag/app/manual.py]: the geometry tag, the
    outline-based level classifier, the section assigner, the chunk merger,
    the DOCX question/answer reconstructor and the [chunk] entry point,
    followed by the properties of these functions.

    Conventions.
    - Python [int] is [Z]; Python [float] is an IEEE-754 binary64 value,
      [spec_float] of the standard library with [prec = 53], [emax = 1024].
    - Python [str] is [string], a character being an [ascii] (texts are
      taken over the code points below 256); the tab and newline characters
      are [TAB] and [NL].
    - An exception that leaves a function is a value: [None] of an option,
      or [Raised] of [Outcome].
    - Python sets are [gset]; tuples are products or records.
    - Coordinates may be any binary64 value; only the order in which
      [sorted] leaves keys that differ and hold a NaN is not modelled (see
      [py_sorted]).
    - Functions of other modules ([rag.nlp], [rag.utils], [deepdoc.parser],
      the DOCX reader, the vision model) are section variables. *)

From Stdlib Require Import ZArith List String Ascii Bool Lia.
From Stdlib Require Import Floats.SpecFloat Numbers.DecimalString.
From stdpp Require Import base gmap strings list.

Import ListNotations.
Local Open Scope string_scope.
Local Open Scope Z_scope.

(** ** Python primitives *)

Module Py.

Definition TAB : string := String (ascii_of_nat 9) "".
Definition NL : string := String (ascii_of_nat 10) "".

(** [str(z)] for an int. *)
Definition str_of_int (z : Z) : string :=
  NilEmpty.string_of_int (Z.to_int z).

(** [sep.join(l)]. *)
Fixpoint join (sep : string) (l : list string) : string :=
  match l with
  | [] => ""
  | [x] => x
  | x :: rest => x +:+ sep +:+ join sep rest
  end.

(** Truth value of a string. *)
Definition truthy (s : string) : bool :=
  match s with EmptyString => false | _ => true end.

(** *** binary64 *)

Definition prec : Z := 53.
Definition emax : Z := 1024.

Abbreviation float := spec_float.

(** [float(z)]: the nearest double, ties to even. *)
Definition float_of_int (z : Z) : float := binary_normalize prec emax z 0 false.

Definition fadd : float -> float -> float := SFadd prec emax.
Definition fdiv : float -> float -> float := SFdiv prec emax.
Definition flt : float -> float -> bool := SFltb.
Definition feq : float -> float -> bool := SFeqb.

(** [a / b] on two ints: true division ([ZeroDivisionError] is not
    modelled; every divisor in this file is at least 1). *)
Definition truediv (a b : Z) : float := fdiv (float_of_int a) (float_of_int b).

(** The literal [d.ddd] with digits [digits] and [scale] fractional
    digits: the double nearest to [digits / 10^scale]. *)
Definition literal (digits : Z) (scale : Z) : float := truediv digits (10 ^ scale).

Definition fzero : float := S754_zero false.

(** [x == 0] on a float. *)
Definition is_zero (x : float) : bool := feq x fzero.

Definition is_finite (x : float) : bool :=
  match x with
  | S754_zero _ | S754_finite _ _ _ => true
  | _ => false
  end.

(** Nearest integer to [n / d] for [0 <= n], [0 < d], ties to even. *)
Definition div_half_even (n d : Z) : Z :=
  let q := n / d in
  let r := n mod d in
  match (2 * r ?= d) with
  | Lt => q
  | Gt => q + 1
  | Eq => if Z.even q then q else q + 1
  end.

(** [|x| * 10] rounded to an integer, for the finite double [m * 2^e]. *)
Definition tenths (m : positive) (e : Z) : Z :=
  match e with
  | Zneg p => div_half_even (10 * Zpos m) (2 ^ Zpos p)
  | _ => 10 * Zpos m * 2 ^ e
  end.

Definition sign_str (s : bool) : string := if s then "-" else "".

(** ["{:.1f}".format(x)]: the exact value of the double, correctly rounded
    to one fractional digit (ties to even), sign kept on zeros. *)
Definition format_1f (x : float) : string :=
  match x with
  | S754_nan => "nan"
  | S754_infinity s => sign_str s +:+ "inf"
  | S754_zero s => sign_str s +:+ "0.0"
  | S754_finite s m e =>
      let t := tenths m e in
      sign_str s +:+ str_of_int (t / 10) +:+ "." +:+ str_of_int (t mod 10)
  end.

End Py.

(** ** Geometry tag (nested function [tag] of [chunk]) *)

(** One geometry fragment [(pn, left, right, top, bottom)]: the page number
    is an int, the four coordinates are floats. *)
Record Pos := mkPos {
  pos_pn : Z;
  pos_left : Py.float;
  pos_right : Py.float;
  pos_top : Py.float;
  pos_bottom : Py.float
}.

(** [pn + left + right + top + bottom], left to right, the int promoted to
    a float by the first addition. *)
Definition tag_sum (pn : Z) (left right top bottom : Py.float) : Py.float :=
  Py.fadd (Py.fadd (Py.fadd (Py.fadd (Py.float_of_int pn) left) right) top) bottom.

Definition tag (pn : Z) (left right top bottom : Py.float) : string :=
  if Py.is_zero (tag_sum pn left right top bottom) then ""
  else "@@" +:+ Py.str_of_int pn +:+ Py.TAB +:+ Py.format_1f left
            +:+ Py.TAB +:+ Py.format_1f right
            +:+ Py.TAB +:+ Py.format_1f top
            +:+ Py.TAB +:+ Py.format_1f bottom +:+ "##".

Definition tag_pos (p : Pos) : string :=
  tag (pos_pn p) (pos_left p) (pos_right p) (pos_top p) (pos_bottom p).

(** The fragment of the specification's example. *)
Definition example_left : Py.float := Py.literal 1025 2.
Definition example_right : Py.float := Py.literal 5075 2.
Definition example_top : Py.float := Py.literal 1000 1.
Definition example_bottom : Py.float := Py.literal 120333 3.

(** The tag of the specification's example, with the tie 10.25 printed as
    10.2 and the tie 50.75 as 50.8. *)
Definition example_tag : string :=
  "@@3" +:+ Py.TAB +:+ "10.2" +:+ Py.TAB +:+ "50.8" +:+ Py.TAB +:+ "100.0"
        +:+ Py.TAB +:+ "120.3##".

(** The tag the specification expects for its example. *)
Definition example_tag_in_spec : string :=
  "@@3" +:+ Py.TAB +:+ "10.3" +:+ Py.TAB +:+ "50.8" +:+ Py.TAB +:+ "100.0"
        +:+ Py.TAB +:+ "120.3##".

(** A decimal digit. *)
Definition is_digit (c : ascii) : bool :=
  let n := nat_of_ascii c in ((48 <=? n) && (n <=? 57))%nat.

(** ** Bullet/outline classifier, outline path ([chunk], lines 214-226) *)

(** [[s[i] + s[i + 1] for i in range(len(s) - 1)]]. *)
Fixpoint bigrams (s : string) : list string :=
  match s with
  | String a (String b _ as rest) => String a (String b "") :: bigrams rest
  | _ => []
  end.

Definition py_len (s : string) : Z := Z.of_nat (String.length s).

(** [tks]: the bigrams of the outline title [t]. *)
Definition tks (t : string) : gset string := list_to_set (bigrams t).

(** [tks_]: the bigrams of the block text [txt] at the positions
    [range(min(len(t), len(txt) - 1))]. *)
Definition tks_ (t txt : string) : gset string :=
  list_to_set (take (Z.to_nat (Z.min (py_len t) (py_len txt - 1))) (bigrams txt)).

Definition set_len (s : gset string) : Z := Z.of_nat (size s).

(** [len(set(tks & tks_)) / max([len(tks), len(tks_), 1]) > 0.8]. *)
Definition outline_matches (t txt : string) : bool :=
  Py.flt (Py.literal 8 1)
         (Py.truediv (set_len (tks t ∩ tks_ t txt))
                     (Z.max (Z.max (set_len (tks t)) (set_len (tks_ t txt))) 1)).

(** The inner [for ... break ... else] loop: the level of the first outline
    entry that matches, [None] when the loop runs to its [else]. *)
Fixpoint first_match (txt : string) (outlines : list (string * Z)) : option Z :=
  match outlines with
  | [] => None
  | (t, lvl) :: rest =>
      if outline_matches t txt then Some lvl else first_match txt rest
  end.

(** [max([lvl for _, lvl in outlines])]; [None] is the [ValueError] of an
    empty list. *)
Definition max_lvl (outlines : list (string * Z)) : option Z :=
  match outlines with
  | [] => None
  | (_, l0) :: rest => Some (fold_left Z.max (map snd rest) l0)
  end.

(** The guard of line 214, for a parser that has an [outlines] attribute. *)
Definition outline_dense {S : Type} (outlines : list (string * Z)) (sections : list S) : bool :=
  (0 <? Z.of_nat (List.length sections))
  && Py.flt (Py.literal 3 2)
            (Py.truediv (Z.of_nat (List.length outlines)) (Z.of_nat (List.length sections))).

(** Lines 215-226: [(most_level, levels)] of the outline path. *)
Definition outline_levels (outlines : list (string * Z)) (texts : list string)
  : option (Z * list Z) :=
  match max_lvl outlines with
  | None => None
  | Some mx =>
      Some (Z.max 0 (mx - 1),
            map (fun txt => default (mx + 1) (first_match txt outlines)) texts)
  end.

(** Following the words of the specification: Jaccard similarity of the
    bigram sets of the first [k] characters of both texts,
    [k = min(len(t), len(txt))], above 0.8. *)
Definition spec_prefix (k : Z) (s : string) : string := String.substring 0 (Z.to_nat k) s.

Definition spec_jaccard_matches (t txt : string) : bool :=
  let k := Z.min (py_len t) (py_len txt) in
  let A : gset string := list_to_set (bigrams (spec_prefix k t)) in
  let B : gset string := list_to_set (bigrams (spec_prefix k txt)) in
  4 * set_len (A ∪ B) <? 5 * set_len (A ∩ B).

(** ** Section assigner ([chunk], lines 233-238) *)

(** The loop over [enumerate(levels)]: [i] is the index of the head of
    [rest], [sid] the running section id. *)
Fixpoint sec_ids_loop (most_level : Z) (levels : list Z) (i : nat) (sid : Z)
    (rest : list Z) : list Z :=
  match rest with
  | [] => []
  | lvl :: rest' =>
      let sid' :=
        if (lvl <=? most_level) && (0 <? i)%nat && negb (lvl =? nth (i - 1) levels 0)
        then sid + 1 else sid in
      sid' :: sec_ids_loop most_level levels (S i) sid' rest'
  end.

Definition sec_ids (most_level : Z) (levels : list Z) : list Z :=
  sec_ids_loop most_level levels 0 0 levels.

(** ** Chunk merger ([chunk], lines 240-274) *)

(** An entry of [sections] after line 240: [(txt, sec_id, poss)]. *)
Definition Item : Type := string * Z * list Pos.

Definition item_txt (x : Item) : string := x.1.1.
Definition item_sec_id (x : Item) : Z := x.1.2.
Definition item_poss (x : Item) : list Pos := x.2.

(** The [rows] of a table: a string, or a list of strings. *)
Inductive Rows :=
| RowsStr (s : string)
| RowsList (l : list string).

(** An entry of [tbls]: [((img, rows), poss)]. *)
Record Table (Image : Type) := mkTable {
  tbl_img : option Image;
  tbl_rows : Rows;
  tbl_poss : list Pos
}.
Arguments mkTable {Image}.
Arguments tbl_img {Image}.
Arguments tbl_rows {Image}.
Arguments tbl_poss {Image}.

(** Lines 241-244: the items appended for the tables. [None] is the
    [continue] of an empty [rows]; [rows[0]] of a non-empty list is its
    head. *)
Definition table_item {Image} (from_page : Z) (tb : Table Image) : option Item :=
  let poss :=
    map (fun p => mkPos (pos_pn p + 1 - from_page) (pos_left p) (pos_right p)
                        (pos_top p) (pos_bottom p)) (tbl_poss tb) in
  match tbl_rows tb with
  | RowsStr "" => None
  | RowsStr s => Some (s, -1, poss)
  | RowsList [] => None
  | RowsList (r :: _) => Some (r, -1, poss)
  end.

Definition table_items {Image} (from_page : Z) (tbls : list (Table Image)) : list Item :=
  omap (table_item from_page) tbls.

(** Line 256. *)
Definition using_vision_parser (sections : list Item) : bool :=
  match sections with
  | [] => false
  | _ => forallb (fun x => item_sec_id x =? 0) sections
  end.

(** The sort key [(x[-1][0][0], x[-1][0][3], x[-1][0][1])]; [None] is the
    [IndexError] of an item without positions. *)
Definition SortKey : Type := Z * Py.float * Py.float.

Definition sort_key (x : Item) : option SortKey :=
  match item_poss x with
  | [] => None
  | p :: _ => Some (pos_pn p, pos_top p, pos_left p)
  end.

(** Tuple comparison [a < b]: decided at the first component that differs. *)
Definition key_lt (a b : SortKey) : bool :=
  let '(p1, t1, l1) := a in
  let '(p2, t2, l2) := b in
  if negb (p1 =? p2) then p1 <? p2
  else if negb (Py.feq t1 t2) then Py.flt t1 t2
  else Py.flt l1 l2.

(** [sorted(..., key=...)] is stable: an item is placed before the first
    later item whose key is not smaller than its own. *)
Fixpoint insert_by_key (k : SortKey) (x : Item) (l : list (SortKey * Item))
  : list (SortKey * Item) :=
  match l with
  | [] => [(k, x)]
  | (k', y) :: rest =>
      if key_lt k' k then (k', y) :: insert_by_key k x rest
      else (k, x) :: (k', y) :: rest
  end.

Definition with_key (x : Item) : option (SortKey * Item) :=
  k ← sort_key x; Some (k, x).

(** [sorted(sections, key=lambda x: (x[-1][0][0], x[-1][0][3], x[-1][0][1]))],
    [None] when a key raises [IndexError]. The result is the one of Python
    for keys that [<] orders, as coordinates do unless one of them is NaN,
    and for keys that are all equal; for keys that differ and hold a NaN
    the order [sorted] returns is that of the interpreter's sort algorithm
    on an inconsistent comparison, which is not modelled. *)
Definition py_sorted (sections : list Item) : option (list Item) :=
  keyed ← mapM with_key sections;
  Some (map snd (fold_right (fun kx acc => insert_by_key kx.1 kx.2 acc) [] keyed)).

(** The variables of the merge loop. *)
Record MergeState := mkMergeState {
  chunks : list string;
  last_sid : Z;
  tk_cnt : Z
}.

Definition merge_init : MergeState := mkMergeState [] (-2) 0.

(** [chunks[-1] += s]. *)
Fixpoint append_to_last (l : list string) (s : string) : list string :=
  match l with
  | [] => []
  | [c] => [c +:+ s]
  | c :: rest => c :: append_to_last rest s
  end.

(** Line 259: the tags of the fragments of [poss], joined by tabs. *)
Definition poss_tags (poss : list Pos) : string := Py.join Py.TAB (map tag_pos poss).

Section Merger.

(** [rag.utils.num_tokens_from_string]. *)
Variable num_tokens_from_string : string -> Z.

(** Lines 263-265. *)
Definition should_merge (uvp : bool) (st : MergeState) (sec_id : Z) : bool :=
  if negb uvp then
    (tk_cnt st <? 32)
    || ((tk_cnt st <? 1024) && ((sec_id =? last_sid st) || (sec_id =? -1)))
  else false.

(** One iteration of the loop of line 258, lines 259-274. *)
Definition merge_step (uvp : bool) (st : MergeState) (x : Item) : MergeState :=
  let '(txt, sec_id, poss) := x in
  let poss := poss_tags poss in
  if should_merge uvp st sec_id && negb (bool_decide (chunks st = [])) then
    mkMergeState (append_to_last (chunks st) (Py.NL +:+ txt +:+ poss))
                 (last_sid st)
                 (tk_cnt st + num_tokens_from_string txt)
  else
    mkMergeState (chunks st ++ [txt +:+ poss])
                 (if sec_id >? -1 then sec_id else last_sid st)
                 (num_tokens_from_string txt).

Definition merge_loop (uvp : bool) (st : MergeState) (items : list Item) : MergeState :=
  fold_left (merge_step uvp) items st.

(** Lines 251-274: the chunks of [sections] (blocks and table items). *)
Definition merge_sections (sections : list Item) : option (list string) :=
  let uvp := using_vision_parser sections in
  sorted ← py_sorted sections;
  Some (chunks (merge_loop uvp merge_init sorted)).

End Merger.

(** ** DOCX parser (class [Docx]) *)

(** A picture: a leaf as read from the document, or the canvas built by
    [concat_img]. Only the size and the composition are kept. *)
Inductive Image :=
| Picture (width height : Z) (blob : string)
| Canvas (width height : Z) (top bottom : Image).

Definition image_size (img : Image) : Z * Z :=
  match img with
  | Picture w h _ => (w, h)
  | Canvas w h _ _ => (w, h)
  end.

(** [Docx.concat_img]: an image object is always true, [None] is false. *)
Definition concat_img (img1 img2 : option Image) : option Image :=
  match img1, img2 with
  | Some i1, None => Some i1
  | None, Some i2 => Some i2
  | None, None => None
  | Some i1, Some i2 =>
      let '(width1, height1) := image_size i1 in
      let '(width2, height2) := image_size i2 in
      Some (Canvas (Z.max width1 width2) (height1 + height2) i1 i2)
  end.

(** What the parser reads of a paragraph: its text, its style name, the
    picture found by [get_picture] and the XML of each of its runs. *)
Record Paragraph := mkParagraph {
  par_text : string;
  par_style : string;
  par_picture : option Image;
  par_runs : list string
}.

(** A table of the document: rows of cell texts. *)
Definition DocxTable : Type := list (list string).

Record Document := mkDocument {
  doc_paragraphs : list Paragraph;
  doc_tables : list DocxTable
}.

(** [c.isspace()] for a character below 256. *)
Definition is_space (c : ascii) : bool :=
  let n := Z.of_nat (nat_of_ascii c) in
  ((9 <=? n) && (n <=? 13)) || ((28 <=? n) && (n <=? 32)) || (n =? 133) || (n =? 160).

Fixpoint all_space (s : string) : bool :=
  match s with
  | EmptyString => true
  | String c rest => is_space c && all_space rest
  end.

(** Truth value of [p.text.strip()]. *)
Definition strip_nonempty (s : string) : bool := negb (all_space s).

(** [needle in hay]. *)
Fixpoint str_in (needle hay : string) : bool :=
  String.prefix needle hay
  || match hay with
     | EmptyString => false
     | String _ rest => str_in needle rest
     end.

Definition DQUOTE : string := String (ascii_of_nat 34) "".
Definition page_attr : string := "type=" +:+ DQUOTE +:+ "page" +:+ DQUOTE.

(** A run that carries the marker of a rendered page break. *)
Definition page_break_run : string := "<w:r><w:lastRenderedPageBreak/></w:r>".

(** Lines 142-147: the page counter after the runs of a paragraph. *)
Fixpoint count_breaks (pn : Z) (runs : list string) : Z :=
  match runs with
  | [] => pn
  | xml :: rest =>
      if str_in "lastRenderedPageBreak" xml then count_breaks (pn + 1) rest
      else if str_in "w:br" xml && str_in page_attr xml then count_breaks (pn + 1) rest
      else count_breaks pn rest
  end.

(** The variables of the paragraph loop. The two stacks are kept with
    their top at the head: [question_stack.append] is a cons and
    ["\n".join(question_stack)] joins the reversed list. *)
Record QAState := mkQAState {
  qa_pn : Z;
  last_answer : string;
  last_image : option Image;
  question_stack : list string;
  level_stack : list Z;
  ti_list : list (string * option Image)
}.

Definition qa_init : QAState := mkQAState 0 "" None [] [] [].

(** Lines 137-139: pop both stacks while the question stack is non-empty
    and [i <= level_stack[-1]]. *)
Fixpoint pop_stacks (i : Z) (qs : list string) (ls : list Z) : list string * list Z :=
  match qs, ls with
  | _ :: qs', l :: ls' => if i <=? l then pop_stacks i qs' ls' else (qs, ls)
  | _, _ => (qs, ls)
  end.

Definition sum_question (qs : list string) : string := Py.join Py.NL (rev qs).

(** A vision model: [describe_with_prompt(image, prompt)], [None] when the
    call raises. *)
Definition VisionModel : Type := Image -> string -> option string.

Section DocxParser.

(** [rag.nlp.docx_question_level]. *)
Variable docx_question_level : Paragraph -> Z * string.

Variable from_page to_page : Z.
Variable vision_model : option VisionModel.
Variable vision_prompt : option string.

(** Lines 112-114: [(question_level, p_text)]. *)
Definition question_of (st : QAState) (p : Paragraph) : Z * string :=
  if (from_page <=? qa_pn st) && (qa_pn st <? to_page) && strip_nonempty (par_text p)
  then docx_question_level p else (0, "").

(** Line 115: [not question_level or question_level > 6]. *)
Definition not_a_question (question_level : Z) : bool :=
  (question_level =? 0) || (question_level >? 6).

(** Lines 112-141: the body of the loop before the runs. *)
Definition qa_paragraph (st : QAState) (p : Paragraph) : QAState :=
  let '(question_level, p_text) := question_of st p in
  if not_a_question question_level then
    let current_image := par_picture p in
    let plain :=
      mkQAState (qa_pn st) (last_answer st +:+ Py.NL +:+ p_text)
                (concat_img (last_image st) current_image)
                (question_stack st) (level_stack st) (ti_list st) in
    match current_image, vision_model, vision_prompt with
    | Some img, Some vm, Some (String _ _ as prompt) =>
        match vm img prompt with
        | Some image_text =>
            mkQAState (qa_pn st)
                      (last_answer st +:+ Py.NL +:+ p_text +:+ Py.NL
                         +:+ "[Image Content]: " +:+ image_text)
                      (last_image st)
                      (question_stack st) (level_stack st) (ti_list st)
        | None => plain
        end
    | _, _, _ => plain
    end
  else
    let flushed :=
      if Py.truthy (last_answer st) || bool_decide (last_image st <> None) then
        let sq := sum_question (question_stack st) in
        mkQAState (qa_pn st) "" None (question_stack st) (level_stack st)
                  (if Py.truthy sq
                   then ti_list st ++ [(sq +:+ Py.NL +:+ last_answer st, last_image st)]
                   else ti_list st)
      else st in
    let '(qs, ls) := pop_stacks question_level (question_stack flushed) (level_stack flushed) in
    mkQAState (qa_pn flushed) (last_answer flushed) (last_image flushed)
              (p_text :: qs) (question_level :: ls) (ti_list flushed).

(** One iteration of the loop of line 109, after the test of line 110. *)
Definition qa_step (st : QAState) (p : Paragraph) : QAState :=
  let st' := qa_paragraph st p in
  mkQAState (count_breaks (qa_pn st') (par_runs p)) (last_answer st') (last_image st')
            (question_stack st') (level_stack st') (ti_list st').

(** Lines 109-147, with the [break] of line 111. *)
Fixpoint qa_loop (st : QAState) (ps : list Paragraph) : QAState :=
  match ps with
  | [] => st
  | p :: rest => if qa_pn st >? to_page then st else qa_loop (qa_step st p) rest
  end.

(** Lines 148-151. *)
Definition qa_finish (st : QAState) : list (string * option Image) :=
  if Py.truthy (last_answer st) then
    let sq := sum_question (question_stack st) in
    if Py.truthy sq then ti_list st ++ [(sq +:+ Py.NL +:+ last_answer st, last_image st)]
    else ti_list st
  else ti_list st.

(** Lines 158-169: the cells of a row from the cell [cur], which has been
    seen [span] times in a row, followed by [rest]. *)
Fixpoint row_cells (cur : string) (span : Z) (rest : list string) : string :=
  let td :=
    if span =? 1 then "<td>" +:+ cur +:+ "</td>"
    else "<td colspan='" +:+ Py.str_of_int span +:+ "'>" +:+ cur +:+ "</td>" in
  match rest with
  | [] => td
  | c :: rest' =>
      if String.eqb cur c then row_cells cur (span + 1) rest'
      else td +:+ row_cells c 1 rest'
  end.

Definition row_html (cells : list string) : string :=
  "<tr>" +:+ match cells with [] => "" | c :: rest => row_cells c 1 rest end +:+ "</tr>".

Definition table_html (tb : DocxTable) : string :=
  "<table>" +:+ fold_left (fun html r => html +:+ row_html r) tb "" +:+ "</table>".

(** [Docx.__call__]: [(ti_list, tbls)]; a table entry is
    [((None, html), "")]. *)
Definition Docx_call (doc : Document)
  : list (string * option Image) * list (Table Image) :=
  (qa_finish (qa_loop qa_init (doc_paragraphs doc)),
   map (fun tb => mkTable None (RowsStr (table_html tb)) []) (doc_tables doc)).

End DocxParser.

(** ** The entry point [chunk] *)

(** [c.lower()] for an ASCII letter. *)
Definition lower_char (c : ascii) : ascii :=
  let n := nat_of_ascii c in
  if ((65 <=? n) && (n <=? 90))%nat then ascii_of_nat (n + 32) else c.

Fixpoint lower (s : string) : string :=
  match s with
  | EmptyString => EmptyString
  | String c rest => String (lower_char c) (lower rest)
  end.

Definition is_letter (c : ascii) : bool :=
  let n := nat_of_ascii (lower_char c) in ((97 <=? n) && (n <=? 122))%nat.

(** [s.endswith(suffix)]. *)
Fixpoint ends_with (suffix s : string) : bool :=
  String.eqb suffix s
  || match s with
     | EmptyString => false
     | String _ rest => ends_with suffix rest
     end.

(** [re.search(lit + "$", s, re.IGNORECASE)] for a literal [lit] given in
    lower case: [$] matches at the end of the string and before a newline
    that ends the string. *)
Definition search_at_end (lit s : string) : bool :=
  ends_with lit (lower s) || ends_with (lit +:+ Py.NL) (lower s).

(** Line 188. *)
Definition is_pdf (filename : string) : bool := search_at_end ".pdf" filename.

(** Line 280: [\.docx?$]. *)
Definition is_docx (filename : string) : bool :=
  search_at_end ".doc" filename || search_at_end ".docx" filename.

(** [s] is one or more letters, then the end of the string or a final
    newline; the result is what is left after the letters. *)
Fixpoint letters_to_end (seen : bool) (s : string) : option string :=
  match s with
  | EmptyString => if seen then Some "" else None
  | String c rest =>
      if is_letter c then letters_to_end true rest
      else if seen && String.eqb s Py.NL then Some Py.NL
      else None
  end.

(** Line 183: [re.sub(r"\.[a-zA-Z]+$", "", s)]. *)
Fixpoint strip_extension (s : string) : string :=
  match s with
  | EmptyString => EmptyString
  | String c rest =>
      match (if Ascii.eqb c "." then letters_to_end false rest else None) with
      | Some tail => tail
      | None => String c (strip_extension rest)
      end
  end.

(** Exceptions that leave [chunk]. *)
Inductive Exn :=
| NotImplementedError (msg : string)
| AssertionError
| IndexError
| ValueError.

Inductive Outcome (A : Type) :=
| Returned (a : A)
| Raised (e : Exn).
Arguments Returned {A}.
Arguments Raised {A}.

(** The value of a field of an output record. *)
Inductive DocVal :=
| VStr (s : string)
| VImage (img : Image).

(** An output record: a dict with string keys. *)
Abbreviation Doc := (gmap string DocVal).

(** The argument [filename if not binary else binary] of the parsers. *)
Inductive Source :=
| FromPath (filename : string)
| FromBytes (binary : string).

Definition source (filename : string) (binary : option string) : Source :=
  match binary with
  | Some (String _ _ as b) => FromBytes b
  | _ => FromPath filename
  end.

(** [sections] as returned by a PDF parser: a list of pairs [(text, layout)]
    or of triples [(text, layout, positions)]. *)
Inductive Sections :=
| Sec2 (l : list (string * string))
| Sec3 (l : list (string * string * list Pos)).

(** What [chunk] reads of a PDF parser after the call: [sections], [tbls]
    and the attribute [outlines], when the parser has one. *)
Record ParseOut := mkParseOut {
  po_sections : Sections;
  po_tbls : list (Table Image);
  po_outlines : option (list (string * Z))
}.

Inductive ParserKind := PlainParser | PdfDeepDOC | VisionParser.

(** [kwargs]: [parser_config] holds the string-valued entries of the dict. *)
Record Kwargs := mkKwargs {
  kw_parser_config : option (gmap string string);
  kw_tenant_id : option string
}.

(** Line 180: the default configuration; its entries [chunk_token_num] and
    [delimiter] are not read by this module. *)
Definition default_parser_config : gmap string string :=
  {[ "layout_recognize" := "DeepDOC" ]}.

Definition zero_pos : Pos := mkPos 0 Py.fzero Py.fzero Py.fzero Py.fzero.

(** Lines 209-210. *)
Definition with_positions (s : Sections) : list (string * string * list Pos) :=
  match s with
  | Sec2 l => map (fun '(t, lvl) => (t, lvl, [zero_pos])) l
  | Sec3 l => l
  end.

Definition unsupported_msg : string :=
  "file type not supported yet(pdf and docx supported)".

(** Lines 289-303. *)
Definition docx_vision_prompt : string :=
  Py.join Py.NL
    [ "Please extract the layout information from the image and output only the text content in Markdown format.";
      "";
      "1. Ignore bounding boxes and coordinates.";
      "2. Categories:";
      "   - Picture: omit the text field.";
      "   - Formula: output as LaTeX format (enclosed in $ or $$).";
      "   - Table: MUST output as HTML table format with <table>, <tr>, <td>, <th> tags. Preserve all data and structure.";
      "   - All other categories (Text, Title, Caption, etc.): output as Markdown.";
      "";
      "3. Constraints:";
      "   - The output text must be the original text from the image, with no translation.";
      "   - All layout elements must be sorted according to human reading order.";
      "   - Tables should be formatted as complete HTML tables without unnecessary spaces or newlines.";
      "";
      "4. Final Output: A single Markdown document containing the extracted content with tables in HTML format." ].

Section Chunk.

(** [rag.nlp.rag_tokenizer]. *)
Variable rag_tokenize : string -> string.
Variable fine_grained_tokenize : string -> string.
(** [rag.nlp.tokenize(d, text, eng)]: the record [d] after the call. *)
Variable tokenize : Doc -> string -> bool -> Doc.
Variable tokenize_table : list (Table Image) -> Doc -> bool -> list Doc.
Variable tokenize_chunks : list string -> Doc -> bool -> ParserKind -> list Doc.
Variable bullets_category : list string -> Z.
Variable title_frequency : Z -> list (string * string) -> Z * list Z.
Variable num_tokens_from_string : string -> Z.
Variable docx_question_level : Paragraph -> Z * string.
(** [docx.Document(...)]. *)
Variable open_document : Source -> Document.
(** [LLMBundle(tenant_id, LLMType.IMAGE2TEXT, llm_name, lang)]; [None]
    when the construction raises (also for a missing [tenant_id]). *)
Variable LLMBundle : option string -> string -> string -> option VisionModel.
(** The PDF parsers, called on [(source, from_page, to_page)]. The plain
    and the layout parser are taken to return; a failure of the vision
    parser, which [chunk] catches, is [None]. What a parser does with the
    progress callback it is given is part of the parser. *)
Variable PlainParser_call : Source -> Z -> Z -> ParseOut.
Variable Pdf_call : Source -> Z -> Z -> ParseOut.
Variable VisionParser_call : VisionModel -> Source -> Z -> Z -> option ParseOut.
(** The argument [callback]: [None] is Python's [None], the default; a
    callable returns [None] when it raises. *)
Variable callback : option (Py.float -> string -> option unit).

(** [callback(prog, msg)] as [chunk] calls it, both times inside a [try]:
    [None] when the call raises, which it does for [callback=None]
    ([TypeError]). *)
Definition call_callback (prog : Py.float) (msg : string) : option unit :=
  match callback with
  | Some f => f prog msg
  | None => None
  end.

(** Lines 182-184. *)
Definition base_doc (filename : string) : Doc :=
  let title_tks := rag_tokenize (strip_extension filename) in
  <[ "title_sm_tks" := VStr (fine_grained_tokenize title_tks) ]>
    (<[ "title_tks" := VStr title_tks ]>
       ({[ "docnm_kwd" := VStr filename ]})).

Definition layout_recognize (kwargs : Kwargs) : string :=
  default "DeepDOC" (default default_parser_config (kw_parser_config kwargs) !! "layout_recognize").

(** Lines 189-208: the parser that ran and what it returned. *)
Definition parse_pdf (src : Source) (from_page to_page : Z) (lang : string)
    (kwargs : Kwargs) : ParserKind * ParseOut :=
  let layout_recognizer := layout_recognize kwargs in
  if String.eqb layout_recognizer "Plain Text" then
    (PlainParser, PlainParser_call src from_page to_page)
  else if String.eqb layout_recognizer "DeepDOC" then
    (PdfDeepDOC, Pdf_call src from_page to_page)
  else
    match LLMBundle (kw_tenant_id kwargs) layout_recognizer lang with
    | Some vm =>
        match VisionParser_call vm src from_page to_page with
        | Some out =>
            match call_callback (Py.literal 8 1) "Vision model parsing completed." with
            | Some _ => (VisionParser, out)
            | None => (PdfDeepDOC, Pdf_call src from_page to_page)
            end
        | None => (PdfDeepDOC, Pdf_call src from_page to_page)
        end
    | None => (PdfDeepDOC, Pdf_call src from_page to_page)
    end.

(** Lines 214-230: [(most_level, levels)]. *)
Definition classify (outlines : option (list (string * Z)))
    (sections : list (string * string * list Pos)) : Outcome (Z * list Z) :=
  let path_b :=
    let bull := bullets_category (map (fun s => s.1.1) sections) in
    Returned (title_frequency bull (map (fun s => s.1) sections)) in
  match outlines with
  | Some ol =>
      if outline_dense ol sections then
        match outline_levels ol (map (fun s => s.1.1) sections) with
        | Some r => Returned r
        | None => Raised ValueError
        end
      else path_b
  | None => path_b
  end.

(** Line 240. *)
Definition with_sec_ids (sections : list (string * string * list Pos)) (ids : list Z)
  : list Item :=
  zip_with (fun s sid => (s.1.1, sid, s.2)) sections ids.

(** Lines 188-278. *)
Definition chunk_pdf (filename : string) (binary : option string)
    (from_page to_page : Z) (lang : string) (kwargs : Kwargs) : Outcome (list Doc) :=
  let doc := base_doc filename in
  let eng := String.eqb (lower lang) "english" in
  let '(pdf_parser, out) := parse_pdf (source filename binary) from_page to_page lang kwargs in
  let sections := with_positions (po_sections out) in
  let tbls := po_tbls out in
  match classify (po_outlines out) sections with
  | Raised e => Raised e
  | Returned (most_level, levels) =>
      if negb (List.length sections =? List.length levels)%nat then Raised AssertionError
      else
        let items := (with_sec_ids sections (sec_ids most_level levels)
                        ++ table_items from_page tbls)%list in
        match merge_sections num_tokens_from_string items with
        | None => Raised IndexError
        | Some chunks =>
            Returned (tokenize_table tbls doc eng
                        ++ tokenize_chunks chunks doc eng pdf_parser)%list
        end
  end.

(** Lines 282-308: [(vision_model, vision_prompt)]. *)
Definition docx_vision (lang : string) (kwargs : Kwargs)
  : option VisionModel * option string :=
  let layout_recognizer := layout_recognize kwargs in
  if String.eqb layout_recognizer "DeepDOC" || String.eqb layout_recognizer "Plain Text"
  then (None, None)
  else
    match LLMBundle (kw_tenant_id kwargs) layout_recognizer lang with
    | Some vm =>
        match call_callback (Py.literal 5 2)
                ("Using " +:+ layout_recognizer +:+ " for image processing in DOCX.") with
        | Some _ => (Some vm, Some docx_vision_prompt)
        | None => (None, None)
        end
    | None => (None, None)
    end.

(** Lines 313-319: the record of one question/answer unit. *)
Definition qa_doc (doc : Doc) (eng : bool) (ti : string * option Image) : Doc :=
  let d :=
    match ti.2 with
    | Some image => <[ "doc_type_kwd" := VStr "image" ]> (<[ "image" := VImage image ]> doc)
    | None => doc
    end in
  tokenize d ti.1 eng.

(** Lines 280-320. *)
Definition chunk_docx (filename : string) (binary : option string)
    (from_page to_page : Z) (lang : string) (kwargs : Kwargs) : Outcome (list Doc) :=
  let doc := base_doc filename in
  let eng := String.eqb (lower lang) "english" in
  let '(vision_model, vision_prompt) := docx_vision lang kwargs in
  let '(ti_list, tbls) :=
    Docx_call docx_question_level 0 10000 vision_model vision_prompt
              (open_document (source filename binary)) in
  Returned (tokenize_table tbls doc eng ++ map (qa_doc doc eng) ti_list)%list.

(** [chunk(filename, binary, from_page, to_page, lang, callback, **kwargs)]. *)
Definition chunk (filename : string) (binary : option string)
    (from_page to_page : Z) (lang : string) (kwargs : Kwargs) : Outcome (list Doc) :=
  if is_pdf filename then chunk_pdf filename binary from_page to_page lang kwargs
  else if is_docx filename then chunk_docx filename binary from_page to_page lang kwargs
  else Raised (NotImplementedError unsupported_msg).

End Chunk.

(** ** PDF parser (class [Pdf]), lines 62-66 *)

(** A text box as the inherited layout pipeline leaves it in [self.boxes]:
    its text, its [layoutno] when it has one, and what [get_position]
    returns for it. *)
Record Box := mkBox {
  box_text : string;
  box_layoutno : option string;
  box_position : list Pos
}.

(** A character of the class of line 64, tab or space (its third member,
    U+3000, lies above the code points of the model). *)
Definition is_blank (c : ascii) : bool :=
  let n := nat_of_ascii c in ((n =? 9) || (n =? 32))%nat.

(** [s.lstrip()], [s.rstrip()] and [s.strip()]. *)
Fixpoint lstrip (s : string) : string :=
  match s with
  | EmptyString => EmptyString
  | String c rest => if is_space c then lstrip rest else s
  end.

Fixpoint rstrip (s : string) : string :=
  match s with
  | EmptyString => EmptyString
  | String c rest =>
      match rstrip rest with
      | EmptyString => if is_space c then EmptyString else String c EmptyString
      | kept => String c kept
      end
  end.

Definition strip (s : string) : string := rstrip (lstrip s).

(** What a run of blanks becomes: nothing when there is no run, the blank
    itself when it is alone, one space when the run has two or more. *)
Definition flush_run (run : option (ascii * bool)) : string :=
  match run with
  | None => ""
  | Some (c, false) => String c ""
  | Some (_, true) => " "
  end.

(** [re.sub(r"([\t ]){2,}", " ", s)], scanning [s] with the run of blanks
    that is open: its first character and whether it has two or more. *)
Fixpoint squeeze (run : option (ascii * bool)) (s : string) : string :=
  match s with
  | EmptyString => flush_run run
  | String c rest =>
      if is_blank c then
        squeeze (match run with None => Some (c, false) | Some (c0, _) => Some (c0, true) end)
                rest
      else flush_run run +:+ String c (squeeze None rest)
  end.

(** Line 64: the text of a box after the clean-up. *)
Definition clean_text (s : string) : string := squeeze None (strip s).

(** Line 66: what [Pdf.__call__] returns for the boxes and tables left by
    the pipeline. *)
Definition Pdf_return (boxes : list Box) (tbls : list (Table Image))
  : Sections * list (Table Image) :=
  (Sec3 (map (fun b => (clean_text (box_text b), default "" (box_layoutno b),
                        box_position b)) boxes),
   tbls).

(** Two neighbouring characters of the class of line 64. *)
Fixpoint has_double_blank (s : string) : bool :=
  match s with
  | String a (String b _ as rest) => (is_blank a && is_blank b) || has_double_blank rest
  | _ => false
  end.

Definition first_char (s : string) : option ascii :=
  match s with EmptyString => None | String c _ => Some c end.

Fixpoint last_char (s : string) : option ascii :=
  match s with
  | EmptyString => None
  | String c EmptyString => Some c
  | String _ rest => last_char rest
  end.

(** No whitespace at either end. *)
Definition trimmed (s : string) : Prop :=
  (forall c, first_char s = Some c -> is_space c = false)
  /\ (forall c, last_char s = Some c -> is_space c = false).

(** ** Concrete inputs used by the examples *)

Module Sample.

(** A fragment on page [pn] at [(left, top)], ten wide and five high. *)
Definition at_ (pn top left : Z) : Pos :=
  mkPos pn (Py.float_of_int left) (Py.float_of_int (left + 10))
        (Py.float_of_int top) (Py.float_of_int (top + 5)).

(** A tokenizer that counts characters. *)
Definition count_chars (s : string) : Z := py_len s.

Fixpoint replicate_char (n : nat) (c : ascii) : string :=
  match n with
  | O => EmptyString
  | S n' => String c (replicate_char n' c)
  end.

(** A block of 32 tokens in section 0, a second one in the same section
    just below it, and a block of section 1 on the next page. *)
Definition block_a : Item := (replicate_char 32 "a", 0, [at_ 0 0 0]).
Definition block_b : Item := (replicate_char 32 "b", 0, [at_ 0 10 0]).
Definition block_c : Item := ("c", 1, [at_ 1 0 0]).

(** Two short blocks of different sections. *)
Definition short_a : Item := ("intro", 0, [at_ 0 0 0]).
Definition short_b : Item := ("title", 1, [at_ 0 10 0]).

(** Two blocks of section 0 and one table. *)
Definition plain_1 : Item := ("one", 0, [at_ 0 0 0]).
Definition plain_2 : Item := ("two", 0, [at_ 0 10 0]).
Definition one_table : Table Image := mkTable None (RowsStr "<table></table>") [at_ 0 20 0].

(** A block of 40 tokens of section 1 and the next block of section 1. *)
Definition long_b : Item := (replicate_char 40 "b", 1, [at_ 0 10 0]).
Definition next_b : Item := ("more", 1, [at_ 0 20 0]).

(** A table item. *)
Definition table_entry : Item := ("<table></table>", -1, [at_ 0 20 0]).

(** A state with one open chunk of 32 tokens of section 0. *)
Definition open_at_32 : MergeState := mkMergeState ["open chunk"] 0 32.

(** An outline with one entry and a block that shares five of its six
    bigrams. *)
Definition outline : list (string * Z) := [("abcdefg", 1)].
Definition block_text : string := "abcdefx".

(** Paragraphs of a document: the heading level is read off the style
    name, as [docx_question_level] does without a bullet category. *)
Definition level_of_style (p : Paragraph) : Z * string :=
  (if String.eqb (par_style p) "Heading 1" then 1
   else if String.eqb (par_style p) "Heading 2" then 2
   else 0, par_text p).

Definition heading (lvl : Z) (t : string) : Paragraph :=
  mkParagraph t ("Heading " +:+ Py.str_of_int lvl) None [].
Definition body (t : string) : Paragraph := mkParagraph t "Normal" None [].

Definition stream : list Paragraph :=
  [heading 1 "H1"; body "P1"; heading 2 "H2"; body "P2"; heading 1 "H3"].

(** A paragraph with a picture, a vision model that describes every
    picture, and a heading whose run carries a page break. *)
Definition figure : Paragraph :=
  mkParagraph "see the figure" "Normal" (Some (Picture 10 20 "png")) [].
Definition describer : VisionModel := fun _ _ => Some "a diagram".
Definition heading_with_break : Paragraph :=
  mkParagraph "Cover" "Heading 1" None [page_break_run].

(** Collaborators of [chunk] that do as little as possible. *)
Definition no_tokens (s : string) : string := s.
Definition tokenize (d : Doc) (text : string) (eng : bool) : Doc :=
  <[ "content_with_weight" := VStr text ]> d.
Definition tokenize_table (tbls : list (Table Image)) (d : Doc) (eng : bool) : list Doc := [].
Definition tokenize_chunks (cks : list string) (d : Doc) (eng : bool) (k : ParserKind)
  : list Doc := map (fun c => tokenize d c eng) cks.
Definition bullets_category (texts : list string) : Z := -1.
Definition title_frequency (bull : Z) (secs : list (string * string)) : Z * list Z :=
  (0, map (fun _ => 1) secs).
Definition open_document (src : Source) : Document := mkDocument stream [].
Definition LLMBundle (tenant : option string) (name lang : string) : option VisionModel := None.
Definition empty_parse (src : Source) (from_page to_page : Z) : ParseOut :=
  mkParseOut (Sec3 []) [] None.
Definition vision_parse (vm : VisionModel) (src : Source) (from_page to_page : Z)
  : option ParseOut := None.
(** The [dummy] callback of the module's [__main__]. *)
Definition dummy (prog : Py.float) (msg : string) : option unit := Some tt.

Definition chunk (filename : string) (from_page to_page : Z) : Outcome (list Doc) :=
  chunk no_tokens no_tokens tokenize tokenize_table tokenize_chunks bullets_category
        title_frequency count_chars level_of_style open_document LLMBundle
        empty_parse empty_parse vision_parse (Some dummy) filename None from_page to_page
        "English" (mkKwargs None None).

End Sample.

(** The section-assigner loop with the level of the previous block carried
    along instead of read back from [levels]; [None] at the first block.
    Used to reason about [sec_ids_loop] (lemma [sec_ids_loop_carried]). *)
Fixpoint ids_carried (most_level : Z) (prev : option Z) (sid : Z) (rest : list Z)
  : list Z :=
  match rest with
  | [] => []
  | lvl :: rest' =>
      let sid' :=
        if (lvl <=? most_level)
           && match prev with Some p => negb (lvl =? p) | None => false end
        then sid + 1 else sid in
      sid' :: ids_carried most_level (Some lvl) sid' rest'
  end.

(** The test of line 236 for a block of level [lvl] that follows a block of
    level [prev]. *)
Definition opens_section (most_level prev lvl : Z) : bool :=
  (lvl <=? most_level) && negb (lvl =? prev).

(** The merge condition of line 265 as a proposition. *)
Definition merge_condition (st : MergeState) (sec_id : Z) : Prop :=
  tk_cnt st < 32 \/ (tk_cnt st < 1024 /\ (sec_id = last_sid st \/ sec_id = -1)).

(** What an item contributes to a chunk: its text followed by its tags. *)
Definition item_piece (x : Item) : string := item_txt x +:+ poss_tags (item_poss x).

(** [g] is the bigram [s[i] + s[i + 1]]. *)
Definition is_bigram_at (s : string) (i : nat) (g : string) : Prop :=
  exists a b, String.get i s = Some a /\ String.get (S i) s = Some b
              /\ g = String a (String b "").

(** Following the words of the specification: the level of an outline
    entry whose Jaccard similarity with the block is above 0.8, and
    [maxOutlineLevel + 1] when there is none. *)
Fixpoint spec_first_match (txt : string) (outlines : list (string * Z)) : option Z :=
  match outlines with
  | [] => None
  | (t, lvl) :: rest =>
      if spec_jaccard_matches t txt then Some lvl else spec_first_match txt rest
  end.

Definition spec_outline_levels (outlines : list (string * Z)) (texts : list string)
  : option (Z * list Z) :=
  match max_lvl outlines with
  | None => None
  | Some mx =>
      Some (Z.max 0 (mx - 1),
            map (fun txt => default (mx + 1) (spec_first_match txt outlines)) texts)
  end.


(** The state with the pending answer and image emptied. *)
Definition clear_pending (st : QAState) : QAState :=
  mkQAState (qa_pn st) "" None (question_stack st) (level_stack st) (ti_list st).

(** Every character of [s] is a letter of [[a-zA-Z]]. *)
Fixpoint all_letters (s : string) : bool :=
  match s with
  | EmptyString => true
  | String c rest => is_letter c && all_letters rest
  end.

(** Line 169: the markup of one cell of text [g.1] spanning [g.2] columns. *)
Definition td_html (g : string * Z) : string :=
  if g.2 =? 1 then "<td>" +:+ g.1 +:+ "</td>"
  else "<td colspan='" +:+ Py.str_of_int g.2 +:+ "'>" +:+ g.1 +:+ "</td>".

(** The concatenation of a list of strings. *)
Definition concat_str (l : list string) : string := fold_right String.append "" l.

(** The cells a list of (text, span) groups stands for. *)
Definition expand_groups (groups : list (string * Z)) : list string :=
  flat_map (fun g => replicate (Z.to_nat g.2) g.1) groups.

(** The levels of a stack, top first, decrease strictly towards the
    bottom. *)
Fixpoint nested (ls : list Z) : Prop :=
  match ls with
  | [] => True
  | top :: below =>
      match below with [] => True | l :: _ => l < top end /\ nested below
  end.


(** Height and width of an optional picture; [None] counts for nothing. *)
Definition opt_height (o : option Image) : Z :=
  match o with Some i => (image_size i).2 | None => 0 end.

Definition sum_heights (l : list (option Image)) : Z :=
  fold_right Z.add 0 (map opt_height l).



(** * Properties *)

(** ** Geometry tag *)

Lemma str_of_digit (d : Z) :
  0 <= d < 10 -> exists c, Py.str_of_int d = String c "" /\ is_digit c = true.
Proof.
  intros Hd.
  assert (Hcases : d = 0 \/ d = 1 \/ d = 2 \/ d = 3 \/ d = 4 \/ d = 5 \/ d = 6
                   \/ d = 7 \/ d = 8 \/ d = 9) by lia.
  repeat (destruct Hcases as [-> | Hcases]); [..| subst d];
    (eexists; split; [vm_compute; reflexivity | reflexivity]).
Qed.

(** [div_half_even n d] is the integer nearest to [n / d], the even one of
    the two when [n / d] lies halfway between them. *)
Lemma div_half_even_nearest (n d : Z) :
  0 <= n -> 0 < d ->
  0 <= Py.div_half_even n d
  /\ 2 * Z.abs (n - Py.div_half_even n d * d) <= d
  /\ (2 * Z.abs (n - Py.div_half_even n d * d) = d -> Z.even (Py.div_half_even n d) = true).
Proof.
  intros Hn Hd. unfold Py.div_half_even.
  pose proof (Z.div_mod n d ltac:(lia)) as Hdm.
  pose proof (Z.mod_pos_bound n d Hd) as Hm.
  pose proof (Z.div_pos n d Hn Hd) as Hq.
  set (q := n / d) in *. set (r := n mod d) in *.
  assert (Hr : n - q * d = r) by lia.
  assert (Hr1 : n - (q + 1) * d = r - d) by lia.
  destruct (Z.compare_spec (2 * r) d) as [E | E | E].
  - destruct (Z.even q) eqn:Ev.
    + rewrite Hr. repeat split; try lia. intros _. exact Ev.
    + rewrite Hr1. repeat split; try lia. intros _.
      rewrite Z.even_add, Ev. reflexivity.
  - rewrite Hr. repeat split; lia.
  - rewrite Hr1. repeat split; lia.
Qed.

(** The tenths printed for the finite double [m * 2^e]: the value times ten
    when that is an integer, and otherwise the integer nearest to it, ties
    going to the even one. *)
Lemma tenths_nearest (m : positive) (e : Z) :
  0 <= Py.tenths m e
  /\ (0 <= e -> Py.tenths m e = 10 * Zpos m * 2 ^ e)
  /\ (e < 0 ->
      2 * Z.abs (10 * Zpos m - Py.tenths m e * 2 ^ (- e)) <= 2 ^ (- e)
      /\ (2 * Z.abs (10 * Zpos m - Py.tenths m e * 2 ^ (- e)) = 2 ^ (- e) ->
          Z.even (Py.tenths m e) = true)).
Proof.
  destruct e as [| p | p].
  - split; [simpl; lia |]. split; [intros _; reflexivity | lia].
  - split.
    + unfold Py.tenths. apply Z.mul_nonneg_nonneg; [lia | apply Z.pow_nonneg; lia].
    + split; [intros _; reflexivity | lia].
  - assert (Hpow : 0 < 2 ^ Z.pos p) by (apply Z.pow_pos_nonneg; lia).
    destruct (div_half_even_nearest (10 * Z.pos m) (2 ^ Z.pos p) ltac:(lia) Hpow)
      as (H0 & H1 & H2).
    change (- Z.neg p) with (Z.pos p). unfold Py.tenths.
    split; [exact H0 |]. split; [lia |]. intros _. split; assumption.
Qed.

(** A finite double is printed as a sign, an integer, a point and one
    decimal digit. *)
Lemma format_1f_shape (x : Py.float) :
  Py.is_finite x = true ->
  exists (s : bool) (n : Z) (c : ascii),
    is_digit c = true
    /\ Py.format_1f x = Py.sign_str s +:+ Py.str_of_int n +:+ "." +:+ String c "".
Proof.
  destruct x as [s | s | | s m e]; simpl; try discriminate; intros _.
  - exists s, 0, "0"%char. split; reflexivity.
  - destruct (str_of_digit (Py.tenths m e mod 10)) as (c & Hc & Hdig).
    { apply Z.mod_pos_bound. lia. }
    exists s, (Py.tenths m e / 10), c. split; [exact Hdig |].
    rewrite Hc. reflexivity.
Qed.

Lemma tag_nonempty_shape (pn : Z) (l r t b : Py.float) :
  Py.is_zero (tag_sum pn l r t b) = false ->
  tag pn l r t b =
    "@@" +:+ Py.str_of_int pn +:+ Py.TAB +:+ Py.format_1f l
         +:+ Py.TAB +:+ Py.format_1f r
         +:+ Py.TAB +:+ Py.format_1f t
         +:+ Py.TAB +:+ Py.format_1f b +:+ "##".
Proof. intros H. unfold tag. rewrite H. reflexivity. Qed.

Lemma tag_empty_iff (pn : Z) (l r t b : Py.float) :
  tag pn l r t b = "" <-> Py.is_zero (tag_sum pn l r t b) = true.
Proof.
  unfold tag. destruct (Py.is_zero (tag_sum pn l r t b)); split; intros H;
    try reflexivity; discriminate.
Qed.

(** The literal 10.25 is the double 41/4 and 50.75 is 203/4: both lie
    halfway between two one-digit decimals. *)
Lemma example_ties :
  example_left = S754_finite false (41 * 2 ^ 47) (-49)
  /\ example_right = S754_finite false (203 * 2 ^ 45) (-47).
Proof. split; vm_compute; reflexivity. Qed.

(** C6, as stated, fails on its own example: the fragment
    (3, 10.25, 50.75, 100.0, 120.333) is not tagged with 10.3 for the left
    coordinate (10.25 is a tie between 10.2 and 10.3, printed as 10.2);
    and the fragment (1, -1.0, 0.0, 0.0, 0.0), whose fields are not all
    zero, is tagged with the empty string. *)
Lemma tag_example_differs_from_spec :
  tag 3 example_left example_right example_top example_bottom <> example_tag_in_spec
  /\ tag 1 (Py.float_of_int (-1)) Py.fzero Py.fzero Py.fzero = "".
Proof. split; [vm_compute; discriminate | vm_compute; reflexivity]. Qed.

(** C6, amended: [tag] returns the empty string exactly when the sum
    pn + left + right + top + bottom is zero, which is the case for the
    all-zero fragment; otherwise it returns "@@", the page number and the
    four coordinates separated by tabs, then "##"; every finite coordinate
    is printed with exactly one fractional digit; the digits printed for a
    coordinate of absolute value m * 2^e are those of the integer [t] of
    tenths nearest to 10 * m * 2^e, the even one when two are equally near
    (so [t] is exact when e >= 0), a zero being printed as 0.0 with its
    sign; and the example fragment (3, 10.25, 50.75, 100.0, 120.333) is
    tagged "@@3\t10.2\t50.8\t100.0\t120.3##". *)
Theorem tag_format :
  (forall pn l r t b, tag pn l r t b = "" <-> Py.is_zero (tag_sum pn l r t b) = true)
  /\ (forall s1 s2 s3 s4,
        tag 0 (S754_zero s1) (S754_zero s2) (S754_zero s3) (S754_zero s4) = "")
  /\ (forall pn l r t b,
        Py.is_zero (tag_sum pn l r t b) = false ->
        tag pn l r t b =
          "@@" +:+ Py.str_of_int pn +:+ Py.TAB +:+ Py.format_1f l
               +:+ Py.TAB +:+ Py.format_1f r
               +:+ Py.TAB +:+ Py.format_1f t
               +:+ Py.TAB +:+ Py.format_1f b +:+ "##")
  /\ (forall x, Py.is_finite x = true ->
        exists (s : bool) (n : Z) (c : ascii),
          is_digit c = true
          /\ Py.format_1f x = Py.sign_str s +:+ Py.str_of_int n +:+ "." +:+ String c "")
  /\ (forall (s : bool) (m : positive) (e : Z),
        exists t : Z,
          Py.format_1f (S754_finite s m e)
          = Py.sign_str s +:+ Py.str_of_int (t / 10) +:+ "." +:+ Py.str_of_int (t mod 10)
          /\ 0 <= t
          /\ (0 <= e -> t = 10 * Zpos m * 2 ^ e)
          /\ (e < 0 ->
              2 * Z.abs (10 * Zpos m - t * 2 ^ (- e)) <= 2 ^ (- e)
              /\ (2 * Z.abs (10 * Zpos m - t * 2 ^ (- e)) = 2 ^ (- e) -> Z.even t = true)))
  /\ (forall s : bool, Py.format_1f (S754_zero s) = Py.sign_str s +:+ "0.0")
  /\ tag 3 example_left example_right example_top example_bottom = example_tag.
Proof.
  split; [exact tag_empty_iff |].
  split; [intros [] [] [] []; vm_compute; reflexivity |].
  split; [exact tag_nonempty_shape |].
  split; [exact format_1f_shape |].
  split; [intros s m e; exists (Py.tenths m e); split;
          [reflexivity | exact (tenths_nearest m e)] |].
  split; [reflexivity |].
  vm_compute. reflexivity.
Qed.

Lemma tag_format_witness :
  tag 2 (Py.literal 5 1) (Py.literal 15 1) Py.fzero (Py.literal 25 2)
  = "@@2" +:+ Py.TAB +:+ "0.5" +:+ Py.TAB +:+ "1.5" +:+ Py.TAB +:+ "0.0"
          +:+ Py.TAB +:+ "0.2##".
Proof.
  destruct tag_format as (_ & _ & Hshape & _).
  rewrite Hshape; [vm_compute; reflexivity | vm_compute; reflexivity].
Defined.

(** ** Section assigner *)

Lemma sec_ids_loop_carried (most_level : Z) (levels : list Z) :
  forall (rest : list Z) (i : nat) (sid : Z),
    drop i levels = rest ->
    sec_ids_loop most_level levels i sid rest
    = ids_carried most_level (match i with O => None | S j => levels !! j end) sid rest.
Proof.
  induction rest as [| lvl rest IH]; intros i sid Hdrop; [reflexivity |].
  assert (Hi : levels !! i = Some lvl).
  { rewrite <- (Nat.add_0_r i), <- lookup_drop, Hdrop. reflexivity. }
  assert (Hrest : drop (S i) levels = rest).
  { rewrite (drop_S levels lvl i Hi) in Hdrop. congruence. }
  simpl. rewrite (IH (S i) _ Hrest), Hi. f_equal.
  - destruct i as [| j]; simpl.
    + rewrite andb_false_r. destruct (lvl <=? most_level); reflexivity.
    + rewrite Nat.sub_0_r.
      assert (Hj : is_Some (levels !! j)).
      { apply lookup_lt_is_Some. apply lookup_lt_Some in Hi. lia. }
      destruct Hj as [p Hp]. rewrite Hp.
      rewrite (nth_lookup_Some levels j 0 p Hp), andb_true_r. reflexivity.
  - f_equal. destruct i as [| j]; simpl.
    + rewrite andb_false_r. destruct (lvl <=? most_level); reflexivity.
    + rewrite Nat.sub_0_r.
      assert (Hj : is_Some (levels !! j)).
      { apply lookup_lt_is_Some. apply lookup_lt_Some in Hi. lia. }
      destruct Hj as [p Hp]. rewrite Hp.
      rewrite (nth_lookup_Some levels j 0 p Hp), andb_true_r. reflexivity.
Qed.

Lemma sec_ids_carried (most_level : Z) (levels : list Z) :
  sec_ids most_level levels = ids_carried most_level None 0 levels.
Proof. unfold sec_ids. apply (sec_ids_loop_carried most_level levels levels 0%nat 0). reflexivity. Qed.

Lemma ids_carried_length (most_level : Z) :
  forall rest prev sid, List.length (ids_carried most_level prev sid rest) = List.length rest.
Proof. induction rest as [| lvl rest IH]; intros; simpl; [| rewrite IH]; reflexivity. Qed.

Lemma ids_carried_lower_bound (most_level : Z) :
  forall rest prev sid (i : nat) a,
    ids_carried most_level prev sid rest !! i = Some a -> sid <= a.
Proof.
  induction rest as [| lvl rest IH]; intros prev sid i a Hi; [discriminate |].
  simpl in Hi. destruct i as [| i]; simpl in Hi.
  - injection Hi as <-. destruct (_ && _); lia.
  - apply IH in Hi. destruct (_ && _); lia.
Qed.

Lemma ids_carried_monotone (most_level : Z) :
  forall rest prev sid (i j : nat) a b,
    (i <= j)%nat ->
    ids_carried most_level prev sid rest !! i = Some a ->
    ids_carried most_level prev sid rest !! j = Some b ->
    a <= b.
Proof.
  induction rest as [| lvl rest IH]; intros prev sid i j a b Hij Hi Hj; [discriminate |].
  simpl in Hi, Hj. destruct i as [| i], j as [| j]; simpl in Hi, Hj; try lia.
  - assert (Some a = Some b) as [= ->] by congruence. lia.
  - injection Hi as <-. eapply ids_carried_lower_bound; eassumption.
  - eapply (IH _ _ i j); [lia | eassumption | eassumption].
Qed.

Lemma ids_carried_step (most_level : Z) :
  forall rest prev sid (i : nat) p lvl,
    rest !! i = Some p ->
    rest !! S i = Some lvl ->
    exists s,
      ids_carried most_level prev sid rest !! i = Some s
      /\ ids_carried most_level prev sid rest !! S i
         = Some (if opens_section most_level p lvl then s + 1 else s).
Proof.
  induction rest as [| x rest IH]; intros prev sid i p lvl Hp Hl; [discriminate |].
  destruct i as [| i].
  - simpl in Hp. injection Hp as ->.
    destruct rest as [| y rest]; [discriminate |]. simpl in Hl. injection Hl as ->.
    eexists. split; reflexivity.
  - simpl in Hp, Hl. simpl.
    destruct (IH (Some x)
                 (if (x <=? most_level)
                     && match prev with Some q => negb (x =? q) | None => false end
                  then sid + 1 else sid) i p lvl Hp Hl) as (s & Hs1 & Hs2).
    exists s. split; assumption.
Qed.

(** C4: the section ids have the length of the levels, start at 0, never
    decrease, and from one block to the next the id grows by exactly 1 when
    the block's level is at most the pivot level and differs from the level
    of the block before it, and stays the same otherwise. *)
Theorem sec_ids_sequence (most_level : Z) (levels : list Z) :
  List.length (sec_ids most_level levels) = List.length levels
  /\ (forall lvl rest, levels = lvl :: rest ->
        sec_ids most_level levels !! 0%nat = Some 0)
  /\ (forall (i j : nat) a b,
        (i <= j)%nat ->
        sec_ids most_level levels !! i = Some a ->
        sec_ids most_level levels !! j = Some b ->
        a <= b)
  /\ (forall (i : nat) prev lvl,
        levels !! i = Some prev ->
        levels !! S i = Some lvl ->
        exists s,
          sec_ids most_level levels !! i = Some s
          /\ sec_ids most_level levels !! S i
             = Some (if (lvl <=? most_level) && negb (lvl =? prev) then s + 1 else s)).
Proof.
  rewrite sec_ids_carried. repeat split.
  - apply ids_carried_length.
  - intros lvl rest ->. simpl. rewrite andb_false_r. reflexivity.
  - intros i j a b. apply ids_carried_monotone.
  - intros i prev lvl. apply ids_carried_step.
Qed.

Lemma sec_ids_sequence_witness :
  sec_ids 1 [0; 2; 1; 1; 0; 3] = [0; 0; 1; 1; 2; 2]
  /\ exists s, sec_ids 1 [0; 2; 1; 1; 0; 3] !! 1%nat = Some s
               /\ sec_ids 1 [0; 2; 1; 1; 0; 3] !! 2%nat = Some (s + 1).
Proof.
  split; [reflexivity |].
  destruct (sec_ids_sequence 1 [0; 2; 1; 1; 0; 3]) as (_ & _ & _ & Hstep).
  destruct (Hstep 1%nat 2 1 eq_refl eq_refl) as (s & H1 & H2).
  exists s. split; [exact H1 | exact H2].
Defined.

(** ** Chunk merger *)

Lemma append_to_last_length (l : list string) (s : string) :
  List.length (append_to_last l s) = List.length l.
Proof.
  induction l as [| c l IH]; [reflexivity |].
  destruct l as [| c' l]; [reflexivity |].
  change (append_to_last (c :: c' :: l) s) with (c :: append_to_last (c' :: l) s).
  simpl List.length in *. rewrite IH. reflexivity.
Qed.

Lemma should_merge_iff (uvp : bool) (st : MergeState) (sec_id : Z) :
  should_merge uvp st sec_id = true <-> uvp = false /\ merge_condition st sec_id.
Proof.
  unfold should_merge, merge_condition. destruct uvp; simpl.
  - split; [discriminate | intros [H _]; discriminate].
  - rewrite orb_true_iff, andb_true_iff, orb_true_iff, !Z.ltb_lt, !Z.eqb_eq. tauto.
Qed.

Section MergerProperties.

Variable num_tokens_from_string : string -> Z.

Lemma merge_step_merged (uvp : bool) (st : MergeState) (x : Item) :
  chunks st <> [] ->
  should_merge uvp st (item_sec_id x) = true ->
  merge_step num_tokens_from_string uvp st x
  = mkMergeState (append_to_last (chunks st) (Py.NL +:+ item_piece x))
                 (last_sid st)
                 (tk_cnt st + num_tokens_from_string (item_txt x)).
Proof.
  intros Hne Hm. destruct x as [[txt sec_id] poss]. unfold merge_step.
  cbn [item_sec_id fst snd] in Hm. rewrite Hm.
  rewrite bool_decide_eq_false_2 by exact Hne. reflexivity.
Qed.

Lemma merge_step_new (uvp : bool) (st : MergeState) (x : Item) :
  chunks st = [] \/ should_merge uvp st (item_sec_id x) = false ->
  merge_step num_tokens_from_string uvp st x
  = mkMergeState (chunks st ++ [item_piece x])
                 (if item_sec_id x >? -1 then item_sec_id x else last_sid st)
                 (num_tokens_from_string (item_txt x)).
Proof.
  intros H. destruct x as [[txt sec_id] poss]. unfold merge_step.
  cbn [item_sec_id fst snd] in H.
  destruct H as [He | Hm].
  - rewrite (bool_decide_eq_true_2 _ He), andb_false_r. reflexivity.
  - rewrite Hm. reflexivity.
Qed.

(** C1, amended: with a chunk open and merging not disabled, an item is
    merged into the open chunk exactly when tokenCount < 32, or
    tokenCount < 1024 and its sectionId is lastSectionId or -1; otherwise it
    starts a new chunk. In particular an item of the same section that
    arrives at tokenCount = 32 is merged, and one that arrives at
    tokenCount = 1024 starts a new chunk. *)
Theorem merge_exactly_when (uvp : bool) (st : MergeState) (x : Item) :
  chunks st <> [] ->
  (uvp = false /\ merge_condition st (item_sec_id x) ->
     chunks (merge_step num_tokens_from_string uvp st x)
       = append_to_last (chunks st) (Py.NL +:+ item_piece x)
     /\ tk_cnt (merge_step num_tokens_from_string uvp st x)
        = tk_cnt st + num_tokens_from_string (item_txt x))
  /\ (~ (uvp = false /\ merge_condition st (item_sec_id x)) ->
     chunks (merge_step num_tokens_from_string uvp st x) = (chunks st ++ [item_piece x])%list
     /\ tk_cnt (merge_step num_tokens_from_string uvp st x)
        = num_tokens_from_string (item_txt x))
  /\ (List.length (chunks (merge_step num_tokens_from_string uvp st x))
        = List.length (chunks st)
      <-> uvp = false /\ merge_condition st (item_sec_id x))
  /\ (uvp = false -> tk_cnt st = 32 -> item_sec_id x = last_sid st ->
      List.length (chunks (merge_step num_tokens_from_string uvp st x))
        = List.length (chunks st))
  /\ (tk_cnt st = 1024 ->
      List.length (chunks (merge_step num_tokens_from_string uvp st x))
        = S (List.length (chunks st))).
Proof.
  intros Hne.
  assert (Hyes : uvp = false /\ merge_condition st (item_sec_id x) ->
                 merge_step num_tokens_from_string uvp st x
                 = mkMergeState (append_to_last (chunks st) (Py.NL +:+ item_piece x))
                     (last_sid st) (tk_cnt st + num_tokens_from_string (item_txt x))).
  { intros H. apply merge_step_merged; [exact Hne |]. apply should_merge_iff, H. }
  assert (Hno : ~ (uvp = false /\ merge_condition st (item_sec_id x)) ->
                merge_step num_tokens_from_string uvp st x
                = mkMergeState (chunks st ++ [item_piece x])
                    (if item_sec_id x >? -1 then item_sec_id x else last_sid st)
                    (num_tokens_from_string (item_txt x))).
  { intros H. apply merge_step_new. right.
    destruct (should_merge uvp st (item_sec_id x)) eqn:E; [| reflexivity].
    exfalso. apply H, should_merge_iff, E. }
  assert (Hdec : (uvp = false /\ merge_condition st (item_sec_id x))
                 \/ ~ (uvp = false /\ merge_condition st (item_sec_id x))).
  { destruct (should_merge uvp st (item_sec_id x)) eqn:E.
    - left. apply should_merge_iff, E.
    - right. intros H. apply should_merge_iff in H. congruence. }
  split; [intros H; rewrite (Hyes H); split; reflexivity |].
  split; [intros H; rewrite (Hno H); split; reflexivity |].
  split; [| split].
  - split.
    + intros Hlen. destruct Hdec as [H | H]; [exact H |].
      rewrite (Hno H) in Hlen. cbn [chunks] in Hlen.
      rewrite length_app in Hlen. simpl in Hlen. lia.
    + intros H. rewrite (Hyes H). cbn [chunks]. apply append_to_last_length.
  - intros Hu Htk Hsec. rewrite Hyes; [cbn [chunks]; apply append_to_last_length |].
    split; [exact Hu |]. right. split; [lia | left; exact Hsec].
  - intros Htk. rewrite Hno.
    + cbn [chunks]. rewrite length_app. simpl. lia.
    + intros [_ [H | [H _]]]; lia.
Qed.

Lemma merge_step_length (uvp : bool) (st : MergeState) (x : Item) :
  List.length (chunks (merge_step num_tokens_from_string uvp st x)) = List.length (chunks st)
  \/ List.length (chunks (merge_step num_tokens_from_string uvp st x))
     = S (List.length (chunks st)).
Proof.
  destruct (decide (chunks st = [])) as [He | Hne].
  - right. rewrite merge_step_new by (left; exact He). cbn [chunks].
    rewrite length_app. simpl. lia.
  - destruct (should_merge uvp st (item_sec_id x)) eqn:E.
    + left. rewrite merge_step_merged by assumption. apply append_to_last_length.
    + right. rewrite merge_step_new by (right; exact E). cbn [chunks].
      rewrite length_app. simpl. lia.
Qed.

(** C2, amended: after an item is processed, lastSectionId is the item's
    sectionId when the item started a new chunk and its sectionId is
    greater than -1, and is unchanged otherwise; so an item merged into the
    open chunk and an item with sectionId -1 never change it, and a run of
    table items leaves it as it was. *)
Theorem last_sid_update (uvp : bool) (st : MergeState) (x : Item) :
  last_sid (merge_step num_tokens_from_string uvp st x)
  = (if (List.length (chunks (merge_step num_tokens_from_string uvp st x))
           =? S (List.length (chunks st)))%nat
        && (item_sec_id x >? -1)
     then item_sec_id x else last_sid st)
  /\ (List.length (chunks (merge_step num_tokens_from_string uvp st x))
        = List.length (chunks st) ->
      last_sid (merge_step num_tokens_from_string uvp st x) = last_sid st)
  /\ (item_sec_id x = -1 ->
      last_sid (merge_step num_tokens_from_string uvp st x) = last_sid st)
  /\ (forall tables,
        Forall (fun t => item_sec_id t = -1) tables ->
        last_sid (merge_loop num_tokens_from_string uvp st tables) = last_sid st).
Proof.
  assert (Hstep : forall st0 x0,
             last_sid (merge_step num_tokens_from_string uvp st0 x0)
             = (if (List.length (chunks (merge_step num_tokens_from_string uvp st0 x0))
                      =? S (List.length (chunks st0)))%nat
                   && (item_sec_id x0 >? -1)
                then item_sec_id x0 else last_sid st0)).
  { intros st0 x0.
    destruct (decide (chunks st0 = [])) as [He | Hne];
      [| destruct (should_merge uvp st0 (item_sec_id x0)) eqn:E].
    - rewrite merge_step_new by (left; exact He). cbn [chunks last_sid].
      rewrite length_app. simpl List.length.
      replace (List.length (chunks st0) + 1 =? S (List.length (chunks st0)))%nat
        with true by (symmetry; apply Nat.eqb_eq; lia).
      reflexivity.
    - rewrite merge_step_merged by assumption. cbn [chunks last_sid].
      rewrite append_to_last_length.
      replace (List.length (chunks st0) =? S (List.length (chunks st0)))%nat
        with false by (symmetry; apply Nat.eqb_neq; lia).
      reflexivity.
    - rewrite merge_step_new by (right; exact E). cbn [chunks last_sid].
      rewrite length_app. simpl List.length.
      replace (List.length (chunks st0) + 1 =? S (List.length (chunks st0)))%nat
        with true by (symmetry; apply Nat.eqb_eq; lia).
      reflexivity. }
  assert (Htable : forall st0 x0, item_sec_id x0 = -1 ->
             last_sid (merge_step num_tokens_from_string uvp st0 x0) = last_sid st0).
  { intros st0 x0 Hx. rewrite Hstep, Hx, andb_false_r. reflexivity. }
  split; [apply Hstep |]. split; [| split].
  - intros Hlen. rewrite Hstep, Hlen.
    replace (List.length (chunks st) =? S (List.length (chunks st)))%nat
      with false by (symmetry; apply Nat.eqb_neq; lia).
    reflexivity.
  - apply Htable.
  - intros tables Hall. revert st. induction Hall as [| t tables Ht _ IH]; intros st0.
    + reflexivity.
    + unfold merge_loop in *. simpl. rewrite IH. apply Htable, Ht.
Qed.

Lemma merge_loop_no_merging :
  forall (items : list Item) (st : MergeState),
    chunks (merge_loop num_tokens_from_string true st items)
    = (chunks st ++ map item_piece items)%list.
Proof.
  induction items as [| x items IH]; intros st.
  - simpl. rewrite app_nil_r. reflexivity.
  - unfold merge_loop in *. simpl. rewrite IH.
    rewrite merge_step_new by (right; reflexivity). cbn [chunks].
    rewrite <- app_assoc. reflexivity.
Qed.

End MergerProperties.

Lemma insert_by_key_perm (k : SortKey) (x : Item) (l : list (SortKey * Item)) :
  map snd (insert_by_key k x l) ≡ₚ x :: map snd l.
Proof.
  induction l as [| [k' y] l IH]; simpl; [reflexivity |].
  destruct (key_lt k' k); simpl; [| reflexivity].
  rewrite IH. apply Permutation_swap.
Qed.

Lemma sort_keyed_perm (keyed : list (SortKey * Item)) :
  map snd (fold_right (fun kx acc => insert_by_key kx.1 kx.2 acc) [] keyed)
  ≡ₚ map snd keyed.
Proof.
  induction keyed as [| [k x] keyed IH]; simpl; [reflexivity |].
  rewrite insert_by_key_perm, IH. reflexivity.
Qed.

Lemma mapM_with_key (items : list Item) :
  Forall (fun x => item_poss x <> []) items ->
  exists keyed, mapM with_key items = Some keyed /\ map snd keyed = items.
Proof.
  induction 1 as [| x items Hx _ (keyed & Hk & Hs)].
  - exists []. split; reflexivity.
  - destruct (item_poss x) as [| p ps] eqn:Ep; [congruence |].
    exists ((pos_pn p, pos_top p, pos_left p, x) :: keyed). split.
    + assert (Hx' : with_key x = Some (pos_pn p, pos_top p, pos_left p, x)).
      { unfold with_key, sort_key. rewrite Ep. reflexivity. }
      cbn [mapM]. rewrite Hx', Hk. reflexivity.
    + simpl. rewrite Hs. reflexivity.
Qed.

(** An input whose items all have a position is sorted into a permutation
    of itself. *)
Lemma py_sorted_perm (items : list Item) :
  Forall (fun x => item_poss x <> []) items ->
  exists sorted, py_sorted items = Some sorted /\ sorted ≡ₚ items.
Proof.
  intros H. destruct (mapM_with_key items H) as (keyed & Hk & Hs).
  unfold py_sorted. rewrite Hk. simpl. eexists. split; [reflexivity |].
  rewrite sort_keyed_perm, Hs. reflexivity.
Qed.

Lemma using_vision_parser_all_zero (items : list Item) :
  items <> [] ->
  Forall (fun x => item_sec_id x = 0) items ->
  using_vision_parser items = true.
Proof.
  intros Hne Hall. destruct items as [| x items]; [congruence |].
  unfold using_vision_parser. apply forallb_forall. intros y Hy.
  rewrite Forall_forall in Hall. apply Z.eqb_eq, Hall, list_elem_of_In, Hy.
Qed.

(** C3, amended: when every item handed to the merger (every block and
    every table item) has sectionId 0, that is, all blocks have sectionId 0
    and no table contributes an item, and every item has a position, then
    merging is disabled: the output is one chunk per item, each the item's
    text followed by its tags, in reading order; so there are as many chunks
    as items. *)
Theorem no_sectioning_one_chunk_per_item (num_tokens_from_string : string -> Z)
    (items : list Item) :
  Forall (fun x => item_sec_id x = 0) items ->
  Forall (fun x => item_poss x <> []) items ->
  exists sorted chunks,
    py_sorted items = Some sorted
    /\ sorted ≡ₚ items
    /\ merge_sections num_tokens_from_string items = Some chunks
    /\ chunks = map item_piece sorted
    /\ List.length chunks = List.length items.
Proof.
  intros Hzero Hpos.
  destruct (py_sorted_perm items Hpos) as (sorted & Hs & Hperm).
  exists sorted, (map item_piece sorted).
  split; [exact Hs |]. split; [exact Hperm |].
  split; [| split; [reflexivity |]].
  - unfold merge_sections. rewrite Hs. simpl.
    destruct items as [| x items].
    + apply Permutation_nil_r in Hperm. subst sorted. reflexivity.
    + rewrite using_vision_parser_all_zero by (congruence || assumption).
      rewrite merge_loop_no_merging. reflexivity.
  - rewrite length_map. apply Permutation_length, Hperm.
Qed.

(** C1, as stated, fails: after [block_a] the open chunk has tokenCount 32
    and lastSectionId 0; [block_b], of section 0, is then merged into it
    instead of starting a new chunk, and the three blocks give two chunks. *)
Lemma same_section_at_32_is_merged :
  List.length (chunks (merge_step Sample.count_chars false merge_init Sample.block_a)) = 1%nat
  /\ tk_cnt (merge_step Sample.count_chars false merge_init Sample.block_a) = 32
  /\ last_sid (merge_step Sample.count_chars false merge_init Sample.block_a)
     = item_sec_id Sample.block_b
  /\ using_vision_parser [Sample.block_a; Sample.block_b; Sample.block_c] = false
  /\ List.length (chunks (merge_step Sample.count_chars false
                            (merge_step Sample.count_chars false merge_init Sample.block_a)
                            Sample.block_b)) = 1%nat
  /\ List.length <$> merge_sections Sample.count_chars
                       [Sample.block_a; Sample.block_b; Sample.block_c] = Some 2%nat.
Proof. repeat split; vm_compute; reflexivity. Qed.

Lemma merge_exactly_when_witness :
  List.length (chunks (merge_step Sample.count_chars false Sample.open_at_32 Sample.block_b))
  = 1%nat.
Proof.
  destruct (merge_exactly_when Sample.count_chars false Sample.open_at_32 Sample.block_b)
    as (_ & _ & _ & H & _).
  - discriminate.
  - apply H; reflexivity.
Defined.

(** C2, as stated, fails: [long_b], of section 1, is merged into the chunk
    opened by [short_a], of section 0, and lastSectionId stays 0; the next
    block of section 1 therefore starts a new chunk. *)
Lemma merged_item_keeps_last_sid :
  item_sec_id Sample.long_b = 1
  /\ List.length (chunks (merge_loop Sample.count_chars false merge_init
                            [Sample.short_a; Sample.long_b])) = 1%nat
  /\ last_sid (merge_loop Sample.count_chars false merge_init
                 [Sample.short_a; Sample.long_b]) = 0
  /\ List.length <$> merge_sections Sample.count_chars
                       [Sample.short_a; Sample.long_b; Sample.next_b] = Some 2%nat.
Proof. repeat split; vm_compute; reflexivity. Qed.

Lemma last_sid_update_witness :
  last_sid (merge_loop Sample.count_chars false Sample.open_at_32
              [Sample.table_entry; Sample.table_entry]) = 0.
Proof.
  destruct (last_sid_update Sample.count_chars false Sample.open_at_32 Sample.table_entry)
    as (_ & _ & _ & H).
  apply (H [Sample.table_entry; Sample.table_entry]).
  repeat constructor.
Defined.

(** C3, as stated, fails: two blocks of sectionId 0 and one table are three
    items, and they are merged into a single chunk. *)
Lemma zero_blocks_with_table_are_merged :
  Forall (fun x => item_sec_id x = 0) [Sample.plain_1; Sample.plain_2]
  /\ List.length ([Sample.plain_1; Sample.plain_2] ++ table_items 0 [Sample.one_table])%list
     = 3%nat
  /\ List.length <$> merge_sections Sample.count_chars
                       ([Sample.plain_1; Sample.plain_2]
                          ++ table_items 0 [Sample.one_table])%list = Some 1%nat.
Proof.
  split; [repeat constructor |].
  split; vm_compute; reflexivity.
Qed.

Lemma no_sectioning_one_chunk_per_item_witness :
  exists sorted chunks,
    py_sorted [Sample.plain_1; Sample.plain_2] = Some sorted
    /\ sorted ≡ₚ [Sample.plain_1; Sample.plain_2]
    /\ merge_sections Sample.count_chars [Sample.plain_1; Sample.plain_2] = Some chunks
    /\ chunks = map item_piece sorted
    /\ List.length chunks = List.length [Sample.plain_1; Sample.plain_2].
Proof.
  apply (no_sectioning_one_chunk_per_item Sample.count_chars
           [Sample.plain_1; Sample.plain_2]).
  - repeat constructor.
  - repeat constructor; discriminate.
Defined.

(** ** Outline path of the classifier *)

Lemma bigrams_lookup (s : string) :
  forall (i : nat) (g : string), bigrams s !! i = Some g <-> is_bigram_at s i g.
Proof.
  induction s as [| a s IH]; intros i g.
  - split; [discriminate | intros (x & y & H & _); destruct i; discriminate].
  - destruct s as [| b s].
    + split; [discriminate |].
      intros (x & y & _ & H & _). destruct i; discriminate.
    + change (bigrams (String a (String b s)))
        with (String a (String b "") :: bigrams (String b s)).
      destruct i as [| i].
      * simpl. split.
        -- intros [= <-]. exists a, b. repeat split.
        -- intros (x & y & [= <-] & [= <-] & ->). reflexivity.
      * change ((String a (String b "") :: bigrams (String b s)) !! S i)
          with (bigrams (String b s) !! i).
        rewrite IH. unfold is_bigram_at. reflexivity.
Qed.

Lemma elem_of_tks (t g : string) :
  g ∈ tks t <-> exists i, is_bigram_at t i g.
Proof.
  unfold tks. rewrite elem_of_list_to_set, list_elem_of_lookup.
  split; intros [i H]; exists i; apply bigrams_lookup, H.
Qed.

Lemma elem_of_tks_ (t txt g : string) :
  g ∈ tks_ t txt
  <-> exists i : nat, Z.of_nat i < Z.min (py_len t) (py_len txt - 1)
                      /\ is_bigram_at txt i g.
Proof.
  unfold tks_. rewrite elem_of_list_to_set, list_elem_of_lookup.
  split.
  - intros [i H]. apply lookup_take_Some in H as [H Hi]. exists i. split; [lia |].
    apply bigrams_lookup, H.
  - intros (i & Hi & H). exists i. apply lookup_take_Some. split; [| lia].
    apply bigrams_lookup, H.
Qed.

Lemma first_match_spec (txt : string) (outlines : list (string * Z)) :
  match first_match txt outlines with
  | Some lvl =>
      exists (j : nat) t,
        outlines !! j = Some (t, lvl)
        /\ outline_matches t txt = true
        /\ forall (j' : nat) t' l', (j' < j)%nat -> outlines !! j' = Some (t', l') ->
                                    outline_matches t' txt = false
  | None => forall t l, (t, l) ∈ outlines -> outline_matches t txt = false
  end.
Proof.
  induction outlines as [| [t lvl] rest IH]; simpl.
  - intros t l H. inversion H.
  - destruct (outline_matches t txt) eqn:E.
    + exists 0%nat, t. split; [reflexivity |]. split; [exact E |]. intros; lia.
    + destruct (first_match txt rest) as [l |].
      * destruct IH as (j & t0 & Hj & Hm & Hbefore).
        exists (S j), t0. split; [exact Hj |]. split; [exact Hm |].
        intros [| j'] t' l' Hlt Hj'.
        -- simpl in Hj'. congruence.
        -- apply (Hbefore j' t' l'); [lia | exact Hj'].
      * intros t0 l H. apply elem_of_cons in H as [[= -> ->] | H]; [exact E |].
        apply (IH t0 l H).
Qed.

Lemma fold_left_max_bound (l : list Z) :
  forall a, a <= fold_left Z.max l a /\ (forall x, x ∈ l -> x <= fold_left Z.max l a).
Proof.
  induction l as [| y l IH]; intros a; simpl.
  - split; [lia | intros x H; inversion H].
  - destruct (IH (Z.max a y)) as [H1 H2]. split; [lia |].
    intros x Hx. apply elem_of_cons in Hx as [-> | Hx]; [lia | auto].
Qed.

Lemma fold_left_max_attained (l : list Z) :
  forall a, fold_left Z.max l a = a \/ fold_left Z.max l a ∈ l.
Proof.
  induction l as [| y l IH]; intros a; simpl; [left; reflexivity |].
  destruct (IH (Z.max a y)) as [H | H].
  - rewrite H. destruct (Z.max_spec a y) as [[_ ->] | [_ ->]].
    + right. left.
    + left. reflexivity.
  - right. right. exact H.
Qed.

Lemma max_lvl_spec (outlines : list (string * Z)) :
  outlines <> [] ->
  exists mx, max_lvl outlines = Some mx
             /\ (exists t, (t, mx) ∈ outlines)
             /\ (forall t l, (t, l) ∈ outlines -> l <= mx).
Proof.
  destruct outlines as [| [t0 l0] rest]; [congruence | intros _].
  eexists. split; [reflexivity |]. split.
  - destruct (fold_left_max_attained (map snd rest) l0) as [-> | H].
    + exists t0. left.
    + apply list_elem_of_fmap in H as ([t l] & Heq & Hin). simpl in Heq.
      exists t. right. rewrite Heq. exact Hin.
  - intros t l H. destruct (fold_left_max_bound (map snd rest) l0) as [H1 H2].
    apply elem_of_cons in H as [[= -> ->] | H]; [exact H1 |].
    apply H2. apply list_elem_of_fmap. exists (t, l). split; [reflexivity | exact H].
Qed.

Lemma outline_dense_nonempty {S : Type} (outlines : list (string * Z)) (sections : list S) :
  outline_dense outlines sections = true -> outlines <> [].
Proof.
  intros H ->. unfold outline_dense in H. apply andb_true_iff in H as [_ H].
  simpl List.length in H. unfold Py.truediv, Py.fdiv in H.
  change (Py.float_of_int (Z.of_nat 0)) with (S754_zero false) in H.
  destruct (Py.float_of_int (Z.of_nat (List.length sections))); vm_compute in H;
    discriminate.
Qed.

(** C5, as stated, fails: the block "abcdefx" shares five of the six
    bigrams of the outline entry "abcdefg" of level 1. Their Jaccard
    similarity is 5/7, not above 0.8, so the statement assigns the level
    maxOutlineLevel + 1 = 2; the code divides by the larger set size,
    5/6 > 0.8, and assigns the entry's level 1. *)
Lemma outline_match_is_not_jaccard :
  outline_dense Sample.outline [Sample.block_text] = true
  /\ spec_jaccard_matches "abcdefg" Sample.block_text = false
  /\ spec_outline_levels Sample.outline [Sample.block_text] = Some (0, [2])
  /\ outline_levels Sample.outline [Sample.block_text] = Some (0, [1])
  /\ outline_levels Sample.outline [Sample.block_text]
     <> spec_outline_levels Sample.outline [Sample.block_text].
Proof. repeat split; vm_compute; (reflexivity || discriminate). Qed.

(** C5, amended: when the parser has an outline, there is at least one
    block and outline count / block count > 0.03, the pivot level is
    max(0, maxOutlineLevel - 1) and every block is assigned the level of
    the first outline entry for which
    |tks & tks_| / max(|tks|, |tks_|, 1) > 0.8, where tks is the set of all
    bigrams of the entry's text and tks_ the set of the bigrams of the
    block's text that start at the positions below
    min(len(entry text), len(block text) - 1); a block for which no entry
    passes is assigned maxOutlineLevel + 1. *)
Theorem outline_path_levels (outlines : list (string * Z)) (texts : list string) :
  outline_dense outlines texts = true ->
  exists mx levels,
    outline_levels outlines texts = Some (Z.max 0 (mx - 1), levels)
    /\ (exists t, (t, mx) ∈ outlines)
    /\ (forall t l, (t, l) ∈ outlines -> l <= mx)
    /\ (forall bullets_category title_frequency sections,
          map (fun s : string * string * list Pos => s.1.1) sections = texts ->
          classify bullets_category title_frequency (Some outlines) sections
          = Returned (Z.max 0 (mx - 1), levels))
    /\ List.length levels = List.length texts
    /\ (forall t g, g ∈ tks t <-> exists i, is_bigram_at t i g)
    /\ (forall t txt g,
          g ∈ tks_ t txt
          <-> exists i : nat, Z.of_nat i < Z.min (py_len t) (py_len txt - 1)
                              /\ is_bigram_at txt i g)
    /\ (forall t txt,
          outline_matches t txt
          = Py.flt (Py.literal 8 1)
                   (Py.truediv (set_len (tks t ∩ tks_ t txt))
                               (Z.max (Z.max (set_len (tks t)) (set_len (tks_ t txt))) 1)))
    /\ forall (i : nat) txt,
         texts !! i = Some txt ->
         (exists (j : nat) t lvl,
             outlines !! j = Some (t, lvl)
             /\ outline_matches t txt = true
             /\ (forall (j' : nat) t' l', (j' < j)%nat -> outlines !! j' = Some (t', l') ->
                                          outline_matches t' txt = false)
             /\ levels !! i = Some lvl)
         \/ ((forall t l, (t, l) ∈ outlines -> outline_matches t txt = false)
             /\ levels !! i = Some (mx + 1)).
Proof.
  intros Hdense.
  destruct (max_lvl_spec outlines (outline_dense_nonempty _ _ Hdense))
    as (mx & Hmx & Hin & Hle).
  exists mx, (map (fun txt => default (mx + 1) (first_match txt outlines)) texts).
  split; [unfold outline_levels; rewrite Hmx; reflexivity |].
  split; [exact Hin |]. split; [exact Hle |].
  split.
  { intros bc tf sections Htexts. unfold classify.
    replace (outline_dense outlines sections) with true.
    - rewrite Htexts. unfold outline_levels. rewrite Hmx. reflexivity.
    - rewrite <- Hdense. unfold outline_dense. rewrite <- Htexts, length_map.
      reflexivity. }
  split; [apply length_map |].
  split; [exact elem_of_tks |]. split; [exact elem_of_tks_ |].
  split; [reflexivity |].
  intros i txt Hi. rewrite list_lookup_fmap, Hi. simpl.
  pose proof (first_match_spec txt outlines) as Hfm.
  destruct (first_match txt outlines) as [lvl |].
  - left. destruct Hfm as (j & t & Hj & Hm & Hbefore).
    exists j, t, lvl. repeat split; assumption.
  - right. split; [exact Hfm | reflexivity].
Qed.

Lemma outline_path_levels_witness :
  exists mx levels,
    outline_levels Sample.outline [Sample.block_text] = Some (Z.max 0 (mx - 1), levels)
    /\ List.length levels = 1%nat.
Proof.
  destruct (outline_path_levels Sample.outline [Sample.block_text])
    as (mx & levels & H & _ & _ & _ & Hlen & _).
  - vm_compute. reflexivity.
  - exists mx, levels. split; [exact H | exact Hlen].
Defined.

(** ** DOCX question/answer reconstruction *)



(** The stacks lose their top entries of level at least [i], and no more. *)
Lemma pop_stacks_spec (i : Z) :
  forall (qs : list string) (ls : list Z),
    List.length qs = List.length ls ->
    exists k : nat,
      pop_stacks i qs ls = (drop k qs, drop k ls)
      /\ (forall (j : nat) l, (j < k)%nat -> ls !! j = Some l -> i <= l)
      /\ (forall l, ls !! k = Some l -> l < i).
Proof.
  induction qs as [| q qs IH]; intros ls Hlen.
  - destruct ls; [| discriminate]. exists 0%nat. split; [reflexivity |].
    split; [intros; lia | discriminate].
  - destruct ls as [| l ls]; [discriminate |]. simpl in Hlen.
    simpl. destruct (i <=? l) eqn:E.
    + destruct (IH ls) as (k & Hk & Hpop & Htop); [lia |].
      exists (S k). split; [exact Hk |]. split.
      * intros [| j] l0 Hj Hl0; simpl in Hl0.
        -- injection Hl0 as <-. lia.
        -- apply (Hpop j); [lia | exact Hl0].
      * intros l0 Hl0. apply Htop. exact Hl0.
    + exists 0%nat. split; [reflexivity |]. split; [intros; lia |].
      simpl. intros l0 [= <-]. lia.
Qed.

Section QAProperties.

Variable docx_question_level : Paragraph -> Z * string.
Variable from_page to_page : Z.
Variable vision_model : option VisionModel.
Variable vision_prompt : option string.

Abbreviation step := (qa_step docx_question_level from_page to_page vision_model vision_prompt).
Abbreviation question := (question_of docx_question_level from_page to_page).



Lemma question_of_cases (st : QAState) (p : Paragraph) :
  question st p = docx_question_level p \/ question st p = (0, "").
Proof. unfold question_of. destruct (_ && _); [left | right]; reflexivity. Qed.

(** With an empty question stack no paragraph adds a unit. *)
Lemma qa_step_empty_stack (st : QAState) (p : Paragraph) :
  question_stack st = [] -> ti_list (step st p) = ti_list st.
Proof.
  intros Hs. unfold qa_step, qa_paragraph.
  destruct (question st p) as [lvl t].
  destruct (not_a_question lvl).
  - destruct (par_picture p) as [img |]; [| reflexivity].
    destruct vision_model as [vm |]; [| reflexivity].
    destruct vision_prompt as [[| c prompt] |]; try reflexivity.
    destruct (vm img (String c prompt)); reflexivity.
  - rewrite Hs. cbn [sum_question rev Py.join Py.truthy].
    destruct (Py.truthy (last_answer st) || bool_decide (last_image st <> None));
      cbn [qa_pn last_answer last_image question_stack level_stack ti_list];
      destruct (pop_stacks lvl _ _); reflexivity.
Qed.

(** With an empty question stack a question starts from a clean state:
    what was pending does not reach the state after it. *)
Lemma qa_step_discards (st : QAState) (p : Paragraph) :
  question_stack st = [] ->
  not_a_question (question st p).1 = false ->
  step st p = step (clear_pending st) p
  /\ last_answer (step st p) = ""
  /\ last_image (step st p) = None.
Proof.
  intros Hs Hq. unfold qa_step, qa_paragraph.
  change (question (clear_pending st) p) with (question st p).
  destruct (question st p) as [lvl t]. cbn [fst] in Hq. rewrite Hq.
  destruct st as [pn a img qs ls tis]. cbn [question_stack] in Hs. subst qs.
  cbn [clear_pending last_answer last_image question_stack level_stack ti_list qa_pn].
  destruct a as [| c a]; destruct img as [img |]; cbn; repeat split; reflexivity.
Qed.

Lemma qa_step_keeps_empty_stack (st : QAState) (p : Paragraph) :
  not_a_question (question st p).1 = true ->
  question_stack (step st p) = question_stack st.
Proof.
  intros Hq. unfold qa_step, qa_paragraph.
  destruct (question st p) as [lvl t]. cbn [fst] in Hq. rewrite Hq.
  destruct (par_picture p) as [img |]; [| reflexivity].
  destruct vision_model as [vm |]; [| reflexivity].
  destruct vision_prompt as [[| c prompt] |]; try reflexivity.
  destruct (vm img (String c prompt)); reflexivity.
Qed.

Lemma qa_loop_without_question (ps : list Paragraph) :
  Forall (fun p => not_a_question (docx_question_level p).1 = true) ps ->
  forall st,
    question_stack st = [] ->
    question_stack (qa_loop docx_question_level from_page to_page vision_model
                            vision_prompt st ps) = []
    /\ ti_list (qa_loop docx_question_level from_page to_page vision_model
                        vision_prompt st ps) = ti_list st.
Proof.
  induction 1 as [| p ps Hp _ IH]; intros st Hs; [split; [exact Hs | reflexivity] |].
  simpl. destruct (qa_pn st >? to_page); [split; [exact Hs | reflexivity] |].
  assert (Hq : not_a_question (question st p).1 = true).
  { destruct (question_of_cases st p) as [-> | ->]; [exact Hp | reflexivity]. }
  destruct (IH (step st p)) as [H1 H2].
  - rewrite qa_step_keeps_empty_stack by exact Hq. exact Hs.
  - split; [exact H1 |]. rewrite H2. apply qa_step_empty_stack, Hs.
Qed.

(** C9: content accumulated while the question stack is empty is dropped.
    With an empty stack, no paragraph adds a unit; a question that arrives
    resets the pending answer and image, and the state after it is the one
    reached from a state with nothing pending; at the end of the stream
    nothing is emitted for the pending answer; so a document in which no
    paragraph is a question yields no unit at all. *)
Theorem empty_stack_content_is_dropped :
  (forall st p, question_stack st = [] -> ti_list (step st p) = ti_list st)
  /\ (forall st p,
        question_stack st = [] ->
        not_a_question (question st p).1 = false ->
        step st p = step (clear_pending st) p
        /\ last_answer (step st p) = ""
        /\ last_image (step st p) = None)
  /\ (forall st, question_stack st = [] -> qa_finish st = ti_list st)
  /\ (forall doc,
        Forall (fun p => not_a_question (docx_question_level p).1 = true)
               (doc_paragraphs doc) ->
        (Docx_call docx_question_level from_page to_page vision_model vision_prompt doc).1
        = []).
Proof.
  split; [exact qa_step_empty_stack |].
  split; [exact qa_step_discards |].
  split.
  - intros st Hs. unfold qa_finish. rewrite Hs. cbn.
    destruct (Py.truthy (last_answer st)); reflexivity.
  - intros doc Hall. unfold Docx_call. cbn [fst].
    destruct (qa_loop_without_question (doc_paragraphs doc) Hall qa_init eq_refl)
      as [Hs Ht].
    unfold qa_finish. rewrite Hs, Ht. cbn.
    destruct (Py.truthy (last_answer _)); reflexivity.
Qed.

End QAProperties.

Lemma empty_stack_content_is_dropped_witness :
  (Docx_call Sample.level_of_style 0 10000 None None
     (mkDocument [Sample.body "preface"; Sample.body "more"] [])).1 = [].
Proof.
  destruct (empty_stack_content_is_dropped Sample.level_of_style 0 10000 None None)
    as (_ & _ & _ & H).
  apply (H (mkDocument [Sample.body "preface"; Sample.body "more"] [])).
  repeat constructor.
Defined.


Lemma truthy_after_newline (s t : string) : Py.truthy (s +:+ Py.NL +:+ t) = true.
Proof. destruct s; reflexivity. Qed.



(** ** Dispatch on the file name *)

Lemma ends_with_length (lit s : string) :
  ends_with lit s = true -> (String.length lit <= String.length s)%nat.
Proof.
  induction s as [| c s IH]; simpl; intros H.
  - rewrite orb_false_r in H. apply String.eqb_eq in H. subst lit. simpl. lia.
  - apply orb_true_iff in H as [H | H].
    + apply String.eqb_eq in H. subst lit. simpl. lia.
    + apply IH in H. lia.
Qed.

Lemma ends_with_iff (lit s : string) :
  ends_with lit s = true <-> exists pre, s = pre +:+ lit.
Proof.
  induction s as [| c s IH]; simpl.
  - rewrite orb_false_r, String.eqb_eq. split.
    + intros ->. exists "". reflexivity.
    + intros [[| c pre] H].
      * exact (eq_sym H).
      * change (String c pre +:+ lit) with (String c (pre +:+ lit)) in H. discriminate.
  - rewrite orb_true_iff, String.eqb_eq, IH. split.
    + intros [-> | [pre ->]]; [exists "" | exists (String c pre)]; reflexivity.
    + intros [[| c' pre] H].
      * left. exact (eq_sym H).
      * right. exists pre.
        change (String c' pre +:+ lit) with (String c' (pre +:+ lit)) in H. congruence.
Qed.

(** Two suffixes of one string: the shorter is a suffix of the longer. *)
Lemma ends_with_both (a b s : string) :
  ends_with a s = true ->
  ends_with b s = true ->
  (String.length a <= String.length b)%nat ->
  ends_with a b = true.
Proof.
  induction s as [| c s IH]; intros Ha Hb Hlen.
  - simpl in Ha, Hb. rewrite orb_false_r in Ha, Hb.
    apply String.eqb_eq in Ha, Hb. subst a b. reflexivity.
  - simpl in Hb. apply orb_true_iff in Hb as [Hb | Hb].
    + apply String.eqb_eq in Hb. subst b. exact Ha.
    + simpl in Ha. apply orb_true_iff in Ha as [Ha | Ha].
      * apply String.eqb_eq in Ha. subst a.
        apply ends_with_length in Hb. simpl in Hlen. lia.
      * apply IH; assumption.
Qed.

Lemma ends_with_exclusive (a b s : string) :
  ends_with a b = false ->
  ends_with b a = false ->
  ends_with a s = true ->
  ends_with b s = true ->
  False.
Proof.
  intros Hab Hba Ha Hb.
  destruct (Nat.le_ge_cases (String.length a) (String.length b)) as [H | H].
  - rewrite (ends_with_both a b s Ha Hb H) in Hab. discriminate.
  - rewrite (ends_with_both b a s Hb Ha H) in Hba. discriminate.
Qed.

(** A name that matches the DOCX pattern does not match the PDF pattern. *)
Lemma docx_is_not_pdf (filename : string) :
  is_docx filename = true -> is_pdf filename = false.
Proof.
  unfold is_docx, is_pdf, search_at_end. intros H.
  apply not_true_is_false. intros Hp.
  apply orb_true_iff in Hp.
  apply orb_true_iff in H as [H | H]; apply orb_true_iff in H.
  - destruct Hp as [Hp | Hp], H as [H | H];
      refine (ends_with_exclusive _ _ _ _ _ Hp H); reflexivity.
  - destruct Hp as [Hp | Hp], H as [H | H];
      refine (ends_with_exclusive _ _ _ _ _ Hp H); reflexivity.
Qed.

Section ChunkProperties.

Variable rag_tokenize : string -> string.
Variable fine_grained_tokenize : string -> string.
Variable tokenize : Doc -> string -> bool -> Doc.
Variable tokenize_table : list (Table Image) -> Doc -> bool -> list Doc.
Variable tokenize_chunks : list string -> Doc -> bool -> ParserKind -> list Doc.
Variable bullets_category : list string -> Z.
Variable title_frequency : Z -> list (string * string) -> Z * list Z.
Variable num_tokens_from_string : string -> Z.
Variable docx_question_level : Paragraph -> Z * string.
Variable open_document : Source -> Document.
Variable LLMBundle : option string -> string -> string -> option VisionModel.
Variable PlainParser_call : Source -> Z -> Z -> ParseOut.
Variable Pdf_call : Source -> Z -> Z -> ParseOut.
Variable VisionParser_call : VisionModel -> Source -> Z -> Z -> option ParseOut.
Variable callback : option (Py.float -> string -> option unit).

Abbreviation run_chunk :=
  (chunk rag_tokenize fine_grained_tokenize tokenize tokenize_table tokenize_chunks
         bullets_category title_frequency num_tokens_from_string docx_question_level
         open_document LLMBundle PlainParser_call Pdf_call VisionParser_call callback).

Abbreviation run_chunk_pdf :=
  (chunk_pdf rag_tokenize fine_grained_tokenize tokenize_table tokenize_chunks
             bullets_category title_frequency num_tokens_from_string
             LLMBundle PlainParser_call Pdf_call VisionParser_call callback).

Abbreviation run_chunk_docx :=
  (chunk_docx rag_tokenize fine_grained_tokenize tokenize tokenize_table
              docx_question_level open_document LLMBundle callback).

Lemma classify_raises (outlines : option (list (string * Z)))
    (sections : list (string * string * list Pos)) (e : Exn) :
  classify bullets_category title_frequency outlines sections = Raised e -> e = ValueError.
Proof.
  unfold classify. destruct outlines as [ol |]; [| discriminate].
  destruct (outline_dense ol sections); [| discriminate].
  destruct (outline_levels ol _); [discriminate | congruence].
Qed.

Lemma chunk_pdf_supported (filename : string) (binary : option string)
    (from_page to_page : Z) (lang : string) (kwargs : Kwargs) (msg : string) :
  run_chunk_pdf filename binary from_page to_page lang kwargs
  <> Raised (NotImplementedError msg).
Proof.
  unfold chunk_pdf.
  destruct (parse_pdf _ _ _ _ _ _ _ _ _) as [kind out].
  destruct (classify _ _ _ _) as [[most_level levels] | e] eqn:E.
  - destruct (negb _); [discriminate |].
    destruct (merge_sections _ _); discriminate.
  - apply classify_raises in E. subst e. discriminate.
Qed.

Lemma chunk_docx_returns (filename : string) (binary : option string)
    (from_page to_page : Z) (lang : string) (kwargs : Kwargs) :
  run_chunk_docx filename binary from_page to_page lang kwargs
  = Returned
      (tokenize_table
         (Docx_call docx_question_level 0 10000
            (docx_vision LLMBundle callback lang kwargs).1
            (docx_vision LLMBundle callback lang kwargs).2
            (open_document (source filename binary))).2
         (base_doc rag_tokenize fine_grained_tokenize filename)
         (String.eqb (lower lang) "english")
       ++ map (qa_doc tokenize (base_doc rag_tokenize fine_grained_tokenize filename)
                      (String.eqb (lower lang) "english"))
              (Docx_call docx_question_level 0 10000
                 (docx_vision LLMBundle callback lang kwargs).1
                 (docx_vision LLMBundle callback lang kwargs).2
                 (open_document (source filename binary))).1)%list.
Proof.
  unfold chunk_docx. destruct (docx_vision LLMBundle callback lang kwargs) as [vm vp].
  cbn [fst snd]. destruct (Docx_call _ _ _ _ _ _) as [ti tbls]. reflexivity.
Qed.

(** C8: a file name that matches neither the PDF nor the DOC/DOCX pattern
    makes [chunk] raise the unsupported-format error, with no output; a file
    name that matches one of them never makes [chunk] raise that error. *)
Theorem unsupported_format (filename : string) (binary : option string)
    (from_page to_page : Z) (lang : string) (kwargs : Kwargs) :
  (is_pdf filename = false -> is_docx filename = false ->
   run_chunk filename binary from_page to_page lang kwargs
   = Raised (NotImplementedError unsupported_msg))
  /\ (is_pdf filename = true \/ is_docx filename = true ->
      forall msg,
        run_chunk filename binary from_page to_page lang kwargs
        <> Raised (NotImplementedError msg)).
Proof.
  unfold chunk. split.
  - intros -> ->. reflexivity.
  - intros H msg. destruct (is_pdf filename).
    + apply chunk_pdf_supported.
    + destruct H as [H | H]; [discriminate |]. rewrite H.
      rewrite chunk_docx_returns. discriminate.
Qed.

(** C10: for a file name that matches the DOC/DOCX pattern, [chunk] does
    not depend on [from_page] and [to_page]: the parser is called with the
    range 0..10000 whatever they are, so two calls that differ only in the
    requested range return the same records. *)
Theorem docx_ignores_page_range (filename : string) (binary : option string)
    (lang : string) (kwargs : Kwargs) (from_page to_page from_page' to_page' : Z) :
  is_docx filename = true ->
  run_chunk filename binary from_page to_page lang kwargs
  = run_chunk filename binary from_page' to_page' lang kwargs
  /\ run_chunk filename binary from_page to_page lang kwargs
     = Returned
         (tokenize_table
            (Docx_call docx_question_level 0 10000
               (docx_vision LLMBundle callback lang kwargs).1
               (docx_vision LLMBundle callback lang kwargs).2
               (open_document (source filename binary))).2
            (base_doc rag_tokenize fine_grained_tokenize filename)
            (String.eqb (lower lang) "english")
          ++ map (qa_doc tokenize (base_doc rag_tokenize fine_grained_tokenize filename)
                         (String.eqb (lower lang) "english"))
                 (Docx_call docx_question_level 0 10000
                    (docx_vision LLMBundle callback lang kwargs).1
                    (docx_vision LLMBundle callback lang kwargs).2
                    (open_document (source filename binary))).1)%list.
Proof.
  intros Hdocx. unfold chunk.
  rewrite (docx_is_not_pdf filename Hdocx), Hdocx, !chunk_docx_returns.
  split; reflexivity.
Qed.

End ChunkProperties.

(** The parser itself reads its page range: the same stream read with the
    range 0..0 yields no unit. *)
Lemma Docx_call_reads_page_range :
  (Docx_call Sample.level_of_style 0 0 None None (mkDocument Sample.stream [])).1 = []
  /\ (Docx_call Sample.level_of_style 0 10000 None None (mkDocument Sample.stream [])).1
     <> [].
Proof. split; vm_compute; [reflexivity | discriminate]. Qed.

Lemma unsupported_format_witness :
  Sample.chunk "manual.txt" 0 100000
  = Raised (NotImplementedError unsupported_msg).
Proof.
  refine (proj1 (unsupported_format Sample.no_tokens Sample.no_tokens Sample.tokenize
                   Sample.tokenize_table Sample.tokenize_chunks Sample.bullets_category
                   Sample.title_frequency Sample.count_chars Sample.level_of_style
                   Sample.open_document Sample.LLMBundle Sample.empty_parse
                   Sample.empty_parse Sample.vision_parse (Some Sample.dummy)
                   "manual.txt" None 0 100000 "English" (mkKwargs None None)) _ _);
    vm_compute; reflexivity.
Defined.

Lemma docx_ignores_page_range_witness :
  Sample.chunk "manual.docx" 0 100000 = Sample.chunk "manual.docx" 3 5.
Proof.
  refine (proj1 (docx_ignores_page_range Sample.no_tokens Sample.no_tokens Sample.tokenize
                   Sample.tokenize_table Sample.tokenize_chunks Sample.bullets_category
                   Sample.title_frequency Sample.count_chars Sample.level_of_style
                   Sample.open_document Sample.LLMBundle Sample.empty_parse
                   Sample.empty_parse Sample.vision_parse (Some Sample.dummy)
                   "manual.docx" None "English" (mkKwargs None None) 0 100000 3 5 _)).
  vm_compute. reflexivity.
Defined.

(** * Further properties *)

Local Open Scope list_scope.

(** ** Strings *)

Lemma string_app_assoc (a b c : string) : (a +:+ b) +:+ c = a +:+ (b +:+ c).
Proof.
  induction a as [| x a IH]; [reflexivity |].
  change (String x ((a +:+ b) +:+ c) = String x (a +:+ (b +:+ c))). rewrite IH. reflexivity.
Qed.

Lemma string_app_nil_r (a : string) : a +:+ "" = a.
Proof.
  induction a as [| x a IH]; [reflexivity |].
  change (String x (a +:+ "") = String x a). rewrite IH. reflexivity.
Qed.

Lemma join_cons_cons (sep x y : string) (l : list string) :
  Py.join sep (x :: y :: l) = x +:+ sep +:+ Py.join sep (y :: l).
Proof. reflexivity. Qed.

Lemma join_snoc (sep : string) (l : list string) (p : string) :
  l <> [] -> Py.join sep (l ++ [p]) = Py.join sep l +:+ sep +:+ p.
Proof.
  induction l as [| x l IH]; [congruence | intros _].
  destruct l as [| y l]; [reflexivity |].
  change ((x :: y :: l) ++ [p]) with (x :: y :: (l ++ [p])).
  rewrite !join_cons_cons.
  change (y :: l ++ [p]) with ((y :: l) ++ [p]).
  rewrite IH by discriminate. rewrite !string_app_assoc. reflexivity.
Qed.

Lemma join_append_to_last (sep : string) (l : list string) (s : string) :
  l <> [] -> Py.join sep (append_to_last l s) = Py.join sep l +:+ s.
Proof.
  induction l as [| x l IH]; [congruence | intros _].
  destruct l as [| y l]; [reflexivity |].
  change (append_to_last (x :: y :: l) s) with (x :: append_to_last (y :: l) s).
  assert (Hne : append_to_last (y :: l) s <> []).
  { intros H. apply (f_equal (@List.length string)) in H.
    rewrite append_to_last_length in H. discriminate. }
  destruct (append_to_last (y :: l) s) as [| z l'] eqn:E; [congruence |].
  rewrite !join_cons_cons. rewrite IH by discriminate.
  rewrite !string_app_assoc. reflexivity.
Qed.

Lemma join_app_same (sep : string) (l l' rest : list string) :
  Py.join sep l = Py.join sep l' ->
  (l = [] <-> l' = []) ->
  Py.join sep (l ++ rest) = Py.join sep (l' ++ rest).
Proof.
  intros Hj He.
  assert (Hgen : forall k, k <> [] -> rest <> [] ->
            Py.join sep (k ++ rest) = Py.join sep k +:+ sep +:+ Py.join sep rest).
  { induction k as [| x k IH]; [congruence | intros _ Hr].
    destruct k as [| y k].
    - destruct rest; [congruence | reflexivity].
    - change ((x :: y :: k) ++ rest) with (x :: y :: (k ++ rest)).
      rewrite !join_cons_cons. change (y :: k ++ rest) with ((y :: k) ++ rest).
      rewrite IH by (discriminate || assumption).
      rewrite !string_app_assoc. reflexivity. }
  destruct rest as [| r rest]; [rewrite !app_nil_r; exact Hj |].
  destruct l as [| x l], l' as [| x' l'].
  - reflexivity.
  - destruct He as [He _]. specialize (He eq_refl). discriminate.
  - destruct He as [_ He]. specialize (He eq_refl). discriminate.
  - rewrite !Hgen by discriminate. rewrite Hj. reflexivity.
Qed.

(** ** Chunk merger: order, counts and failure *)

Lemma with_key_Some (x : Item) (kx : SortKey * Item) :
  with_key x = Some kx -> kx.2 = x /\ sort_key x = Some kx.1.
Proof.
  unfold with_key. destruct (sort_key x) as [k |]; simpl; [| discriminate].
  intros [= <-]. split; reflexivity.
Qed.

Lemma mapM_with_key_Some (items : list Item) :
  forall keyed, mapM with_key items = Some keyed -> map snd keyed = items.
Proof.
  induction items as [| x items IH]; intros keyed H.
  - injection H as <-. reflexivity.
  - cbn [mapM] in H. destruct (with_key x) as [kx |] eqn:Ex; [| discriminate].
    destruct (mapM with_key items) as [keyed' |]; [| discriminate].
    injection H as <-. simpl. rewrite (IH keyed' eq_refl).
    apply with_key_Some in Ex as [-> _]. reflexivity.
Qed.

Lemma py_sorted_Some_perm (items sorted : list Item) :
  py_sorted items = Some sorted -> sorted ≡ₚ items.
Proof.
  unfold py_sorted. destruct (mapM with_key items) as [keyed |] eqn:E; [| discriminate].
  intros [= <-]. rewrite sort_keyed_perm, (mapM_with_key_Some items keyed E). reflexivity.
Qed.

Lemma py_sorted_None_iff (items : list Item) :
  py_sorted items = None <-> Exists (fun x => item_poss x = []) items.
Proof.
  unfold py_sorted. split.
  - intros H. destruct (mapM with_key items) as [keyed |] eqn:E; [discriminate |]. clear H.
    induction items as [| x items IH]; [discriminate |].
    cbn [mapM] in E. destruct (with_key x) as [kx |] eqn:Ex.
    + right. apply IH. destruct (mapM with_key items); [discriminate | reflexivity].
    + left. unfold with_key, sort_key in Ex. destruct (item_poss x); [reflexivity | discriminate].
  - intros H.
    assert (Hnone : mapM with_key items = None).
    { induction H as [x items Hx | x items _ IH].
      + assert (Hwk : with_key x = None)
          by (unfold with_key, sort_key; rewrite Hx; reflexivity).
        cbn [mapM]. rewrite Hwk. reflexivity.
      + cbn [mapM]. rewrite IH. destruct (with_key x); reflexivity. }
    rewrite Hnone. reflexivity.
Qed.

Section MergerOrder.

Variable num_tokens_from_string : string -> Z.

Abbreviation mstep := (merge_step num_tokens_from_string).
Abbreviation mloop := (merge_loop num_tokens_from_string).

Lemma merge_step_join (uvp : bool) (st : MergeState) (x : Item) :
  Py.join Py.NL (chunks (mstep uvp st x)) = Py.join Py.NL (chunks st ++ [item_piece x])
  /\ chunks (mstep uvp st x) <> [].
Proof.
  destruct (decide (chunks st = [])) as [He | Hne];
    [| destruct (should_merge uvp st (item_sec_id x)) eqn:E].
  - rewrite merge_step_new by (left; exact He). cbn [chunks]. rewrite He.
    split; [reflexivity | discriminate].
  - rewrite merge_step_merged by assumption. cbn [chunks]. split.
    + rewrite join_append_to_last, join_snoc by exact Hne. reflexivity.
    + intros H. apply (f_equal (@List.length string)) in H.
      rewrite append_to_last_length in H. destruct (chunks st); [congruence | discriminate].
  - rewrite merge_step_new by (right; exact E). cbn [chunks].
    split; [reflexivity |]. destruct (chunks st); discriminate.
Qed.

Lemma merge_loop_join (uvp : bool) :
  forall (items : list Item) (st : MergeState),
    Py.join Py.NL (chunks (mloop uvp st items))
    = Py.join Py.NL (chunks st ++ map item_piece items).
Proof.
  induction items as [| x items IH]; intros st.
  - simpl. rewrite app_nil_r. reflexivity.
  - change (mloop uvp st (x :: items)) with (mloop uvp (mstep uvp st x) items).
    rewrite IH. destruct (merge_step_join uvp st x) as [Hj Hne].
    change (chunks st ++ map item_piece (x :: items))
      with (chunks st ++ [item_piece x] ++ map item_piece items).
    rewrite app_assoc. apply join_app_same; [exact Hj |].
    split; intros H; [congruence | destruct (chunks st); discriminate].
Qed.

Lemma merge_loop_length (uvp : bool) :
  forall (items : list Item) (st : MergeState),
    (List.length (chunks st) <= List.length (chunks (mloop uvp st items)))%nat
    /\ (List.length (chunks (mloop uvp st items))
        <= List.length (chunks st) + List.length items)%nat
    /\ (items <> [] -> chunks (mloop uvp st items) <> []).
Proof.
  induction items as [| x items IH]; intros st.
  - simpl. repeat split; try lia. congruence.
  - change (mloop uvp st (x :: items)) with (mloop uvp (mstep uvp st x) items).
    destruct (IH (mstep uvp st x)) as (H1 & H2 & _).
    pose proof (merge_step_length num_tokens_from_string uvp st x) as Hs.
    destruct (merge_step_join uvp st x) as [_ Hne].
    simpl List.length. repeat split; try lia.
    intros _ H. rewrite H in H1. simpl in H1.
    destruct (chunks (mstep uvp st x)); [congruence | simpl in H1; lia].
Qed.

Lemma merge_loop_tk_bound (uvp : bool) (limit : Z) :
  forall (items : list Item) (st : MergeState),
    Forall (fun x => num_tokens_from_string (item_txt x) <= limit) items ->
    tk_cnt st < 1024 + limit ->
    tk_cnt (mloop uvp st items) < 1024 + limit.
Proof.
  induction items as [| x items IH]; intros st Hall Hst; [exact Hst |].
  apply Forall_cons in Hall as [Hx Hall].
  change (mloop uvp st (x :: items)) with (mloop uvp (mstep uvp st x) items).
  apply IH; [exact Hall |].
  destruct (decide (chunks st = [])) as [He | Hne];
    [| destruct (should_merge uvp st (item_sec_id x)) eqn:E].
  - rewrite merge_step_new by (left; exact He). cbn [tk_cnt]. lia.
  - rewrite merge_step_merged by assumption. cbn [tk_cnt].
    apply should_merge_iff in E as [_ [H | [H _]]]; lia.
  - rewrite merge_step_new by (right; exact E). cbn [tk_cnt]. lia.
Qed.

End MergerOrder.

(** X1: Merging keeps the text and the reading order: the chunks, joined by
    newlines, are the pieces of the sorted items joined by newlines, and the
    sorted items are a permutation of the input. *)
Theorem merge_keeps_text_and_order (num_tokens_from_string : string -> Z)
    (items sorted : list Item) (cks : list string) :
  py_sorted items = Some sorted ->
  merge_sections num_tokens_from_string items = Some cks ->
  Py.join Py.NL cks = Py.join Py.NL (map item_piece sorted) /\ sorted ≡ₚ items.
Proof.
  intros Hs Hm. unfold merge_sections in Hm. rewrite Hs in Hm. simpl in Hm.
  injection Hm as <-. split; [| apply py_sorted_Some_perm, Hs].
  rewrite merge_loop_join. reflexivity.
Qed.

Lemma merge_keeps_text_and_order_witness :
  Py.join Py.NL
    [ "intro" +:+ tag_pos (Sample.at_ 0 0 0) +:+ Py.NL +:+ Sample.replicate_char 40 "b"
         +:+ tag_pos (Sample.at_ 0 10 0);
      "more" +:+ tag_pos (Sample.at_ 0 20 0) ]
  = Py.join Py.NL (map item_piece [Sample.short_a; Sample.long_b; Sample.next_b])
  /\ [Sample.short_a; Sample.long_b; Sample.next_b]
     ≡ₚ [Sample.next_b; Sample.short_a; Sample.long_b].
Proof.
  apply (merge_keeps_text_and_order Sample.count_chars
           [Sample.next_b; Sample.short_a; Sample.long_b]);
    vm_compute; reflexivity.
Defined.

(** X2: There are never more chunks than items, and a non-empty input gives at
    least one chunk. *)
Theorem merge_chunk_count (num_tokens_from_string : string -> Z)
    (items : list Item) (cks : list string) :
  merge_sections num_tokens_from_string items = Some cks ->
  (List.length cks <= List.length items)%nat /\ (items = [] <-> cks = []).
Proof.
  unfold merge_sections. destruct (py_sorted items) as [sorted |] eqn:Hs; [| discriminate].
  simpl. intros [= <-]. pose proof (py_sorted_Some_perm items sorted Hs) as Hperm.
  destruct (merge_loop_length num_tokens_from_string (using_vision_parser items)
              sorted merge_init) as (_ & Hle & Hne).
  split; [rewrite <- (Permutation_length Hperm); exact Hle |].
  split.
  - intros ->. apply Permutation_nil_r in Hperm. subst sorted. reflexivity.
  - intros H. destruct sorted as [| x sorted].
    + apply Permutation_nil_l in Hperm. symmetry. exact Hperm.
    + exfalso. apply Hne; [discriminate | exact H].
Qed.

Lemma merge_chunk_count_witness :
  (List.length (default [] (merge_sections Sample.count_chars
                              [Sample.short_a; Sample.long_b; Sample.next_b]))
   <= 3)%nat.
Proof.
  refine (proj1 (merge_chunk_count Sample.count_chars
                   [Sample.short_a; Sample.long_b; Sample.next_b] _ _)).
  vm_compute. reflexivity.
Defined.

(** X3: The running token count stays below 1024 plus the largest item: if no
    item has more than [limit] tokens, the counter is below 1024 + limit
    after every prefix of the input. *)
Theorem tk_cnt_bounded (num_tokens_from_string : string -> Z) (uvp : bool) (limit : Z)
    (done rest : list Item) :
  0 <= limit ->
  Forall (fun x => num_tokens_from_string (item_txt x) <= limit) (done ++ rest) ->
  tk_cnt (merge_loop num_tokens_from_string uvp merge_init done) < 1024 + limit.
Proof.
  intros Hl Hall. apply Forall_app in Hall as [Hall _].
  apply merge_loop_tk_bound; [exact Hall | simpl; lia].
Qed.

Lemma tk_cnt_bounded_witness :
  tk_cnt (merge_loop Sample.count_chars false merge_init [Sample.short_a; Sample.long_b])
  < 1024 + 40.
Proof.
  apply (tk_cnt_bounded Sample.count_chars false 40 [Sample.short_a; Sample.long_b]
           [Sample.next_b]).
  - lia.
  - repeat constructor; vm_compute; discriminate.
Defined.

(** X4: The merger fails (the sort key raises IndexError) exactly when some
    item has an empty position list. *)
Theorem merge_fails_without_position (num_tokens_from_string : string -> Z)
    (items : list Item) :
  merge_sections num_tokens_from_string items = None
  <-> Exists (fun x => item_poss x = []) items.
Proof.
  rewrite <- py_sorted_None_iff. unfold merge_sections.
  destruct (py_sorted items); simpl; split; intros H; (discriminate || reflexivity).
Qed.

Lemma SFcompare_same (x : Py.float) : SFcompare x x = Some Eq \/ SFcompare x x = None.
Proof.
  destruct x as [s | s | | s m e]; simpl.
  - left. reflexivity.
  - left. destruct s; reflexivity.
  - right. reflexivity.
  - left. rewrite Z.compare_refl.
    assert (H : Pos.compare_cont Eq m m = Eq) by apply Pos.compare_refl.
    rewrite H. destruct s; reflexivity.
Qed.

(** No key is smaller than itself, also when a coordinate is not a number. *)
Lemma key_lt_irrefl (k : SortKey) : key_lt k k = false.
Proof.
  destruct k as [[p t] l]. unfold key_lt. rewrite Z.eqb_refl. cbn [negb].
  unfold Py.feq, Py.flt, SFeqb, SFltb.
  destruct (SFcompare_same t) as [-> | ->]; cbn [negb];
    [destruct (SFcompare_same l) as [-> | ->] |]; reflexivity.
Qed.

Lemma sort_same_key (k : SortKey) (items : list Item) :
  map snd (fold_right (fun kx acc => insert_by_key kx.1 kx.2 acc) []
                      (map (fun x => (k, x)) items)) = items
  /\ Forall (fun kx => kx.1 = k)
            (fold_right (fun kx acc => insert_by_key kx.1 kx.2 acc) []
                        (map (fun x => (k, x)) items)).
Proof.
  induction items as [| x items [IH1 IH2]]; [split; [reflexivity | constructor] |].
  cbn [map fold_right fst snd].
  destruct (fold_right _ [] (map (fun x0 => (k, x0)) items)) as [| [k' y] l] eqn:E.
  - simpl in IH1. subst items. split; [reflexivity | repeat constructor].
  - apply Forall_cons in IH2 as [Hk Hl]. cbn [fst] in Hk. subst k'.
    cbn [insert_by_key]. rewrite key_lt_irrefl. split.
    + cbn [map snd]. f_equal. exact IH1.
    + repeat constructor; assumption.
Qed.

Lemma py_sorted_same_key (k : SortKey) (items : list Item) :
  Forall (fun x => sort_key x = Some k) items ->
  py_sorted items = Some items.
Proof.
  intros Hall. unfold py_sorted.
  assert (Hk : mapM with_key items = Some (map (fun x => (k, x)) items)).
  { induction Hall as [| x items Hx _ IH]; [reflexivity |].
    assert (Hwk : with_key x = Some (k, x)) by (unfold with_key; rewrite Hx; reflexivity).
    cbn [mapM]. rewrite Hwk, IH. reflexivity. }
  rewrite Hk. simpl. f_equal. apply sort_same_key.
Qed.

(** X5: The sort is stable: items that share one sort key (for instance the
    blocks of a parser that gives no geometry, which all get the position
    [0, 0, 0, 0, 0]) keep their order. *)
Theorem sort_keeps_order_of_equal_keys (k : SortKey) (items : list Item) :
  Forall (fun x => sort_key x = Some k) items ->
  py_sorted items = Some items.
Proof. apply py_sorted_same_key. Qed.

Lemma sort_keeps_order_of_equal_keys_witness :
  py_sorted [("b", 0, [zero_pos]); ("a", 0, [zero_pos]); ("c", 0, [zero_pos])]
  = Some [("b", 0, [zero_pos]); ("a", 0, [zero_pos]); ("c", 0, [zero_pos])].
Proof.
  apply (sort_keeps_order_of_equal_keys (0, Py.fzero, Py.fzero)).
  repeat constructor.
Defined.

Lemma table_item_sec_id {Img : Type} (from_page : Z) (tb : Table Img) (x : Item) :
  table_item from_page tb = Some x -> item_sec_id x = -1.
Proof.
  unfold table_item. destruct (tbl_rows tb) as [[| c s] | [| r l]]; intros [= <-]; reflexivity.
Qed.

(** X6: Tables enter the merger as wildcard items: every table item has
    sectionId -1, a table with empty rows gives no item, there are never
    more table items than tables, and as soon as one table item is present
    the no-merging mode is off, whatever the blocks are. *)
Theorem table_items_are_wildcards {Img : Type} (from_page : Z) (tbls : list (Table Img)) :
  Forall (fun x => item_sec_id x = -1) (table_items from_page tbls)
  /\ (List.length (table_items from_page tbls) <= List.length tbls)%nat
  /\ (forall tb : Table Img, tbl_rows tb = RowsStr "" \/ tbl_rows tb = RowsList [] ->
                              table_item from_page tb = None)
  /\ (table_items from_page tbls <> [] ->
      forall blocks, using_vision_parser (blocks ++ table_items from_page tbls) = false).
Proof.
  split; [| split; [| split]].
  - unfold table_items. apply Forall_forall. intros x Hx.
    apply list_elem_of_omap in Hx as (tb & _ & Htb).
    exact (table_item_sec_id from_page tb x Htb).
  - unfold table_items. induction tbls as [| tb tbls IH]; [reflexivity |].
    cbn [omap list_omap]. destruct (table_item from_page tb); simpl in *; lia.
  - intros tb [H | H]; unfold table_item; rewrite H; reflexivity.
  - intros Hne blocks.
    destruct (table_items from_page tbls) as [| t ts] eqn:E; [congruence |].
    assert (Ht : item_sec_id t = -1).
    { assert (Hin : t ∈ table_items from_page tbls) by (rewrite E; left).
      unfold table_items in Hin. apply list_elem_of_omap in Hin as (tb & _ & Htb).
      exact (table_item_sec_id from_page tb t Htb). }
    unfold using_vision_parser.
    destruct (blocks ++ t :: ts) as [| b bs] eqn:Eb; [reflexivity |].
    rewrite <- Eb. apply not_true_is_false. intros Hall.
    rewrite forallb_forall in Hall.
    specialize (Hall t). rewrite Ht in Hall.
    assert (Hin : In t (blocks ++ t :: ts)) by (apply in_or_app; right; left; reflexivity).
    specialize (Hall Hin). discriminate.
Qed.

Lemma table_items_are_wildcards_witness :
  using_vision_parser ([Sample.plain_1; Sample.plain_2]
                         ++ table_items 0 [Sample.one_table]) = false.
Proof.
  destruct (table_items_are_wildcards 0 [Sample.one_table]) as (_ & _ & _ & H).
  apply H. vm_compute. discriminate.
Defined.

(** ** Section assigner: bounds and flat documents *)

Lemma ids_carried_upper_bound (most_level : Z) :
  forall rest prev sid (i : nat) a,
    ids_carried most_level prev sid rest !! i = Some a ->
    a <= sid + Z.of_nat i + match prev with Some _ => 1 | None => 0 end.
Proof.
  induction rest as [| lvl rest IH]; intros prev sid i a Hi; [discriminate |].
  simpl in Hi. destruct i as [| i]; simpl in Hi.
  - injection Hi as <-. destruct prev as [p |].
    + destruct (_ && _); lia.
    + rewrite andb_false_r. lia.
  - apply IH in Hi. destruct prev as [p |].
    + destruct (_ && _); lia.
    + rewrite andb_false_r in Hi. lia.
Qed.

(** X7: The section id of the block at index [i] lies between 0 and [i]: there
    are never more sections than blocks. *)
Theorem sec_id_bounded (most_level : Z) (levels : list Z) (i : nat) (s : Z) :
  sec_ids most_level levels !! i = Some s -> 0 <= s <= Z.of_nat i.
Proof.
  rewrite sec_ids_carried. intros H. split.
  - exact (ids_carried_lower_bound most_level levels None 0 i s H).
  - pose proof (ids_carried_upper_bound most_level levels None 0 i s H). lia.
Qed.

Lemma sec_id_bounded_witness : 0 <= 2 <= Z.of_nat 4.
Proof. apply (sec_id_bounded 1 [0; 2; 1; 1; 0; 3] 4 2). reflexivity. Defined.

Lemma ids_carried_flat (most_level : Z) :
  forall rest prev sid,
    Forall (fun l => most_level < l) rest
    \/ (exists c, Forall (fun l => l = c) rest /\ (prev = None \/ prev = Some c)) ->
    ids_carried most_level prev sid rest = replicate (List.length rest) sid.
Proof.
  induction rest as [| lvl rest IH]; intros prev sid H; [reflexivity |].
  simpl.
  assert (Hsame : (if (lvl <=? most_level)
                      && match prev with Some p => negb (lvl =? p) | None => false end
                   then sid + 1 else sid) = sid).
  { destruct H as [H | (c & H & Hp)]; apply Forall_cons in H as [Hl _].
    - replace (lvl <=? most_level) with false by (symmetry; apply Z.leb_gt; lia).
      reflexivity.
    - subst lvl. destruct Hp as [-> | ->].
      + rewrite andb_false_r. reflexivity.
      + rewrite Z.eqb_refl, andb_false_r. reflexivity. }
  rewrite Hsame. f_equal. apply IH.
  destruct H as [H | (c & H & Hp)]; apply Forall_cons in H as [Hl H].
  - left. exact H.
  - right. exists c. split; [exact H | right; congruence].
Qed.

Lemma with_sec_ids_zero (sections : list (string * string * list Pos)) :
  with_sec_ids sections (replicate (List.length sections) 0)
  = map (fun s => (s.1.1, 0, s.2)) sections.
Proof.
  unfold with_sec_ids. induction sections as [| s sections IH]; [reflexivity |].
  simpl. rewrite IH. reflexivity.
Qed.

(** X8: A document in which no block reaches the pivot level, or in which all
    blocks have the same level, has sectionId 0 everywhere; without tables
    it is therefore not merged at all: it yields one chunk per block. *)
Theorem flat_document_is_not_merged (num_tokens_from_string : string -> Z)
    (most_level : Z) (levels : list Z) (sections : list (string * string * list Pos)) :
  List.length sections = List.length levels ->
  Forall (fun l => most_level < l) levels \/ (exists c, Forall (fun l => l = c) levels) ->
  Forall (fun s => s.2 <> []) sections ->
  sec_ids most_level levels = replicate (List.length levels) 0
  /\ exists sorted,
       py_sorted (with_sec_ids sections (sec_ids most_level levels)) = Some sorted
       /\ merge_sections num_tokens_from_string
            (with_sec_ids sections (sec_ids most_level levels))
          = Some (map item_piece sorted)
       /\ List.length sorted = List.length sections.
Proof.
  intros Hlen Hflat Hpos.
  assert (Hids : sec_ids most_level levels = replicate (List.length levels) 0).
  { rewrite sec_ids_carried. apply ids_carried_flat.
    destruct Hflat as [H | [c H]]; [left; exact H | right; exists c; auto]. }
  split; [exact Hids |].
  rewrite Hids, <- Hlen, with_sec_ids_zero.
  set (items := map (fun s : string * string * list Pos => (s.1.1, 0, s.2)) sections).
  assert (Hp : Forall (fun x : Item => item_poss x <> []) items).
  { apply Forall_fmap. eapply Forall_impl; [exact Hpos | intros s Hs; exact Hs]. }
  assert (Hz : Forall (fun x : Item => item_sec_id x = 0) items).
  { apply Forall_fmap. apply Forall_forall. reflexivity. }
  destruct (py_sorted_perm items Hp) as (sorted & Hs & Hperm).
  exists sorted. split; [exact Hs |]. split.
  - unfold merge_sections. rewrite Hs. simpl.
    destruct items as [| x items'] eqn:E.
    + apply Permutation_nil_r in Hperm. subst sorted. reflexivity.
    + rewrite using_vision_parser_all_zero by (congruence || assumption).
      rewrite merge_loop_no_merging. reflexivity.
  - rewrite (Permutation_length Hperm). unfold items. apply length_map.
Qed.

Lemma flat_document_is_not_merged_witness :
  sec_ids 0 [3; 3; 3] = replicate 3 0.
Proof.
  refine (proj1 (flat_document_is_not_merged Sample.count_chars 0 [3; 3; 3]
                   [("a", "", [Sample.at_ 0 0 0]); ("b", "", [Sample.at_ 0 10 0]);
                    ("c", "", [Sample.at_ 1 0 0])] _ _ _)).
  - reflexivity.
  - left. repeat constructor.
  - repeat constructor; discriminate.
Defined.

(** X9: On the outline path a block that matches no outline entry never opens
    a section, provided some outline level is non-negative: its sectionId is
    the one of the block before it. *)
Theorem unmatched_block_opens_no_section (outlines : list (string * Z))
    (texts : list string) (most_level : Z) (levels : list Z) (i : nat) (txt : string) :
  outline_levels outlines texts = Some (most_level, levels) ->
  (exists t l, (t, l) ∈ outlines /\ 0 <= l) ->
  texts !! S i = Some txt ->
  first_match txt outlines = None ->
  sec_ids most_level levels !! S i = sec_ids most_level levels !! i.
Proof.
  intros Hol (t & l & Hin & Hl) Htxt Hnone.
  assert (Hne : outlines <> []) by (intros ->; inversion Hin).
  destruct (max_lvl_spec outlines Hne) as (mx & Hmx & _ & Hle).
  unfold outline_levels in Hol. rewrite Hmx in Hol. injection Hol as <- <-.
  assert (Hmx0 : 0 <= mx) by (specialize (Hle t l Hin); lia).
  assert (Hi : is_Some (texts !! i)).
  { apply lookup_lt_is_Some. apply lookup_lt_Some in Htxt. lia. }
  destruct Hi as [txt0 Htxt0].
  rewrite sec_ids_carried.
  edestruct (ids_carried_step (Z.max 0 (mx - 1))
               (map (fun txt1 => default (mx + 1) (first_match txt1 outlines)) texts)
               None 0 i) as (s & Hs1 & Hs2).
  - rewrite list_lookup_fmap, Htxt0. reflexivity.
  - rewrite list_lookup_fmap, Htxt. simpl. rewrite Hnone. reflexivity.
  - rewrite Hs1, Hs2. destruct (opens_section _ _ _) eqn:E; [| reflexivity].
    unfold opens_section in E. apply andb_true_iff in E as [E _].
    apply Z.leb_le in E. change (default (mx + 1) None) with (mx + 1) in E. lia.
Qed.

Lemma unmatched_block_opens_no_section_witness :
  sec_ids 0 [1; 2] !! 1%nat = sec_ids 0 [1; 2] !! 0%nat.
Proof.
  apply (unmatched_block_opens_no_section Sample.outline ["abcdefg"; "zzz"] 0 [1; 2] 0 "zzz").
  - vm_compute. reflexivity.
  - exists "abcdefg", 1. split; [left | lia].
  - reflexivity.
  - vm_compute. reflexivity.
Defined.

(** ** Errors and fallbacks of [chunk] *)

Lemma with_sec_ids_poss (sections : list (string * string * list Pos)) :
  forall ids x, x ∈ with_sec_ids sections ids -> exists s, s ∈ sections /\ s.2 = item_poss x.
Proof.
  unfold with_sec_ids. induction sections as [| s sections IH]; intros ids x Hx.
  - inversion Hx.
  - destruct ids as [| sid ids]; [inversion Hx |]. simpl in Hx.
    apply elem_of_cons in Hx as [-> | Hx].
    + exists s. split; [left | reflexivity].
    + destruct (IH ids x Hx) as (s' & Hs' & Hp). exists s'. split; [right; exact Hs' | exact Hp].
Qed.

Lemma table_item_poss {Img : Type} (from_page : Z) (tb : Table Img) (x : Item) :
  table_item from_page tb = Some x -> item_poss x = [] -> tbl_poss tb = [].
Proof.
  unfold table_item.
  destruct (tbl_rows tb) as [[| c s] | [| r l]]; intros [= <-]; unfold item_poss; cbn [snd];
    destruct (tbl_poss tb); (reflexivity || discriminate).
Qed.

Lemma merge_fails_index {Img : Type} (num_tokens_from_string : string -> Z)
    (sections : list (string * string * list Pos)) (ids : list Z) (from_page : Z)
    (tbls : list (Table Img)) :
  merge_sections num_tokens_from_string
    (with_sec_ids sections ids ++ table_items from_page tbls) = None ->
  Exists (fun s => s.2 = []) sections \/ Exists (fun tb => tbl_poss tb = []) tbls.
Proof.
  intros H.
  assert (Hex : Exists (fun x => item_poss x = [])
                       (with_sec_ids sections ids ++ table_items from_page tbls)).
  { apply py_sorted_None_iff. unfold merge_sections in H.
    destruct (py_sorted _); [discriminate | reflexivity]. }
  apply Exists_exists in Hex as (x & Hin & Hx).
  apply elem_of_app in Hin as [Hin | Hin].
  - left. destruct (with_sec_ids_poss sections ids x Hin) as (s & Hs & Hp).
    apply Exists_exists. exists s. split; [exact Hs | congruence].
  - right. unfold table_items in Hin. apply list_elem_of_omap in Hin as (tb & Htb & Hx').
    apply Exists_exists. exists tb. split; [exact Htb |].
    exact (table_item_poss from_page tb x Hx' Hx).
Qed.


Section ChunkErrors.

Variable rag_tokenize : string -> string.
Variable fine_grained_tokenize : string -> string.
Variable tokenize : Doc -> string -> bool -> Doc.
Variable tokenize_table : list (Table Image) -> Doc -> bool -> list Doc.
Variable tokenize_chunks : list string -> Doc -> bool -> ParserKind -> list Doc.
Variable bullets_category : list string -> Z.
Variable title_frequency : Z -> list (string * string) -> Z * list Z.
Variable num_tokens_from_string : string -> Z.
Variable docx_question_level : Paragraph -> Z * string.
Variable open_document : Source -> Document.
Variable LLMBundle : option string -> string -> string -> option VisionModel.
Variable PlainParser_call : Source -> Z -> Z -> ParseOut.
Variable Pdf_call : Source -> Z -> Z -> ParseOut.
Variable VisionParser_call : VisionModel -> Source -> Z -> Z -> option ParseOut.
Variable callback : option (Py.float -> string -> option unit).

Abbreviation the_chunk :=
  (chunk rag_tokenize fine_grained_tokenize tokenize tokenize_table tokenize_chunks
         bullets_category title_frequency num_tokens_from_string docx_question_level
         open_document LLMBundle PlainParser_call Pdf_call VisionParser_call callback).

Abbreviation the_chunk_pdf :=
  (chunk_pdf rag_tokenize fine_grained_tokenize tokenize_table tokenize_chunks
             bullets_category title_frequency num_tokens_from_string
             LLMBundle PlainParser_call Pdf_call VisionParser_call callback).

Abbreviation the_parse_pdf :=
  (parse_pdf LLMBundle PlainParser_call Pdf_call VisionParser_call callback).

Abbreviation the_classify := (classify bullets_category title_frequency).

Lemma classify_cases (outlines : option (list (string * Z)))
    (sections : list (string * string * list Pos)) :
  (exists ol mx,
      outlines = Some ol /\ outline_dense ol sections = true
      /\ max_lvl ol = Some mx
      /\ the_classify outlines sections
         = Returned (Z.max 0 (mx - 1),
                     map (fun txt => default (mx + 1) (first_match txt ol))
                         (map (fun s => s.1.1) sections)))
  \/ ((forall ol, outlines = Some ol -> outline_dense ol sections = false)
      /\ the_classify outlines sections
         = Returned (title_frequency (bullets_category (map (fun s => s.1.1) sections))
                                     (map (fun s => s.1) sections))).
Proof.
  unfold classify. destruct outlines as [ol |].
  - destruct (outline_dense ol sections) eqn:E.
    + left. destruct (max_lvl_spec ol (outline_dense_nonempty _ _ E)) as (mx & Hmx & _).
      exists ol, mx. repeat split; try assumption.
      unfold outline_levels. rewrite Hmx. reflexivity.
    + right. split; [| reflexivity]. intros ol' [= <-]. exact E.
  - right. split; [| reflexivity]. intros ol' H. discriminate.
Qed.

(** X10: The errors of the PDF branch. [max] is never applied to an empty
    outline (no ValueError); the assertion of line 232 fails only when the
    levels come from [title_frequency] and their number differs from the
    number of blocks, never on the outline path; and IndexError arises only
    from an item without positions. *)
Theorem pdf_branch_errors (filename : string) (binary : option string)
    (from_page to_page : Z) (lang : string) (kwargs : Kwargs) :
  let out := (the_parse_pdf (source filename binary) from_page to_page lang kwargs).2 in
  let secs := with_positions (po_sections out) in
  the_chunk_pdf filename binary from_page to_page lang kwargs <> Raised ValueError
  /\ (the_chunk_pdf filename binary from_page to_page lang kwargs = Raised AssertionError ->
      (forall ol, po_outlines out = Some ol -> outline_dense ol secs = false)
      /\ List.length (title_frequency (bullets_category (map (fun s => s.1.1) secs))
                                      (map (fun s => s.1) secs)).2
         <> List.length secs)
  /\ (the_chunk_pdf filename binary from_page to_page lang kwargs = Raised IndexError ->
      Exists (fun s => s.2 = []) secs
      \/ Exists (fun tb => tbl_poss tb = []) (po_tbls out)).
Proof.
  intros out secs. unfold chunk_pdf.
  destruct (the_parse_pdf (source filename binary) from_page to_page lang kwargs)
    as [kind out'] eqn:Ep.
  subst out secs. cbn [snd].
  set (secs := with_positions (po_sections out')).
  destruct (classify_cases (po_outlines out') secs)
    as [(ol & mx & Hol & Hd & Hmx & Hc) | (Hnd & Hc)]; rewrite Hc.
  - rewrite length_map, length_map, Nat.eqb_refl. cbn [negb].
    destruct (merge_sections _ _) eqn:Em.
    + split; [discriminate | split; intros ?; discriminate].
    + split; [discriminate |]. split; [discriminate |]. intros _.
      apply merge_fails_index in Em. exact Em.
  - destruct (title_frequency _ _) as [ml levels] eqn:Etf. cbn [snd].
    destruct (List.length secs =? List.length levels)%nat eqn:El; cbn [negb].
    + apply Nat.eqb_eq in El.
      destruct (merge_sections _ _) eqn:Em.
      * split; [discriminate | split; intros ?; discriminate].
      * split; [discriminate |]. split; [discriminate |]. intros _.
        apply merge_fails_index in Em. exact Em.
    + apply Nat.eqb_neq in El. split; [discriminate |].
      split; [| discriminate]. intros _. split; [exact Hnd | congruence].
Qed.

Lemma parse_pdf_fallback (src : Source) (from_page to_page : Z) (lang : string)
    (kwargs : Kwargs) :
  layout_recognize kwargs <> "Plain Text" ->
  layout_recognize kwargs <> "DeepDOC" ->
  LLMBundle (kw_tenant_id kwargs) (layout_recognize kwargs) lang = None
  \/ (exists vm, LLMBundle (kw_tenant_id kwargs) (layout_recognize kwargs) lang = Some vm
                  /\ VisionParser_call vm src from_page to_page = None)
  \/ call_callback callback (Py.literal 8 1) "Vision model parsing completed." = None ->
  the_parse_pdf src from_page to_page lang kwargs
  = (PdfDeepDOC, Pdf_call src from_page to_page).
Proof.
  intros Hp Hd H. unfold parse_pdf.
  apply String.eqb_neq in Hp, Hd. rewrite Hp, Hd.
  destruct H as [-> | [(vm & -> & ->) | Hcb]]; [reflexivity | reflexivity |].
  destruct (LLMBundle _ _ _) as [vm |]; [| reflexivity].
  destruct (VisionParser_call vm src from_page to_page); [| reflexivity].
  rewrite Hcb. reflexivity.
Qed.

Lemma parse_pdf_default (src : Source) (from_page to_page : Z) (lang : string)
    (tenant : option string) :
  the_parse_pdf src from_page to_page lang (mkKwargs None tenant)
  = (PdfDeepDOC, Pdf_call src from_page to_page).
Proof. reflexivity. Qed.

(** X11: Failure of the vision path falls back to the layout engine: when the
    configured recognizer is a vision model and either the model cannot be
    built, or its parser raises, or the progress callback raises when it is
    called after the parse (line 204), the PDF branch returns exactly what
    it returns with the default configuration (DeepDOC). *)
Theorem vision_failure_falls_back (filename : string) (binary : option string)
    (from_page to_page : Z) (lang : string) (kwargs : Kwargs) :
  layout_recognize kwargs <> "Plain Text" ->
  layout_recognize kwargs <> "DeepDOC" ->
  LLMBundle (kw_tenant_id kwargs) (layout_recognize kwargs) lang = None
  \/ (exists vm, LLMBundle (kw_tenant_id kwargs) (layout_recognize kwargs) lang = Some vm
                  /\ VisionParser_call vm (source filename binary) from_page to_page = None)
  \/ call_callback callback (Py.literal 8 1) "Vision model parsing completed." = None ->
  the_chunk_pdf filename binary from_page to_page lang kwargs
  = the_chunk_pdf filename binary from_page to_page lang
      (mkKwargs None (kw_tenant_id kwargs)).
Proof.
  intros Hp Hd H. unfold chunk_pdf.
  rewrite (parse_pdf_fallback _ _ _ _ _ Hp Hd H), parse_pdf_default. reflexivity.
Qed.

(** X27: The vision model of the DOCX branch needs a working callback: the
    call of line 304 is inside the [try], so when it raises, as it does for
    the default [callback=None], the model and the prompt are reset and
    [chunk] returns for a DOC/DOCX name exactly what it returns with the
    default configuration, whatever recognizer is configured. *)
Theorem docx_vision_needs_callback (filename : string) (binary : option string)
    (from_page to_page : Z) (lang : string) (kwargs : Kwargs) :
  is_docx filename = true ->
  call_callback callback (Py.literal 5 2)
    ("Using " +:+ layout_recognize kwargs +:+ " for image processing in DOCX.") = None ->
  the_chunk filename binary from_page to_page lang kwargs
  = the_chunk filename binary from_page to_page lang (mkKwargs None (kw_tenant_id kwargs)).
Proof.
  intros Hdocx Hcb. unfold chunk. rewrite (docx_is_not_pdf filename Hdocx), Hdocx.
  unfold chunk_docx.
  assert (Hv : docx_vision LLMBundle callback lang kwargs = (None, None)).
  { unfold docx_vision. destruct (_ || _); [reflexivity |].
    destruct (LLMBundle _ _ _); [| reflexivity]. rewrite Hcb. reflexivity. }
  rewrite Hv. reflexivity.
Qed.

End ChunkErrors.

Lemma docx_vision_needs_callback_witness :
  chunk Sample.no_tokens Sample.no_tokens Sample.tokenize Sample.tokenize_table
        Sample.tokenize_chunks Sample.bullets_category Sample.title_frequency
        Sample.count_chars Sample.level_of_style Sample.open_document
        (fun _ _ _ => Some Sample.describer) Sample.empty_parse Sample.empty_parse
        Sample.vision_parse None "manual.docx" None 0 100000 "English"
        (mkKwargs (Some {[ "layout_recognize" := "Gemini" ]}) (Some "tenant"))
  = chunk Sample.no_tokens Sample.no_tokens Sample.tokenize Sample.tokenize_table
          Sample.tokenize_chunks Sample.bullets_category Sample.title_frequency
          Sample.count_chars Sample.level_of_style Sample.open_document
          (fun _ _ _ => Some Sample.describer) Sample.empty_parse Sample.empty_parse
          Sample.vision_parse None "manual.docx" None 0 100000 "English"
          (mkKwargs None (Some "tenant")).
Proof.
  apply (docx_vision_needs_callback Sample.no_tokens Sample.no_tokens Sample.tokenize
           Sample.tokenize_table Sample.tokenize_chunks Sample.bullets_category
           Sample.title_frequency Sample.count_chars Sample.level_of_style
           Sample.open_document (fun _ _ _ => Some Sample.describer) Sample.empty_parse
           Sample.empty_parse Sample.vision_parse None "manual.docx" None 0 100000
           "English"
           (mkKwargs (Some {[ "layout_recognize" := "Gemini" ]}) (Some "tenant"))).
  - vm_compute. reflexivity.
  - reflexivity.
Defined.

Lemma vision_failure_falls_back_witness :
  chunk_pdf Sample.no_tokens Sample.no_tokens Sample.tokenize_table Sample.tokenize_chunks
            Sample.bullets_category Sample.title_frequency Sample.count_chars
            Sample.LLMBundle Sample.empty_parse Sample.empty_parse Sample.vision_parse
            (Some Sample.dummy)
            "manual.pdf" None 0 100000 "English"
            (mkKwargs (Some {[ "layout_recognize" := "Gemini" ]}) None)
  = chunk_pdf Sample.no_tokens Sample.no_tokens Sample.tokenize_table Sample.tokenize_chunks
              Sample.bullets_category Sample.title_frequency Sample.count_chars
              Sample.LLMBundle Sample.empty_parse Sample.empty_parse Sample.vision_parse
            (Some Sample.dummy)
              "manual.pdf" None 0 100000 "English" (mkKwargs None None).
Proof.
  apply (vision_failure_falls_back Sample.no_tokens Sample.no_tokens Sample.tokenize_table
           Sample.tokenize_chunks Sample.bullets_category Sample.title_frequency
           Sample.count_chars Sample.LLMBundle Sample.empty_parse Sample.empty_parse
           Sample.vision_parse (Some Sample.dummy) "manual.pdf" None 0 100000 "English"
           (mkKwargs (Some {[ "layout_recognize" := "Gemini" ]}) None)).
  - vm_compute. discriminate.
  - vm_compute. discriminate.
  - left. reflexivity.
Defined.

(** ** File names: supported extensions and the title *)

Lemma lower_app (a b : string) : lower (a +:+ b) = lower a +:+ lower b.
Proof.
  induction a as [| c a IH]; [reflexivity |].
  change (String (lower_char c) (lower (a +:+ b))
          = String (lower_char c) (lower a +:+ lower b)).
  rewrite IH. reflexivity.
Qed.

Lemma lower_split (s x y : string) :
  lower s = x +:+ y -> exists a b, s = a +:+ b /\ lower a = x /\ lower b = y.
Proof.
  revert s. induction x as [| c x IH]; intros s H.
  - exists "", s. repeat split. exact H.
  - destruct s as [| d s]; [discriminate |].
    change (String (lower_char d) (lower s) = String c (x +:+ y)) in H.
    injection H as Hc Hs. destruct (IH s Hs) as (a & b & -> & Ha & Hb).
    exists (String d a), b. repeat split; [| exact Hb].
    change (String (lower_char d) (lower a) = String c x). congruence.
Qed.

Lemma lower_char_idem (c : ascii) : lower_char (lower_char c) = lower_char c.
Proof. destruct c as [[] [] [] [] [] [] [] []]; reflexivity. Qed.

Lemma lower_idem (s : string) : lower (lower s) = lower s.
Proof.
  induction s as [| c s IH]; [reflexivity |]. simpl. rewrite lower_char_idem, IH. reflexivity.
Qed.

Lemma is_letter_lower (c : ascii) : is_letter (lower_char c) = is_letter c.
Proof. unfold is_letter. rewrite lower_char_idem. reflexivity. Qed.

Lemma all_letters_lower (s : string) : all_letters (lower s) = all_letters s.
Proof.
  induction s as [| c s IH]; [reflexivity |]. simpl. rewrite is_letter_lower, IH. reflexivity.
Qed.

Lemma lower_char_fixes (c d : ascii) :
  is_letter d = false -> lower_char c = d -> c = d.
Proof.
  intros Hd <-. rewrite is_letter_lower in Hd. unfold lower_char.
  destruct ((65 <=? nat_of_ascii c)%nat && (nat_of_ascii c <=? 90)%nat) eqn:E; [| reflexivity].
  exfalso. revert Hd E. destruct c as [[] [] [] [] [] [] [] []]; vm_compute; congruence.
Qed.

Lemma lower_is_newline (s : string) : lower s = Py.NL -> s = Py.NL.
Proof.
  destruct s as [| c [| d s]]; try discriminate.
  intros [= H]. f_equal. apply lower_char_fixes; [reflexivity | exact H].
Qed.

(** A case-insensitive search for a literal at the end of the name: the
    name is a base, an extension that is the literal up to case, and
    nothing or one newline. *)
Lemma search_at_end_iff (lit s : string) :
  lower lit = lit ->
  search_at_end lit s = true
  <-> exists base ext tail,
        s = base +:+ ext +:+ tail /\ lower ext = lit /\ (tail = "" \/ tail = Py.NL).
Proof.
  intros Hlit. unfold search_at_end. rewrite orb_true_iff, !ends_with_iff. split.
  - intros [[pre H] | [pre H]].
    + apply lower_split in H as (a & b & -> & _ & Hb).
      exists a, b, "". rewrite string_app_nil_r. repeat split; [exact Hb | left; reflexivity].
    + apply lower_split in H as (a & b & -> & _ & Hb).
      apply lower_split in Hb as (b1 & b2 & -> & Hb1 & Hb2).
      apply lower_is_newline in Hb2. subst b2.
      exists a, b1, Py.NL. repeat split; [exact Hb1 | right; reflexivity].
  - intros (base & ext & tail & -> & Hext & [-> | ->]).
    + left. exists (lower base). rewrite string_app_nil_r, lower_app, Hext. reflexivity.
    + right. exists (lower base). rewrite !lower_app, Hext. reflexivity.
Qed.

(** X12: The names [chunk] accepts: a name goes to the PDF branch exactly when it
    ends in ".pdf" in any case, optionally followed by one newline, and to
    the DOCX branch exactly when it ends likewise in ".doc" or ".docx". *)
Theorem supported_names (filename : string) :
  (is_pdf filename = true
   <-> exists base ext tail,
         filename = base +:+ ext +:+ tail /\ lower ext = ".pdf"
         /\ (tail = "" \/ tail = Py.NL))
  /\ (is_docx filename = true
      <-> exists base ext tail,
            filename = base +:+ ext +:+ tail
            /\ (lower ext = ".doc" \/ lower ext = ".docx")
            /\ (tail = "" \/ tail = Py.NL)).
Proof.
  split.
  - apply search_at_end_iff. reflexivity.
  - unfold is_docx. rewrite orb_true_iff, !search_at_end_iff by reflexivity. split.
    + intros [(b & e & t & H1 & H2 & H3) | (b & e & t & H1 & H2 & H3)];
        exists b, e, t; auto.
    + intros (b & e & t & H1 & [H2 | H2] & H3); [left | right]; exists b, e, t; auto.
Qed.

Lemma letters_to_end_dot (x y : string) :
  forall seen, letters_to_end seen (x +:+ String "." y) = None.
Proof.
  induction x as [| c x IH]; intros seen.
  - change ("" +:+ String "." y) with (String "." y). simpl.
    destruct seen; reflexivity.
  - change (String c x +:+ String "." y) with (String c (x +:+ String "." y)). simpl.
    destruct (is_letter c); [apply IH |].
    destruct (seen && _) eqn:E; [| reflexivity].
    exfalso. apply andb_true_iff in E as [_ E].
    destruct (Ascii.eqb c (ascii_of_nat 10)); [| discriminate].
    apply String.eqb_eq in E. destruct x as [| d x].
    + change (String "." y = "") in E. discriminate.
    + change (String d (x +:+ String "." y) = "") in E. discriminate.
Qed.

Lemma letters_to_end_letters (e tail : string) :
  all_letters e = true ->
  tail = "" \/ tail = Py.NL ->
  forall seen, seen = true \/ e <> "" -> letters_to_end seen (e +:+ tail) = Some tail.
Proof.
  intros He Ht. induction e as [| c e IH]; intros seen Hs.
  - destruct Hs as [-> | Hs]; [| congruence].
    destruct Ht as [-> | ->]; reflexivity.
  - simpl in He. apply andb_true_iff in He as [Hc He].
    change (String c e +:+ tail) with (String c (e +:+ tail)). simpl. rewrite Hc.
    apply IH; [exact He | left; reflexivity].
Qed.

Lemma strip_extension_app (base e tail : string) :
  all_letters e = true -> e <> "" -> tail = "" \/ tail = Py.NL ->
  strip_extension (base +:+ String "." (e +:+ tail)) = base +:+ tail.
Proof.
  intros He Hne Ht. induction base as [| c base IH].
  - change ("" +:+ String "." (e +:+ tail)) with (String "." (e +:+ tail)). simpl.
    rewrite letters_to_end_letters by auto. reflexivity.
  - change (String c base +:+ String "." (e +:+ tail))
      with (String c (base +:+ String "." (e +:+ tail))).
    simpl. rewrite letters_to_end_dot. rewrite IH.
    destruct (Ascii.eqb c "."); reflexivity.
Qed.

(** X13: The title of a supported name is the name without its extension: for
    a name accepted by the PDF or the DOCX branch, [strip_extension] removes
    exactly the extension (and keeps a final newline). *)
Theorem title_of_supported_name (filename : string) :
  is_pdf filename = true \/ is_docx filename = true ->
  exists base ext tail,
    filename = base +:+ ext +:+ tail
    /\ (lower ext = ".pdf" \/ lower ext = ".doc" \/ lower ext = ".docx")
    /\ (tail = "" \/ tail = Py.NL)
    /\ strip_extension filename = base +:+ tail.
Proof.
  intros H.
  assert (Hx : exists base ext tail,
             filename = base +:+ ext +:+ tail
             /\ (lower ext = ".pdf" \/ lower ext = ".doc" \/ lower ext = ".docx")
             /\ (tail = "" \/ tail = Py.NL)).
  { destruct H as [H | H].
    - apply search_at_end_iff in H as (b & e & t & H1 & H2 & H3); [| reflexivity].
      exists b, e, t. auto.
    - unfold is_docx in H. apply orb_true_iff in H as [H | H];
        apply search_at_end_iff in H as (b & e & t & H1 & H2 & H3); try reflexivity;
        exists b, e, t; auto. }
  destruct Hx as (base & ext & tail & -> & Hext & Ht).
  exists base, ext, tail. repeat split; try assumption.
  destruct ext as [| c e]; [destruct Hext as [H' | [H' | H']]; discriminate |].
  assert (Hc : c = "."%char /\ all_letters e = true /\ e <> "").
  { destruct Hext as [H' | [H' | H']];
      change (String (lower_char c) (lower e) = String "." "pdf") in H' ||
      change (String (lower_char c) (lower e) = String "." "doc") in H' ||
      change (String (lower_char c) (lower e) = String "." "docx") in H';
      injection H' as Hc He;
      (split; [apply lower_char_fixes; [reflexivity | exact Hc] |]);
      (split; [rewrite <- all_letters_lower, He; reflexivity
              | intros ->; discriminate]). }
  destruct Hc as (-> & He & Hne).
  change (String "." e +:+ tail) with (String "." (e +:+ tail)).
  apply strip_extension_app; assumption.
Qed.

Lemma title_of_supported_name_witness :
  exists base ext tail,
    "user.Guide.PDF" = base +:+ ext +:+ tail
    /\ (lower ext = ".pdf" \/ lower ext = ".doc" \/ lower ext = ".docx")
    /\ (tail = "" \/ tail = Py.NL)
    /\ strip_extension "user.Guide.PDF" = base +:+ tail.
Proof. apply title_of_supported_name. left. vm_compute. reflexivity. Defined.

(** ** One-decimal formatting is correctly rounded *)

(** X14: A finite coordinate is printed correctly rounded: the number of tenths
    printed for the double m * 2^e is exact when e >= 0, and otherwise
    differs from 10 * m * 2^e by at most one half, an exact half being
    rounded to the even neighbour. *)
Theorem format_1f_correctly_rounded (s : bool) (m : positive) (e : Z) :
  Py.format_1f (S754_finite s m e)
  = Py.sign_str s +:+ Py.str_of_int (Py.tenths m e / 10) +:+ "."
      +:+ Py.str_of_int (Py.tenths m e mod 10)
  /\ 0 <= Py.tenths m e
  /\ (0 <= e -> Py.tenths m e = 10 * Zpos m * 2 ^ e)
  /\ (e < 0 ->
      2 * Z.abs (10 * Zpos m - Py.tenths m e * 2 ^ (- e)) <= 2 ^ (- e)
      /\ (2 * Z.abs (10 * Zpos m - Py.tenths m e * 2 ^ (- e)) = 2 ^ (- e) ->
          Z.even (Py.tenths m e) = true)).
Proof. split; [reflexivity | exact (tenths_nearest m e)]. Qed.

Lemma format_1f_correctly_rounded_witness :
  Py.tenths 5770237022568448 (-49) = 102 /\ Z.even 102 = true.
Proof.
  destruct (format_1f_correctly_rounded false 5770237022568448 (-49)) as (_ & _ & _ & H).
  destruct (H ltac:(lia)) as [_ Heven].
  split; [vm_compute; reflexivity |].
  change 102 with (Py.tenths 5770237022568448 (-49)).
  apply Heven. vm_compute. reflexivity.
Defined.

(** ** Table normalizer *)

Lemma row_cells_groups :
  forall (rest : list string) (cur : string) (span : Z),
    1 <= span ->
    exists groups : list (string * Z),
      row_cells cur span rest = concat_str (map td_html groups)
      /\ expand_groups groups = replicate (Z.to_nat span) cur ++ rest
      /\ Forall (fun g => 1 <= g.2) groups
      /\ (exists g0 gs, groups = g0 :: gs /\ g0.1 = cur)
      /\ (forall (i : nat) g h, groups !! i = Some g -> groups !! S i = Some h -> g.1 <> h.1).
Proof.
  induction rest as [| c rest IH]; intros cur span Hspan.
  - exists [(cur, span)]. split; [| split; [| split; [| split]]].
    + simpl. unfold td_html. cbn [fst snd]. rewrite string_app_nil_r. reflexivity.
    + unfold expand_groups. simpl. rewrite !app_nil_r. reflexivity.
    + repeat constructor. exact Hspan.
    + exists (cur, span), []. split; reflexivity.
    + intros [| i] g h Hg Hh; discriminate.
  - simpl. destruct (String.eqb cur c) eqn:E.
    + apply String.eqb_eq in E. subst c.
      destruct (IH cur (span + 1) ltac:(lia)) as (groups & H1 & H2 & H3 & H4 & H5).
      exists groups. split; [exact H1 |]. split; [| repeat split; assumption].
      rewrite H2. replace (Z.to_nat (span + 1)) with (S (Z.to_nat span)) by lia.
      rewrite replicate_S_end, <- app_assoc. reflexivity.
    + apply String.eqb_neq in E.
      destruct (IH c 1 ltac:(lia)) as (groups & H1 & H2 & H3 & (g0 & gs & Hg & Hg0) & H5).
      exists ((cur, span) :: groups). split; [| split; [| split; [| split]]].
      * rewrite H1. reflexivity.
      * unfold expand_groups in *. simpl. rewrite H2. reflexivity.
      * constructor; [exact Hspan | exact H3].
      * exists (cur, span), groups. split; reflexivity.
      * intros [| i] g h Hg' Hh.
        -- simpl in Hg'. injection Hg' as <-. subst groups. simpl in Hh.
           injection Hh as <-. cbn [fst]. congruence.
        -- apply (H5 i); assumption.
Qed.

(** X15: A table row is rendered as groups of equal consecutive cells: the row
    markup is the markup of a list of (text, span) groups whose expansion
    is exactly the row's cells, every span is at least 1, and neighbouring
    groups have different texts (each group is a maximal run). *)
Theorem row_html_groups (cells : list string) :
  exists groups : list (string * Z),
    row_html cells = "<tr>" +:+ concat_str (map td_html groups) +:+ "</tr>"
    /\ expand_groups groups = cells
    /\ Forall (fun g => 1 <= g.2) groups
    /\ (forall (i : nat) g h, groups !! i = Some g -> groups !! S i = Some h -> g.1 <> h.1).
Proof.
  destruct cells as [| c rest].
  - exists []. repeat split; [constructor | intros i g h H; discriminate].
  - destruct (row_cells_groups rest c 1 ltac:(lia)) as (groups & H1 & H2 & H3 & _ & H5).
    exists groups. unfold row_html. rewrite H1. repeat split; assumption.
Qed.

(** ** Question/answer reconstruction: invariants of the loop *)

Lemma count_breaks_bounds (runs : list string) :
  forall pn, pn <= count_breaks pn runs <= pn + Z.of_nat (List.length runs).
Proof.
  induction runs as [| xml runs IH]; intros pn; simpl; [lia |].
  destruct (str_in "lastRenderedPageBreak" xml);
    [| destruct (str_in "w:br" xml && str_in page_attr xml)].
  - specialize (IH (pn + 1)). lia.
  - specialize (IH (pn + 1)). lia.
  - specialize (IH pn). lia.
Qed.

Lemma nested_drop (k : nat) : forall ls, nested ls -> nested (drop k ls).
Proof.
  induction k as [| k IH]; intros ls H; [rewrite drop_0; exact H |].
  destruct ls as [| l ls]; [exact H |]. simpl. apply IH. destruct H as [_ H]. exact H.
Qed.

Lemma nested_length (ls : list Z) :
  nested ls -> Forall (fun l => 1 <= l) ls ->
  forall top below, ls = top :: below -> Z.of_nat (List.length ls) <= top.
Proof.
  induction ls as [| l ls IH]; intros Hn Hall top below Heq; [discriminate |].
  injection Heq as -> ->. apply Forall_cons in Hall as [Hl Hall].
  destruct Hn as [Hlt Hn]. destruct below as [| b below]; [simpl; lia |].
  specialize (IH Hn Hall b below eq_refl). simpl List.length in *. lia.
Qed.

Section QAInvariants.

Variable docx_question_level : Paragraph -> Z * string.
Variable from_page to_page : Z.
Variable vision_model : option VisionModel.
Variable vision_prompt : option string.

Abbreviation qstep := (qa_step docx_question_level from_page to_page vision_model vision_prompt).
Abbreviation qloop := (qa_loop docx_question_level from_page to_page vision_model vision_prompt).
Abbreviation qquestion := (question_of docx_question_level from_page to_page).

(** The two shapes of an iteration: a paragraph that is not a question
    extends the pending answer and keeps stacks and units; a question
    flushes, pops and pushes. *)
Lemma qa_step_shape (st : QAState) (p : Paragraph) :
  (exists lvl t extra img',
      qquestion st p = (lvl, t) /\ not_a_question lvl = true
      /\ qstep st p
         = mkQAState (count_breaks (qa_pn st) (par_runs p))
                     (last_answer st +:+ Py.NL +:+ extra) img'
                     (question_stack st) (level_stack st) (ti_list st)
      /\ ((img' = last_image st
           /\ exists img vm prompt txt,
                par_picture p = Some img /\ vision_model = Some vm
                /\ vision_prompt = Some prompt /\ vm img prompt = Some txt)
          \/ img' = concat_img (last_image st) (par_picture p)))
  \/ (exists lvl t,
        qquestion st p = (lvl, t) /\ not_a_question lvl = false
        /\ qstep st p
           = let pending := Py.truthy (last_answer st) || bool_decide (last_image st <> None) in
             let sq := sum_question (question_stack st) in
             let popped := pop_stacks lvl (question_stack st) (level_stack st) in
             mkQAState (count_breaks (qa_pn st) (par_runs p))
                       (if pending then "" else last_answer st)
                       (if pending then None else last_image st)
                       (t :: popped.1) (lvl :: popped.2)
                       (if pending && Py.truthy sq
                        then ti_list st ++ [(sq +:+ Py.NL +:+ last_answer st, last_image st)]
                        else ti_list st)).
Proof.
  unfold qa_step, qa_paragraph.
  destruct (qquestion st p) as [lvl t]. destruct (not_a_question lvl) eqn:En.
  - left. exists lvl, t.
    destruct (par_picture p) as [img |] eqn:Ep;
      [destruct vision_model as [vm |] eqn:Evm;
       [destruct vision_prompt as [[| c prompt] |] eqn:Evp;
        [| destruct (vm img (String c prompt)) as [txt |] eqn:Ev |] |] |].
    all: try (exists t; eexists;
              split; [reflexivity | split; [exact En | split; [reflexivity |]]];
              right; reflexivity).
    exists (t +:+ Py.NL +:+ "[Image Content]: " +:+ txt), (last_image st).
    split; [reflexivity | split; [exact En | split; [reflexivity |]]].
    left. split; [reflexivity |].
    exists img, vm, (String c prompt), txt. repeat split. exact Ev.
  - right. exists lvl, t. split; [reflexivity | split; [exact En |]].
    destruct (Py.truthy (last_answer st) || bool_decide (last_image st <> None));
      cbn [qa_pn last_answer last_image question_stack level_stack ti_list];
      destruct (pop_stacks lvl (question_stack st) (level_stack st)) as [qs ls];
      reflexivity.
Qed.

Lemma qa_loop_invariant (P : QAState -> Prop) :
  (forall st p, P st -> P (qstep st p)) ->
  forall ps st, P st -> P (qloop st ps).
Proof.
  intros Hstep. induction ps as [| p ps IH]; intros st Hst; [exact Hst |].
  simpl. destruct (qa_pn st >? to_page); [exact Hst |]. apply IH, Hstep, Hst.
Qed.

Lemma qa_step_stacks_ok (st : QAState) (p : Paragraph) :
  List.length (question_stack st) = List.length (level_stack st)
  /\ nested (level_stack st)
  /\ Forall (fun l => l <> 0 /\ l <= 6) (level_stack st) ->
  List.length (question_stack (qstep st p)) = List.length (level_stack (qstep st p))
  /\ nested (level_stack (qstep st p))
  /\ Forall (fun l => l <> 0 /\ l <= 6) (level_stack (qstep st p)).
Proof.
  intros (Hlen & Hn & Hall).
  destruct (qa_step_shape st p)
    as [(lvl & t & extra & img' & _ & _ & -> & _) | (lvl & t & _ & Hq & ->)].
  - cbn [question_stack level_stack]. auto.
  - cbn [question_stack level_stack].
    destruct (pop_stacks_spec lvl _ _ Hlen) as (k & -> & _ & Htop). cbn [fst snd].
    split; [simpl; rewrite !length_drop; lia |]. split.
    + simpl. split; [| apply nested_drop, Hn].
      destruct (drop k (level_stack st)) as [| l ls] eqn:E; [exact I |].
      apply Htop. rewrite <- (Nat.add_0_r k), <- lookup_drop, E. reflexivity.
    + constructor; [| apply Forall_drop, Hall].
      unfold not_a_question in Hq. apply orb_false_iff in Hq as [H0 H6].
      apply Z.eqb_neq in H0. rewrite Z.gtb_ltb in H6. apply Z.ltb_ge in H6.
      split; [exact H0 | exact H6].
Qed.

Lemma truthy_false (s : string) : Py.truthy s = false -> s = "".
Proof. destruct s; [reflexivity | discriminate]. Qed.

Lemma truthy_true (s : string) : Py.truthy s = true -> s <> "".
Proof. destruct s; [discriminate | discriminate]. Qed.

(** The counting invariant after [n] paragraphs: a pending image comes with
    a pending answer, and the units emitted so far plus the pending one are
    at most [n]. *)
Lemma qa_step_pending (n : nat) (st : QAState) (p : Paragraph) :
  (last_answer st = "" -> last_image st = None)
  /\ (List.length (ti_list st) + (if Py.truthy (last_answer st) then 1 else 0) <= n)%nat ->
  (last_answer (qstep st p) = "" -> last_image (qstep st p) = None)
  /\ (List.length (ti_list (qstep st p))
        + (if Py.truthy (last_answer (qstep st p)) then 1 else 0) <= S n)%nat.
Proof.
  intros [Hinv Hcnt].
  destruct (qa_step_shape st p)
    as [(lvl & t & extra & img' & _ & _ & -> & _) | (lvl & t & _ & _ & ->)].
  - cbn [last_answer last_image ti_list]. rewrite truthy_after_newline. split.
    + intros H. apply (f_equal Py.truthy) in H. rewrite truthy_after_newline in H.
      discriminate.
    + destruct (Py.truthy (last_answer st)); lia.
  - cbn [last_answer last_image ti_list].
    destruct (Py.truthy (last_answer st)) eqn:Ea.
    + cbn [orb]. split; [reflexivity |].
      destruct (Py.truthy (sum_question (question_stack st))); cbn [andb];
        rewrite ?length_app; simpl; lia.
    + apply truthy_false in Ea. rewrite (Hinv Ea), Ea. cbn. split; [reflexivity | lia].
Qed.

Lemma qa_loop_pending :
  forall (ps : list Paragraph) (n : nat) (st : QAState),
    (last_answer st = "" -> last_image st = None)
    /\ (List.length (ti_list st) + (if Py.truthy (last_answer st) then 1 else 0) <= n)%nat ->
    (last_answer (qloop st ps) = "" -> last_image (qloop st ps) = None)
    /\ (List.length (ti_list (qloop st ps))
          + (if Py.truthy (last_answer (qloop st ps)) then 1 else 0)
        <= n + List.length ps)%nat.
Proof.
  induction ps as [| p ps IH]; intros n st H.
  - simpl. destruct H as [H1 H2]. split; [exact H1 | lia].
  - simpl. destruct (qa_pn st >? to_page).
    + destruct H as [H1 H2]. split; [exact H1 | lia].
    + destruct (IH (S n) (qstep st p) (qa_step_pending n st p H)) as [H1 H2].
      split; [exact H1 | lia].
Qed.

(** The units of an iteration: those there were, and at most one more, made
    of the heading path, the pending answer and the pending image of the
    state the iteration started from, whose heading path is not empty. *)
Lemma qa_step_units (st : QAState) (p : Paragraph) :
  Forall (fun u => u ∈ ti_list st
                   \/ (u = (sum_question (question_stack st) +:+ Py.NL +:+ last_answer st,
                            last_image st)
                       /\ Py.truthy (sum_question (question_stack st)) = true
                       /\ Py.truthy (last_answer st) || bool_decide (last_image st <> None)
                          = true))
         (ti_list (qstep st p)).
Proof.
  destruct (qa_step_shape st p)
    as [(lvl & t & extra & img' & _ & _ & -> & _) | (lvl & t & _ & _ & ->)];
    cbn [ti_list].
  - apply Forall_forall. intros u Hu. left. exact Hu.
  - destruct (Py.truthy (last_answer st) || bool_decide (last_image st <> None)) eqn:Ep;
      cbn [andb];
      [destruct (Py.truthy (sum_question (question_stack st))) eqn:Eq |].
    + apply Forall_app. split.
      * apply Forall_forall. intros u Hu. left. exact Hu.
      * apply Forall_singleton. right. split; [reflexivity | split; reflexivity].
    + apply Forall_forall. intros u Hu. left. exact Hu.
    + apply Forall_forall. intros u Hu. left. exact Hu.
Qed.

Lemma qa_loop_units :
  forall (ps : list Paragraph) (st : QAState),
    Forall (fun u =>
              u ∈ ti_list st
              \/ exists pre,
                   pre `prefix_of` ps
                   /\ u = (sum_question (question_stack (qloop st pre)) +:+ Py.NL
                             +:+ last_answer (qloop st pre),
                           last_image (qloop st pre))
                   /\ Py.truthy (sum_question (question_stack (qloop st pre))) = true
                   /\ Py.truthy (last_answer (qloop st pre))
                      || bool_decide (last_image (qloop st pre) <> None) = true)
           (ti_list (qloop st ps)).
Proof.
  induction ps as [| p ps IH]; intros st.
  - apply Forall_forall. intros u Hu. left. exact Hu.
  - simpl. destruct (qa_pn st >? to_page) eqn:E.
    + apply Forall_forall. intros u Hu. left. exact Hu.
    + apply Forall_forall. intros u Hu.
      pose proof (proj1 (Forall_forall _ _) (IH (qstep st p)) u Hu) as [Hin | Hpre].
      * pose proof (proj1 (Forall_forall _ _) (qa_step_units st p) u Hin) as [H | H];
          [left; exact H |].
        right. exists []. split; [apply prefix_nil | exact H].
      * destruct Hpre as (pre & Hpre & H). right. exists (p :: pre).
        split; [apply prefix_cons, Hpre |]. simpl. rewrite E. exact H.
Qed.

(** The questions on the stack are texts that [docx_question_level] gave
    for paragraphs it classified as questions. *)
Lemma pop_stacks_Forall (P : string -> Prop) (i : Z) :
  forall (qs : list string) (ls : list Z),
    Forall P qs -> Forall P (pop_stacks i qs ls).1.
Proof.
  induction qs as [| q qs IH]; intros ls H; [destruct ls; exact H |].
  destruct ls as [| l ls]; [exact H |]. simpl.
  destruct (i <=? l); [| exact H].
  apply IH. apply Forall_cons in H as [_ H]. exact H.
Qed.

Lemma qa_step_questions (all : list Paragraph) (st : QAState) (p : Paragraph) :
  p ∈ all ->
  Forall (fun q => exists p' lvl, p' ∈ all /\ docx_question_level p' = (lvl, q)
                                  /\ not_a_question lvl = false) (question_stack st) ->
  Forall (fun q => exists p' lvl, p' ∈ all /\ docx_question_level p' = (lvl, q)
                                  /\ not_a_question lvl = false)
         (question_stack (qstep st p)).
Proof.
  intros Hp H.
  destruct (qa_step_shape st p)
    as [(lvl & t & extra & img' & _ & _ & -> & _) | (lvl & t & Hq & Hn & ->)];
    cbn [question_stack]; [exact H |].
  constructor; [| apply pop_stacks_Forall, H].
  exists p, lvl. split; [exact Hp |]. split; [| exact Hn].
  destruct (question_of_cases docx_question_level from_page to_page st p) as [E | E];
    rewrite E in Hq; [exact Hq |].
  injection Hq as <- _. discriminate Hn.
Qed.

Lemma qa_loop_questions (all : list Paragraph) :
  forall (ps : list Paragraph) (st : QAState),
    (forall p, p ∈ ps -> p ∈ all) ->
    Forall (fun q => exists p' lvl, p' ∈ all /\ docx_question_level p' = (lvl, q)
                                    /\ not_a_question lvl = false) (question_stack st) ->
    Forall (fun q => exists p' lvl, p' ∈ all /\ docx_question_level p' = (lvl, q)
                                    /\ not_a_question lvl = false)
           (question_stack (qloop st ps)).
Proof.
  induction ps as [| p ps IH]; intros st Hsub H; [exact H |].
  simpl. destruct (qa_pn st >? to_page); [exact H |].
  apply IH.
  - intros q Hq. apply Hsub. right. exact Hq.
  - apply qa_step_questions; [apply Hsub; left | exact H].
Qed.


End QAInvariants.

Section QATheorems.

Variable docx_question_level : Paragraph -> Z * string.
Variable from_page to_page : Z.
Variable vision_model : option VisionModel.
Variable vision_prompt : option string.

Abbreviation rstep := (qa_step docx_question_level from_page to_page vision_model vision_prompt).
Abbreviation rloop := (qa_loop docx_question_level from_page to_page vision_model vision_prompt).
Abbreviation run_docx :=
  (Docx_call docx_question_level from_page to_page vision_model vision_prompt).

(** X16: The two stacks stay parallel and nested: after any stream, the question
    stack and the level stack have the same length, the levels increase
    strictly from the bottom of the stack to its top, and every level on the
    stack is a question level (non-zero and at most 6). *)
Theorem qa_stacks_stay_nested (ps : list Paragraph) :
  List.length (question_stack (rloop qa_init ps))
  = List.length (level_stack (rloop qa_init ps))
  /\ nested (level_stack (rloop qa_init ps))
  /\ Forall (fun l => l <> 0 /\ l <= 6) (level_stack (rloop qa_init ps)).
Proof.
  apply (qa_loop_invariant docx_question_level from_page to_page vision_model vision_prompt
           (fun st => List.length (question_stack st) = List.length (level_stack st)
                      /\ nested (level_stack st)
                      /\ Forall (fun l => l <> 0 /\ l <= 6) (level_stack st))).
  - intros st p. apply qa_step_stacks_ok.
  - repeat split. constructor.
Qed.

Lemma qa_step_positive (st : QAState) (p : Paragraph) :
  (forall q, 0 <= (docx_question_level q).1) ->
  Forall (fun l => 1 <= l) (level_stack st) ->
  Forall (fun l => 1 <= l) (level_stack (rstep st p)).
Proof.
  intros Hdql Hall.
  destruct (qa_step_shape docx_question_level from_page to_page vision_model
              vision_prompt st p)
    as [(lvl & t & extra & img' & _ & _ & -> & _) | (lvl & t & Hq & Hn & ->)].
  - exact Hall.
  - cbn [level_stack]. constructor.
    + unfold not_a_question in Hn. apply orb_false_iff in Hn as [H0 _].
      apply Z.eqb_neq in H0.
      destruct (question_of_cases docx_question_level from_page to_page st p) as [H | H];
        rewrite H in Hq.
      * specialize (Hdql p). rewrite Hq in Hdql. cbn [fst] in Hdql. lia.
      * injection Hq as <- _. congruence.
    + clear Hq Hn. revert Hall. generalize (level_stack st) as ls.
      generalize (question_stack st) as qs.
      induction qs as [| q qs IH]; intros ls Hall; [destruct ls; exact Hall |].
      destruct ls as [| l ls]; [exact Hall |]. simpl.
      destruct (lvl <=? l); [| exact Hall].
      apply IH. apply Forall_cons in Hall as [_ Hall]. exact Hall.
Qed.

(** X17: With non-negative levels the heading path is never deeper than six:
    the question stack holds at most six questions at any time. *)
Theorem qa_stack_depth (ps : list Paragraph) :
  (forall q, 0 <= (docx_question_level q).1) ->
  (List.length (question_stack (rloop qa_init ps)) <= 6)%nat.
Proof.
  intros Hdql.
  assert (H : (List.length (question_stack (rloop qa_init ps))
               = List.length (level_stack (rloop qa_init ps))
               /\ nested (level_stack (rloop qa_init ps))
               /\ Forall (fun l => l <> 0 /\ l <= 6) (level_stack (rloop qa_init ps)))
              /\ Forall (fun l => 1 <= l) (level_stack (rloop qa_init ps))).
  { apply (qa_loop_invariant docx_question_level from_page to_page vision_model
             vision_prompt
             (fun st => (List.length (question_stack st) = List.length (level_stack st)
                         /\ nested (level_stack st)
                         /\ Forall (fun l => l <> 0 /\ l <= 6) (level_stack st))
                        /\ Forall (fun l => 1 <= l) (level_stack st))).
    - intros st p [H1 H2]. split; [apply qa_step_stacks_ok, H1 |].
      apply qa_step_positive; assumption.
    - repeat split; constructor. }
  destruct H as [(Hlen & Hn & H6) H1]. rewrite Hlen.
  destruct (level_stack (rloop qa_init ps)) as [| top below] eqn:E; [simpl; lia |].
  pose proof (nested_length (top :: below) Hn H1 top below eq_refl) as Hb.
  apply Forall_cons in H6 as [[_ Htop] _]. lia.
Qed.

(** X18: There are never more units than paragraphs. *)
Theorem units_at_most_paragraphs (doc : Document) :
  (List.length (run_docx doc).1 <= List.length (doc_paragraphs doc))%nat.
Proof.
  unfold Docx_call. cbn [fst].
  destruct (qa_loop_pending docx_question_level from_page to_page vision_model
              vision_prompt (doc_paragraphs doc) 0 qa_init) as [_ H].
  { split; [reflexivity | simpl; lia]. }
  unfold qa_finish. simpl in H.
  destruct (Py.truthy (last_answer _)); [| lia].
  destruct (Py.truthy (sum_question _)); [rewrite length_app; simpl |]; lia.
Qed.

(** X19: No pending image is lost at the end of the stream: on every state the
    loop reaches, a pending image comes with a pending answer, so the test
    of line 148 ([last_answer]) agrees with the test of line 130
    ([last_answer or last_image]). *)
Theorem pending_image_has_answer (ps : list Paragraph) :
  (last_image (rloop qa_init ps) <> None -> last_answer (rloop qa_init ps) <> "")
  /\ Py.truthy (last_answer (rloop qa_init ps))
     || bool_decide (last_image (rloop qa_init ps) <> None)
     = Py.truthy (last_answer (rloop qa_init ps)).
Proof.
  destruct (qa_loop_pending docx_question_level from_page to_page vision_model
              vision_prompt ps 0 qa_init) as [H _].
  { split; [reflexivity | simpl; lia]. }
  split.
  - intros Hi Ha. apply Hi, H, Ha.
  - destruct (Py.truthy (last_answer (rloop qa_init ps))) eqn:E; [reflexivity |].
    apply truthy_false in E. rewrite (H E). reflexivity.
Qed.

(** X20: Every unit has a heading. Each unit of the output is made of the
    heading path, the pending answer and the pending image of the state the
    loop reaches after some prefix of the paragraphs: its text is the
    questions of that state's stack joined by newlines, a newline, and the
    pending answer. In that state the stack is not empty, the joined heading
    path is not the empty string, the pending answer is not empty, and every
    question of the stack is the text [docx_question_level] returned for a
    paragraph of the prefix that it classified as a question. *)
Theorem units_have_a_heading (doc : Document) :
  Forall (fun u =>
            exists pre,
              pre `prefix_of` doc_paragraphs doc
              /\ u = (sum_question (question_stack (rloop qa_init pre)) +:+ Py.NL
                        +:+ last_answer (rloop qa_init pre),
                      last_image (rloop qa_init pre))
              /\ question_stack (rloop qa_init pre) <> []
              /\ sum_question (question_stack (rloop qa_init pre)) <> ""
              /\ last_answer (rloop qa_init pre) <> ""
              /\ Forall (fun q => exists p lvl,
                                    p ∈ pre /\ docx_question_level p = (lvl, q)
                                    /\ not_a_question lvl = false)
                        (question_stack (rloop qa_init pre)))
         (run_docx doc).1.
Proof.
  assert (Hstate : forall pre,
             Py.truthy (sum_question (question_stack (rloop qa_init pre))) = true ->
             Py.truthy (last_answer (rloop qa_init pre))
             || bool_decide (last_image (rloop qa_init pre) <> None) = true ->
             question_stack (rloop qa_init pre) <> []
             /\ sum_question (question_stack (rloop qa_init pre)) <> ""
             /\ last_answer (rloop qa_init pre) <> ""
             /\ Forall (fun q => exists p lvl,
                                   p ∈ pre /\ docx_question_level p = (lvl, q)
                                   /\ not_a_question lvl = false)
                       (question_stack (rloop qa_init pre))).
  { intros pre Hsq Hpend.
    split; [intros Hnil; rewrite Hnil in Hsq; discriminate Hsq |].
    split; [apply truthy_true, Hsq |]. split.
    - destruct (qa_loop_pending docx_question_level from_page to_page vision_model
                  vision_prompt pre 0 qa_init) as [Hinv _].
      { split; [reflexivity | simpl; lia]. }
      intros Ha. rewrite Ha, (Hinv Ha) in Hpend. discriminate Hpend.
    - apply (qa_loop_questions docx_question_level from_page to_page vision_model
               vision_prompt pre pre qa_init); [auto | constructor]. }
  unfold Docx_call. cbn [fst]. unfold qa_finish.
  assert (Hloop : Forall (fun u =>
            exists pre,
              pre `prefix_of` doc_paragraphs doc
              /\ u = (sum_question (question_stack (rloop qa_init pre)) +:+ Py.NL
                        +:+ last_answer (rloop qa_init pre),
                      last_image (rloop qa_init pre))
              /\ question_stack (rloop qa_init pre) <> []
              /\ sum_question (question_stack (rloop qa_init pre)) <> ""
              /\ last_answer (rloop qa_init pre) <> ""
              /\ Forall (fun q => exists p lvl,
                                    p ∈ pre /\ docx_question_level p = (lvl, q)
                                    /\ not_a_question lvl = false)
                        (question_stack (rloop qa_init pre)))
           (ti_list (rloop qa_init (doc_paragraphs doc)))).
  { apply Forall_forall. intros u Hu.
    pose proof (proj1 (Forall_forall _ _)
                  (qa_loop_units docx_question_level from_page to_page vision_model
                     vision_prompt (doc_paragraphs doc) qa_init) u Hu) as [Hin | Hpre].
    - simpl in Hin. apply elem_of_nil in Hin. destruct Hin.
    - destruct Hpre as (pre & Hpre & -> & Hsq & Hpend).
      exists pre. split; [exact Hpre |]. split; [reflexivity |].
      apply Hstate; assumption. }
  destruct (Py.truthy (last_answer _)) eqn:Ea; [| exact Hloop].
  destruct (Py.truthy (sum_question _)) eqn:Eq; [| exact Hloop].
  apply Forall_app. split; [exact Hloop |]. apply Forall_singleton.
  exists (doc_paragraphs doc). split; [reflexivity |]. split; [reflexivity |].
  apply Hstate; [exact Eq | rewrite Ea; reflexivity].
Qed.

Lemma qa_step_pn (st : QAState) (p : Paragraph) :
  qa_pn (rstep st p) = count_breaks (qa_pn st) (par_runs p).
Proof.
  destruct (qa_step_shape docx_question_level from_page to_page vision_model
              vision_prompt st p)
    as [(lvl & t & extra & img' & _ & _ & -> & _) | (lvl & t & _ & _ & ->)]; reflexivity.
Qed.

(** X22: The page counter never decreases and grows by at most one per run. *)
Theorem page_counter_bounds (ps : list Paragraph) (st : QAState) :
  qa_pn st <= qa_pn (rloop st ps)
  <= qa_pn st + Z.of_nat (List.length (concat (map par_runs ps))).
Proof.
  revert st. induction ps as [| p ps IH]; intros st; [simpl; lia |].
  simpl. destruct (qa_pn st >? to_page); [lia |].
  specialize (IH (rstep st p)). rewrite qa_step_pn in IH.
  pose proof (count_breaks_bounds (par_runs p) (qa_pn st)).
  rewrite length_app. lia.
Qed.

(** X23: The loop stops at the first paragraph that starts past [to_page]:
    whatever follows a stream that ends past [to_page] is not read. *)
Theorem paragraphs_past_to_page_are_ignored (ps rest : list Paragraph) (st : QAState) :
  to_page < qa_pn (rloop st ps) ->
  rloop st (ps ++ rest) = rloop st ps.
Proof.
  revert st. induction ps as [| p ps IH]; intros st H.
  - simpl in *. destruct rest as [| r rest]; [reflexivity |]. simpl.
    replace (qa_pn st >? to_page) with true by (symmetry; apply Z.gtb_lt; lia).
    reflexivity.
  - simpl in *. destruct (qa_pn st >? to_page); [reflexivity |]. apply IH, H.
Qed.

End QATheorems.

Lemma qa_stack_depth_witness :
  (List.length (question_stack
                  (qa_loop Sample.level_of_style 0 10000 None None qa_init Sample.stream))
   <= 6)%nat.
Proof.
  apply (qa_stack_depth Sample.level_of_style 0 10000 None None Sample.stream).
  intros q. unfold Sample.level_of_style. simpl.
  destruct (String.eqb (par_style q) "Heading 1"); [lia |].
  destruct (String.eqb (par_style q) "Heading 2"); lia.
Defined.

(** ** Described pictures *)




Lemma paragraphs_past_to_page_are_ignored_witness :
  qa_loop Sample.level_of_style 0 0 None None qa_init
          ([Sample.heading_with_break] ++ Sample.stream)
  = qa_loop Sample.level_of_style 0 0 None None qa_init [Sample.heading_with_break].
Proof.
  apply (paragraphs_past_to_page_are_ignored Sample.level_of_style 0 0 None None
           [Sample.heading_with_break] Sample.stream qa_init).
  vm_compute. reflexivity.
Defined.

(** ** Pictures of an answer are stacked *)

Lemma concat_img_size (a b : option Image) (r : Image) :
  concat_img a b = Some r ->
  (image_size r).2 = opt_height a + opt_height b
  /\ (forall i, a = Some i \/ b = Some i -> (image_size i).1 <= (image_size r).1)
  /\ (exists i, (a = Some i \/ b = Some i) /\ (image_size i).1 = (image_size r).1).
Proof.
  destruct a as [i1 |], b as [i2 |]; simpl; try discriminate.
  - destruct (image_size i1) as [w1 h1] eqn:E1, (image_size i2) as [w2 h2] eqn:E2.
    intros [= <-]. simpl. split; [reflexivity |]. split.
    + intros i [[= <-] | [= <-]]; [rewrite E1 | rewrite E2]; simpl; lia.
    + destruct (Z.max_spec w1 w2) as [[_ ->] | [_ ->]].
      * exists i2. split; [right; reflexivity | rewrite E2; reflexivity].
      * exists i1. split; [left; reflexivity | rewrite E1; reflexivity].
  - intros [= <-]. simpl. split; [lia |]. split.
    + intros i [[= <-] | H]; [lia | discriminate].
    + exists i1. split; [left |]; reflexivity.
  - intros [= <-]. simpl. split; [lia |]. split.
    + intros i [H | [= <-]]; [discriminate | lia].
    + exists i2. split; [right |]; reflexivity.
Qed.

Lemma concat_img_fold_size :
  forall (l : list (option Image)) (acc : option Image) (r : Image),
    fold_left concat_img l acc = Some r ->
    (image_size r).2 = opt_height acc + sum_heights l
    /\ (forall i, Some i ∈ acc :: l -> (image_size i).1 <= (image_size r).1)
    /\ (exists i, Some i ∈ acc :: l /\ (image_size i).1 = (image_size r).1).
Proof.
  induction l as [| b l IH]; intros acc r H.
  - simpl in H. subst acc. unfold sum_heights. simpl. split; [lia |]. split.
    + intros i Hi. apply list_elem_of_singleton in Hi. injection Hi as <-. lia.
    + exists r. split; [left | reflexivity].
  - simpl in H. destruct (IH _ _ H) as (Hh & Hle & (i & Hi & Hw)).
    unfold sum_heights in *. simpl.
    destruct (concat_img acc b) as [m |] eqn:Em.
    + destruct (concat_img_size acc b m Em) as (Hmh & Hmle & (j & Hj & Hjw)).
      simpl in Hh. split; [lia |]. split.
      * intros x Hx. apply elem_of_cons in Hx as [Hx | Hx].
        -- transitivity (image_size m).1; [apply Hmle; left; congruence |].
           apply Hle. left.
        -- apply elem_of_cons in Hx as [Hx | Hx].
           ++ transitivity (image_size m).1; [apply Hmle; right; congruence |].
              apply Hle. left.
           ++ apply Hle. right. exact Hx.
      * apply elem_of_cons in Hi as [Hi | Hi].
        -- injection Hi as ->. exists j. split; [| lia].
           destruct Hj as [-> | ->]; [left | right; left].
        -- exists i. split; [right; right; exact Hi | exact Hw].
    + destruct acc as [a |], b as [b' |]; simpl in Em; try discriminate Em.
      { destruct (image_size a), (image_size b'). discriminate Em. }
      simpl in Hh |- *. split; [lia |]. split.
      * intros x Hx. apply elem_of_cons in Hx as [Hx | Hx]; [discriminate |].
        apply elem_of_cons in Hx as [Hx | Hx]; [discriminate |].
        apply Hle. right. exact Hx.
      * apply elem_of_cons in Hi as [Hi | Hi]; [discriminate |].
        exists i. split; [right; right; exact Hi | exact Hw].
Qed.

(** X24: Without a vision model the pictures of consecutive answer paragraphs
    are stacked into one pending image: over a run of paragraphs that are
    not questions and stay within [to_page], the pending image is the fold
    of [concat_img] over their pictures; its height is the sum of their
    heights and its width the largest of their widths. *)
Theorem answer_pictures_are_stacked (docx_question_level : Paragraph -> Z * string)
    (from_page to_page : Z) (vision_prompt : option string)
    (ps : list Paragraph) (st : QAState) :
  Forall (fun p => not_a_question (docx_question_level p).1 = true) ps ->
  qa_pn (qa_loop docx_question_level from_page to_page None vision_prompt st ps) <= to_page ->
  last_image (qa_loop docx_question_level from_page to_page None vision_prompt st ps)
  = fold_left concat_img (map par_picture ps) (last_image st)
  /\ forall r,
       last_image (qa_loop docx_question_level from_page to_page None vision_prompt st ps)
       = Some r ->
       (image_size r).2 = opt_height (last_image st) + sum_heights (map par_picture ps)
       /\ (forall i, Some i ∈ last_image st :: map par_picture ps ->
                     (image_size i).1 <= (image_size r).1)
       /\ (exists i, Some i ∈ last_image st :: map par_picture ps
                     /\ (image_size i).1 = (image_size r).1).
Proof.
  intros Hall Hpn.
  assert (Hfold :
    last_image (qa_loop docx_question_level from_page to_page None vision_prompt st ps)
    = fold_left concat_img (map par_picture ps) (last_image st)).
  { revert st Hpn. induction Hall as [| p ps Hp _ IH]; intros st Hpn; [reflexivity |].
    simpl in *. destruct (qa_pn st >? to_page) eqn:E.
    - apply Z.gtb_lt in E. lia.
    - rewrite (IH _ Hpn). f_equal.
      unfold qa_step, qa_paragraph.
      destruct (question_of_cases docx_question_level from_page to_page st p) as [-> | ->].
      + destruct (docx_question_level p) as [lvl t]. cbn [fst] in Hp. rewrite Hp.
        destruct (par_picture p); reflexivity.
      + cbn. destruct (par_picture p); reflexivity. }
  split; [exact Hfold |]. intros r Hr. rewrite Hfold in Hr.
  exact (concat_img_fold_size _ _ _ Hr).
Qed.

Lemma answer_pictures_are_stacked_witness :
  last_image (qa_loop Sample.level_of_style 0 10000 None None qa_init
                      [Sample.figure; Sample.body "text"; Sample.figure])
  = fold_left concat_img
      (map par_picture [Sample.figure; Sample.body "text"; Sample.figure]) None.
Proof.
  refine (proj1 (answer_pictures_are_stacked Sample.level_of_style 0 10000 None
                   [Sample.figure; Sample.body "text"; Sample.figure] qa_init _ _)).
  - repeat constructor.
  - vm_compute. discriminate.
Defined.

(** ** Sections without geometry are chunked verbatim *)

Lemma tag_pos_zero : poss_tags [zero_pos] = "".
Proof. vm_compute. reflexivity. Qed.

(** X25: The sections of a parser that returns pairs (text, layout), as the
    plain-text and vision parsers do, get the position [0, 0, 0, 0, 0];
    when their section ids are all 0 and there is no table, the chunks are
    exactly the section texts, one per section, in document order. *)
Theorem pairs_are_chunked_verbatim (num_tokens_from_string : string -> Z)
    (pairs : list (string * string)) (most_level : Z) (levels : list Z) :
  List.length levels = List.length pairs ->
  Forall (fun l => most_level < l) levels \/ (exists c, Forall (fun l => l = c) levels) ->
  merge_sections num_tokens_from_string
    (with_sec_ids (with_positions (Sec2 pairs)) (sec_ids most_level levels)
       ++ table_items (Image := Image) 0 [])
  = Some (map fst pairs).
Proof.
  intros Hlen Hflat.
  assert (Hids : sec_ids most_level levels = replicate (List.length levels) 0).
  { rewrite sec_ids_carried. apply ids_carried_flat.
    destruct Hflat as [H | [c H]]; [left; exact H | right; exists c; auto]. }
  rewrite Hids, Hlen. cbn [table_items omap list_omap]. rewrite app_nil_r.
  replace (List.length pairs) with (List.length (with_positions (Sec2 pairs)))
    by (simpl; apply length_map).
  rewrite with_sec_ids_zero. simpl with_positions. rewrite map_map.
  set (items := map _ pairs).
  assert (Hkey : Forall (fun x => sort_key x = Some (0, Py.fzero, Py.fzero)) items).
  { apply Forall_fmap, Forall_forall. intros [t l] _. reflexivity. }
  assert (Hpieces : map item_piece items = map fst pairs).
  { unfold items. rewrite map_map. apply map_ext. intros [t l].
    unfold item_piece, item_txt, item_poss. cbn [fst snd].
    rewrite tag_pos_zero. apply string_app_nil_r. }
  unfold merge_sections. rewrite (py_sorted_same_key _ _ Hkey).
  destruct (decide (pairs = [])) as [-> | Hne]; [reflexivity |].
  rewrite using_vision_parser_all_zero.
  - cbn [mbind option_bind]. rewrite merge_loop_no_merging, Hpieces. reflexivity.
  - unfold items. destruct pairs; [congruence | discriminate].
  - apply Forall_fmap, Forall_forall. intros [t l] _. reflexivity.
Qed.

Lemma pairs_are_chunked_verbatim_witness :
  merge_sections Sample.count_chars
    (with_sec_ids (with_positions (Sec2 [("page two", ""); ("page one", "")]))
                  (sec_ids 0 [1; 1])
       ++ table_items (Image := Image) 0 [])
  = Some ["page two"; "page one"].
Proof.
  apply (pairs_are_chunked_verbatim Sample.count_chars
           [("page two", ""); ("page one", "")] 0 [1; 1]).
  - reflexivity.
  - left. repeat constructor.
Defined.

(** ** Clean-up of the PDF text boxes *)

Lemma is_blank_is_space (c : ascii) : is_blank c = true -> is_space c = true.
Proof. destruct c as [[] [] [] [] [] [] [] []]; vm_compute; congruence. Qed.

Lemma has_double_blank_cons (a : ascii) (s : string) :
  is_blank a = false -> has_double_blank (String a s) = has_double_blank s.
Proof. intros Ha. destruct s as [| b s]; [reflexivity |]. simpl. rewrite Ha. reflexivity. Qed.

Lemma has_double_blank_step (a b : ascii) (s : string) :
  has_double_blank (String a (String b s))
  = (is_blank a && is_blank b) || has_double_blank (String b s).
Proof. reflexivity. Qed.

Lemma has_double_blank_flush (run : option (ascii * bool)) (c : ascii) (s : string) :
  is_blank c = false ->
  has_double_blank (flush_run run +:+ String c s) = has_double_blank s.
Proof.
  intros Hc. destruct run as [[c0 []] |].
  - change (has_double_blank (String " " (String c s)) = has_double_blank s).
    rewrite has_double_blank_step, Hc, andb_false_r. apply has_double_blank_cons, Hc.
  - change (has_double_blank (String c0 (String c s)) = has_double_blank s).
    rewrite has_double_blank_step, Hc, andb_false_r. apply has_double_blank_cons, Hc.
  - change (has_double_blank (String c s) = has_double_blank s).
    apply has_double_blank_cons, Hc.
Qed.

Lemma squeeze_no_double_blank (s : string) :
  forall run, has_double_blank (squeeze run s) = false.
Proof.
  induction s as [| c s IH]; intros run.
  - destruct run as [[c0 []] |]; reflexivity.
  - simpl. destruct (is_blank c) eqn:Ec; [apply IH |].
    rewrite has_double_blank_flush by exact Ec. apply IH.
Qed.

(** A text without two neighbouring blanks is left as it is. *)
Lemma squeeze_fixes (s : string) :
  (has_double_blank s = false -> squeeze None s = s)
  /\ (forall c, is_blank c = true -> has_double_blank (String c s) = false ->
                squeeze (Some (c, false)) s = String c s).
Proof.
  induction s as [| d s [IH1 IH2]]; [split; reflexivity |].
  split.
  - intros H. simpl. destruct (is_blank d) eqn:Ed.
    + apply IH2; assumption.
    + rewrite has_double_blank_cons in H by exact Ed.
      change (String d (squeeze None s) = String d s). rewrite IH1 by exact H. reflexivity.
  - intros c Hc H. rewrite has_double_blank_step, Hc in H. cbn [andb] in H.
    apply orb_false_iff in H as [Hd H]. simpl. rewrite Hd.
    rewrite has_double_blank_cons in H by exact Hd.
    change (String c (String d (squeeze None s)) = String c (String d s)).
    rewrite IH1 by exact H. reflexivity.
Qed.

Lemma squeeze_length (s : string) :
  forall run,
    (String.length (squeeze run s) <= String.length (flush_run run) + String.length s)%nat.
Proof.
  induction s as [| c s IH]; intros run; [simpl; lia |].
  simpl. destruct (is_blank c).
  - etransitivity; [apply IH |]. destruct run as [[c0 []] |]; simpl; lia.
  - specialize (IH None). simpl in IH.
    destruct run as [[c0 []] |];
      change (String.length (flush_run _ +:+ String c (squeeze None s)))
        with (S (S (String.length (squeeze None s))))
      || change (String.length (flush_run None +:+ String c (squeeze None s)))
           with (S (String.length (squeeze None s)));
      simpl; lia.
Qed.

Lemma lstrip_length (s : string) : (String.length (lstrip s) <= String.length s)%nat.
Proof. induction s as [| c s IH]; simpl; [lia |]. destruct (is_space c); simpl; lia. Qed.

Lemma rstrip_length (s : string) : (String.length (rstrip s) <= String.length s)%nat.
Proof.
  induction s as [| c s IH]; simpl; [lia |].
  destruct (rstrip s); [destruct (is_space c) |]; simpl in *; lia.
Qed.

Lemma lstrip_first (s : string) (c : ascii) :
  first_char (lstrip s) = Some c -> is_space c = false.
Proof.
  induction s as [| d s IH]; simpl; [discriminate |].
  destruct (is_space d) eqn:Ed; [exact IH |]. simpl. intros [= <-]. exact Ed.
Qed.

Lemma rstrip_last (s : string) (c : ascii) :
  last_char (rstrip s) = Some c -> is_space c = false.
Proof.
  induction s as [| d s IH]; simpl; [discriminate |].
  destruct (rstrip s) as [| e kept] eqn:E.
  - destruct (is_space d) eqn:Ed; simpl; [discriminate |]. intros [= <-]. exact Ed.
  - exact IH.
Qed.

Lemma rstrip_first (s : string) (c : ascii) :
  first_char (rstrip s) = Some c -> first_char s = Some c.
Proof.
  destruct s as [| d s]; simpl; [discriminate |].
  destruct (rstrip s); [destruct (is_space d) |]; simpl; congruence.
Qed.

Lemma strip_trimmed (s : string) : trimmed (strip s).
Proof.
  unfold strip. split.
  - intros c H. apply rstrip_first in H. exact (lstrip_first s c H).
  - apply rstrip_last.
Qed.

Lemma lstrip_fixes (s : string) :
  (forall c, first_char s = Some c -> is_space c = false) -> lstrip s = s.
Proof. destruct s as [| d s]; [reflexivity |]. simpl. intros H. rewrite (H d eq_refl). reflexivity. Qed.

Lemma rstrip_fixes (s : string) :
  (forall c, last_char s = Some c -> is_space c = false) -> rstrip s = s.
Proof.
  induction s as [| d s IH]; [reflexivity |]. intros H. simpl.
  destruct s as [| e s].
  - simpl. rewrite (H d eq_refl). reflexivity.
  - rewrite IH by exact H. reflexivity.
Qed.

Lemma strip_fixes (s : string) : trimmed s -> strip s = s.
Proof. intros [H1 H2]. unfold strip. rewrite (lstrip_fixes s H1). apply rstrip_fixes, H2. Qed.

Lemma squeeze_first (s : string) (c : ascii) :
  first_char s = Some c -> is_blank c = false ->
  first_char (squeeze None s) = Some c.
Proof. destruct s as [| d s]; [discriminate |]. intros [= ->] Hc. simpl. rewrite Hc. reflexivity. Qed.

Lemma last_char_app (a : string) (c : ascii) (s : string) :
  last_char (a +:+ String c s) = last_char (String c s).
Proof.
  induction a as [| d a IH]; [reflexivity |].
  change (last_char (String d (a +:+ String c s)) = last_char (String c s)).
  destruct a as [| e a]; [exact IH |]. exact IH.
Qed.

Lemma squeeze_step (run : option (ascii * bool)) (c : ascii) (rest : string) :
  squeeze run (String c rest)
  = if is_blank c then
      squeeze (match run with None => Some (c, false) | Some (c0, _) => Some (c0, true) end)
              rest
    else flush_run run +:+ String c (squeeze None rest).
Proof. reflexivity. Qed.

Lemma squeeze_last (s : string) :
  forall run c, last_char s = Some c -> is_blank c = false ->
                last_char (squeeze run s) = Some c.
Proof.
  induction s as [| d s IH]; intros run c Hl Hc; [discriminate |].
  destruct s as [| e s].
  - injection Hl as ->. simpl. rewrite Hc.
    rewrite last_char_app. reflexivity.
  - change (last_char (String d (String e s))) with (last_char (String e s)) in Hl.
    rewrite squeeze_step. destruct (is_blank d).
    + apply IH; assumption.
    + rewrite last_char_app.
      specialize (IH None c Hl Hc).
      destruct (squeeze None (String e s)) as [| x y] eqn:E; [discriminate |].
      exact IH.
Qed.

Lemma not_space_not_blank (c : ascii) : is_space c = false -> is_blank c = false.
Proof.
  intros H. destruct (is_blank c) eqn:E; [| reflexivity].
  apply is_blank_is_space in E. congruence.
Qed.

Lemma last_char_some (d : ascii) (r : string) : exists l, last_char (String d r) = Some l.
Proof.
  revert d. induction r as [| e r IH]; intros d; [exists d; reflexivity |].
  destruct (IH e) as [l Hl]. exists l. exact Hl.
Qed.

Lemma clean_text_trimmed (s : string) : trimmed (clean_text s).
Proof.
  unfold clean_text. destruct (strip_trimmed s) as [H1 H2].
  destruct (strip s) as [| d r] eqn:E; [split; discriminate |]. split.
  - intros c Hc. pose proof (H1 d eq_refl) as Hd.
    rewrite (squeeze_first (String d r) d eq_refl (not_space_not_blank d Hd)) in Hc.
    injection Hc as <-. exact Hd.
  - intros c Hc. destruct (last_char (String d r)) as [l |] eqn:El.
    + pose proof (H2 l eq_refl) as Hl.
      rewrite (squeeze_last (String d r) None l El (not_space_not_blank l Hl)) in Hc.
      injection Hc as <-. exact Hl.
    + destruct (last_char_some d r) as [l Hl]. congruence.
Qed.

(** X26: The text of a box after the clean-up of line 64: it has no whitespace
    at either end, no two neighbouring blanks (tabs or spaces), and is never
    longer than the original; cleaning is idempotent, and a text that is
    already clean is unchanged. *)
Theorem clean_text_is_clean (s : string) :
  trimmed (clean_text s)
  /\ has_double_blank (clean_text s) = false
  /\ (String.length (clean_text s) <= String.length s)%nat
  /\ clean_text (clean_text s) = clean_text s
  /\ (trimmed s -> has_double_blank s = false -> clean_text s = s).
Proof.
  assert (Hfix : forall x, trimmed x -> has_double_blank x = false -> clean_text x = x).
  { intros x Ht Hd. unfold clean_text. rewrite (strip_fixes x Ht).
    apply squeeze_fixes, Hd. }
  split; [apply clean_text_trimmed |].
  split; [apply squeeze_no_double_blank |].
  split.
  - unfold clean_text, strip.
    pose proof (squeeze_length (rstrip (lstrip s)) None) as H1.
    pose proof (rstrip_length (lstrip s)) as H2.
    pose proof (lstrip_length s) as H3. simpl in H1. lia.
  - split; [| apply Hfix].
    apply Hfix; [apply clean_text_trimmed | apply squeeze_no_double_blank].
Qed.

Lemma clean_text_is_clean_witness : clean_text "3.1 Safety notes" = "3.1 Safety notes".
Proof.
  destruct (clean_text_is_clean "3.1 Safety notes") as (_ & _ & _ & _ & H).
  apply H; [split; intros c [= <-]; reflexivity | reflexivity].
Defined.

(** [Pdf.__call__] returns one section per box, as a triple: the cleaned
    text, the box's layout number ("" when it has none) and its positions;
    the tables are passed through. *)
Theorem Pdf_return_sections (boxes : list Box) (tbls : list (Table Image)) :
  (Pdf_return boxes tbls).2 = tbls
  /\ exists secs,
       (Pdf_return boxes tbls).1 = Sec3 secs
       /\ with_positions (Pdf_return boxes tbls).1 = secs
       /\ List.length secs = List.length boxes
       /\ forall (i : nat) b,
            boxes !! i = Some b ->
            exists txt,
              secs !! i = Some (txt, default "" (box_layoutno b), box_position b)
              /\ txt = clean_text (box_text b)
              /\ trimmed txt /\ has_double_blank txt = false.
Proof.
  split; [reflexivity |]. eexists. split; [reflexivity |]. split; [reflexivity |].
  split; [apply length_map |].
  intros i b Hb. eexists. split.
  - rewrite list_lookup_fmap, Hb. reflexivity.
  - split; [reflexivity |]. split; [apply clean_text_trimmed | apply squeeze_no_double_blank].
Qed.
